(** * libxml-ruby: the DTD handle adapter and the streaming writer adapter

    A shallow embedding of [ext/libxml/ruby_xml_dtd.c] and
    [ext/libxml/ruby_xml_writer.c].  The C functions of the two files are
    written as programs of a state-and-exception monad over a world that
    holds the native memory the functions touch and a trace of the calls
    they make into libxml2.  libxml2 itself and the Ruby runtime are the
    environment: what libxml2 decides (whether a call succeeds, which bytes
    a writer primitive emits) is taken as a parameter of the development. *)

From Stdlib Require Import ZArith String Ascii.
From stdpp Require Import gmap strings list.

Local Open Scope string_scope.
Local Open Scope list_scope.
Local Open Scope stdpp_scope.

(** ** Ruby values and the outcome of a C function called by the runtime *)

(** Native addresses.  A nullable C pointer is an [option ptr], [None]
    being [NULL]. *)
Definition ptr := positive.

Definition rb_encoding := string.
Definition rb_utf8_encoding : rb_encoding := "UTF-8".

Inductive rclass := cXMLDocument | cXMLDtd | cXMLWriter | cIO | cObject.

Global Instance rclass_eq_dec : EqDecision rclass.
Proof. solve_decision. Defined.

(** A Ruby [VALUE].  [Data k p] is an object of class [k] wrapping the
    native pointer [p] (a T_DATA object, or any other heap object, whose
    identity is then [p]).  A hash is keyed by symbols, as the option hash
    of [start_document] is. *)
#[warnings="-register-all"]
Inductive VALUE :=
| Qnil
| Qfalse
| Qtrue
| Fixnum (n : Z)
| Str (s : string) (enc : rb_encoding)
| Sym (s : string)
| Hash (h : list (string * VALUE))
| Data (k : rclass) (p : option ptr).

Inductive ruby_type :=
| T_NIL | T_FALSE | T_TRUE | T_FIXNUM | T_STRING | T_SYMBOL | T_HASH | T_DATA.

Global Instance ruby_type_eq_dec : EqDecision ruby_type.
Proof. solve_decision. Defined.

Definition rb_type (v : VALUE) : ruby_type :=
  match v with
  | Qnil => T_NIL
  | Qfalse => T_FALSE
  | Qtrue => T_TRUE
  | Fixnum _ => T_FIXNUM
  | Str _ _ => T_STRING
  | Sym _ => T_SYMBOL
  | Hash _ => T_HASH
  | Data _ _ => T_DATA
  end.

Definition NIL_P (v : VALUE) : bool :=
  match v with Qnil => true | _ => false end.

Definition is_Qfalse (v : VALUE) : bool :=
  match v with Qfalse => true | _ => false end.

(** [RTEST] and [RB_TEST]: everything but [nil] and [false] is truthy. *)
Definition RTEST (v : VALUE) : bool := negb (NIL_P v || is_Qfalse v).

Definition rb_obj_is_kind_of (v : VALUE) (k : rclass) : bool :=
  match v with
  | Data k' _ => bool_decide (k' = k)
  | _ => false
  end.

(** The last error libxml2 recorded. *)
Record xmlError := { err_code : Z; err_message : string }.

Inductive exn :=
| TypeError (msg : string)
| ArgError (msg : string)
| RangeError (msg : string)
| LibXMLError (e : option xmlError).

(** How a C function ends: it returns, it raises a Ruby exception, or it
    does what C leaves undefined: it dereferences a pointer that is [NULL]
    or no longer allocated, or reads a value as an object of a type the
    value has not. *)
Inductive outcome (A : Type) :=
| Ok (a : A)
| Raised (e : exn)
| Crash.
Arguments Ok {A} a.
Arguments Raised {A} e.
Arguments Crash {A}.

(** Programs over a world [W]: the world after a raise is the world at the
    point of the raise. *)
Definition ST (W A : Type) : Type := W -> outcome A * W.

Global Instance ST_ret {W} : MRet (ST W) := fun A a w => (Ok a, w).

Global Instance ST_bind {W} : MBind (ST W) := fun A B f m w =>
  match m w with
  | (Ok a, w') => f a w'
  | (Raised e, w') => (Raised e, w')
  | (Crash, w') => (Crash, w')
  end.

Definition rb_raise {W A} (e : exn) : ST W A := fun w => (Raised e, w).
Definition crash {W A} : ST W A := fun w => (Crash, w).
Definition gets {W A} (f : W -> A) : ST W A := fun w => (Ok (f w), w).
Definition modify {W} (f : W -> W) : ST W unit := fun w => (Ok tt, f w).

(** Modelled from the spec: [rxml_raise], which is defined in another file
    of the extension.  A failure of the native library is surfaced as a
    raised error that carries the native library's last diagnostic. *)
Definition rxml_raise {W A} (e : option xmlError) : ST W A :=
  rb_raise (LibXMLError e).

Definition Check_Type {W} (v : VALUE) (t : ruby_type) : ST W unit :=
  if bool_decide (rb_type v = t) then mret tt
  else rb_raise (TypeError "wrong argument type").

(** [StringValuePtr]: the bytes of a String (anything else has no implicit
    conversion). *)
Definition StringValuePtr {W} (v : VALUE) : ST W string :=
  match v with
  | Str s _ => mret s
  | _ => rb_raise (TypeError "no implicit conversion into String")
  end.

Definition NUL : ascii := Ascii.zero.

Fixpoint has_nul (s : string) : bool :=
  match s with
  | EmptyString => false
  | String c r => Ascii.eqb c NUL || has_nul r
  end.

(** What native code reads through a [char*]: the bytes up to the first
    NUL. *)
Fixpoint cstr (s : string) : string :=
  match s with
  | EmptyString => EmptyString
  | String c r => if Ascii.eqb c NUL then EmptyString else String c (cstr r)
  end.

(** [StringValueCStr]: as [StringValuePtr], and the String must hold no
    NUL byte. *)
Definition StringValueCStr {W} (v : VALUE) : ST W string :=
  match v with
  | Str s _ => if has_nul s then rb_raise (ArgError "string contains null byte")
               else mret s
  | _ => rb_raise (TypeError "no implicit conversion into String")
  end.

Definition arg (i : nat) (args : list VALUE) : VALUE := nth i args Qnil.

(** [rb_scan_args(argc, argv, "<req><opt>", ...)]: [req] mandatory and [opt]
    optional arguments; the optional ones that are missing are [nil]. *)
Definition rb_scan_args {W} (req opt : nat) (argv : list VALUE)
  : ST W (list VALUE) :=
  if bool_decide (req ≤ List.length argv ≤ req + opt)%nat
  then mret (argv ++ replicate (req + opt - List.length argv) Qnil)
  else rb_raise (ArgError "wrong number of arguments").

Definition Data_Get_Struct {W} (v : VALUE) : ST W (option ptr) :=
  match v with
  | Data _ p => mret p
  | _ => rb_raise (TypeError "wrong argument type")
  end.

(** ** The DTD handle adapter ([ruby_xml_dtd.c]) *)

Module Dtd.

(** The fields of libxml2's [xmlDtd] that the adapter reads. *)
Record xmlDtd := {
  dtd_name : option string;
  dtd_ExternalID : option string;
  dtd_SystemID : option string;
  dtd_type : Z;
  dtd_doc : option ptr;
  dtd_parent : option ptr }.

Definition set_dtd_doc (xdoc : option ptr) (d : xmlDtd) : xmlDtd :=
  {| dtd_name := dtd_name d; dtd_ExternalID := dtd_ExternalID d;
     dtd_SystemID := dtd_SystemID d; dtd_type := dtd_type d;
     dtd_doc := xdoc; dtd_parent := dtd_parent d |}.

(** The libxml2 calls that create or parse a DTD, with their arguments. *)
Inductive native_call :=
| NewDtd (xdoc : option ptr) (xname : option string) (xpublic xsystem : string)
| CreateIntSubset (xdoc : option ptr) (xname : option string)
    (xpublic xsystem : string)
| ParseDTD (ExternalID SystemID : string)
| IOParseDTD (input : string).

(** Every call into libxml2, in the order made. *)
Inductive event :=
| EvCreate (c : native_call)
| EvAllocParserInputBuffer
| EvStrdup (s : string)
| EvParserInputBufferPush (s : string)
| EvFree (s : string)
| EvSetTreeDoc (xdtd : ptr) (xdoc : option ptr)
| EvFreeDtd (xdtd : ptr).

Record world := {
  dtds : gmap ptr xmlDtd;          (* the native DTD objects that are allocated *)
  last_error : option xmlError;    (* xmlGetLastError() *)
  trace : list event }.            (* the libxml2 calls made so far *)

Definition log (e : event) (w : world) : world :=
  {| dtds := dtds w; last_error := last_error w; trace := trace w ++ [e] |}.

Definition set_dtds (h : gmap ptr xmlDtd) (w : world) : world :=
  {| dtds := h; last_error := last_error w; trace := trace w |}.

Definition set_last_error (e : option xmlError) (w : world) : world :=
  {| dtds := dtds w; last_error := e; trace := trace w |}.

Abbreviation M := (ST world).

(** [xdtd->field]: a read through a pointer that is [NULL] or dangling
    crashes. *)
Definition deref (xdtd : option ptr) : M xmlDtd := fun w =>
  match xdtd ≫= (fun p => dtds w !! p) with
  | Some d => (Ok d, w)
  | None => (Crash, w)
  end.

Definition xmlGetLastError : M (option xmlError) := gets last_error.

Definition xmlFreeDtd (xdtd : ptr) : M unit :=
  _ ← deref (Some xdtd);
  modify (fun w => log (EvFreeDtd xdtd) (set_dtds (delete xdtd (dtds w)) w)).

Definition xmlSetTreeDoc (xdtd : ptr) (xdoc : option ptr) : M unit :=
  d ← deref (Some xdtd);
  modify (fun w =>
    log (EvSetTreeDoc xdtd xdoc)
        (set_dtds (<[xdtd := set_dtd_doc xdoc d]> (dtds w)) w)).

(** A T_DATA object: the class, the mark and free hooks given to
    [Data_Wrap_Struct], and the wrapped pointer. *)
Record RData := {
  klass : rclass;
  dmark : option (option ptr -> M (list VALUE));
  dfree : option (ptr -> M unit);
  data : option ptr }.

Definition set_dfree (f : option (ptr -> M unit)) (o : RData) : RData :=
  {| klass := klass o; dmark := dmark o; dfree := f; data := data o |}.

Definition set_data (p : option ptr) (o : RData) : RData :=
  {| klass := klass o; dmark := dmark o; dfree := dfree o; data := p |}.

Definition Data_Wrap_Struct (k : rclass)
    (mark : option (option ptr -> M (list VALUE)))
    (free : option (ptr -> M unit)) (p : option ptr) : RData :=
  {| klass := k; dmark := mark; dfree := free; data := p |}.

(** What the garbage collector does with a T_DATA object it collects: the
    free hook, when there is one, is called on the wrapped pointer, when
    there is one. *)
Definition rb_data_free (o : RData) : M unit :=
  match dfree o, data o with
  | Some free, Some p => free p
  | _, _ => mret tt
  end.

Definition rxml_dtd_free (xdtd : ptr) : M unit :=
  d ← deref (Some xdtd);
  match dtd_doc d, dtd_parent d with
  | None, None => xmlFreeDtd xdtd
  | _, _ => mret tt
  end.

(** [rb_gc_mark(doc)] for the Ruby object that wraps [xdtd->doc]: the
    result lists the values marked. *)
Definition rxml_dtd_mark (xdtd : option ptr) : M (list VALUE) :=
  match xdtd with
  | None => mret []
  | Some p =>
      d ← deref (Some p);
      match dtd_doc d with
      | Some xdoc => mret [Data cXMLDocument (Some xdoc)]
      | None => mret []
      end
  end.

Definition rxml_dtd_alloc (k : rclass) : RData :=
  Data_Wrap_Struct k (Some rxml_dtd_mark) (Some rxml_dtd_free) None.

Definition rxml_dtd_wrap (xdtd : ptr) : RData :=
  Data_Wrap_Struct cXMLDtd None None (Some xdtd).

(** Modelled from the spec: [rxml_new_cstr], which is defined in another
    file of the extension.  An accessor returns the text value as it is;
    with no encoding given the String is tagged UTF-8. *)
Definition rxml_new_cstr (xstr : string) (xencoding : option string) : VALUE :=
  Str xstr (default rb_utf8_encoding xencoding).

Definition INT2NUM (n : Z) : VALUE := Fixnum n.

Definition rxml_dtd_external_id_get (self : RData) : M VALUE :=
  xdtd ← deref (data self);
  match dtd_ExternalID xdtd with
  | None => mret Qnil
  | Some s => mret (rxml_new_cstr s None)
  end.

Definition rxml_dtd_name_get (self : RData) : M VALUE :=
  xdtd ← deref (data self);
  match dtd_name xdtd with
  | None => mret Qnil
  | Some s => mret (rxml_new_cstr s None)
  end.

Definition rxml_dtd_uri_get (self : RData) : M VALUE :=
  xdtd ← deref (data self);
  match dtd_SystemID xdtd with
  | None => mret Qnil
  | Some s => mret (rxml_new_cstr s None)
  end.

Definition rxml_dtd_type (self : RData) : M VALUE :=
  xdtd ← deref (data self);
  mret (INT2NUM (dtd_type xdtd)).

Section Initialize.

(** What libxml2 answers to a creation or parse call in a given world: the
    DTD object it builds, or a failure with the error it records. *)
Variable libxml2 : native_call -> world -> xmlDtd + option xmlError.

(** A creation or parse call: the new object is allocated at a fresh
    address; on failure the result is [NULL]. *)
Definition native_create (c : native_call) : M (option ptr) := fun w =>
  let w1 := log (EvCreate c) w in
  match libxml2 c w with
  | inl d =>
      let p := fresh (dom (dtds w)) in
      (Ok (Some p), set_dtds (<[p := d]> (dtds w)) w1)
  | inr e => (Ok None, set_last_error e w1)
  end.

Definition xmlNewDtd xdoc xname xpublic xsystem : M (option ptr) :=
  native_create (NewDtd xdoc (cstr <$> xname) (cstr xpublic) (cstr xsystem)).

Definition xmlCreateIntSubset xdoc xname xpublic xsystem : M (option ptr) :=
  native_create
    (CreateIntSubset xdoc (cstr <$> xname) (cstr xpublic) (cstr xsystem)).

Definition xmlParseDTD (ExternalID SystemID : string) : M (option ptr) :=
  native_create (ParseDTD (cstr ExternalID) (cstr SystemID)).

(** The parser input buffer is held by value: its content. *)
Definition xmlAllocParserInputBuffer : M string :=
  _ ← modify (log EvAllocParserInputBuffer); mret "".

Definition xmlStrdup (s : string) : M string :=
  _ ← modify (log (EvStrdup (cstr s))); mret (cstr s).

Definition xmlParserInputBufferPush (buffer : string) (s : string) : M string :=
  _ ← modify (log (EvParserInputBufferPush s)); mret (buffer +:+ s).

Definition xmlIOParseDTD (buffer : string) : M (option ptr) :=
  native_create (IOParseDTD buffer).

Definition xmlFree (s : string) : M unit := modify (log (EvFree s)).

Definition rxml_dtd_initialize (argv : list VALUE) (self : RData) : M RData :=
  match List.length argv with
  | 3 | 4 | 5 =>
      args ← rb_scan_args 2 3 argv;
      let external := arg 0 args in
      let system := arg 1 args in
      let name := arg 2 args in
      let doc := arg 3 args in
      let internal := arg 4 args in
      _ ← Check_Type external T_STRING;
      xpublic ← StringValuePtr external;
      _ ← Check_Type system T_STRING;
      xsystem ← StringValuePtr system;
      xname ← (if NIL_P name then mret None
               else _ ← Check_Type name T_STRING;
                    s ← StringValuePtr name;
                    mret (Some s));
      xdoc ← (if NIL_P doc then mret None
              else if negb (rb_obj_is_kind_of doc cXMLDocument)
              then rb_raise
                     (TypeError "Must pass an LibXML::XML::Document object")
              else Data_Get_Struct doc);
      xdtd ← (if NIL_P internal || is_Qfalse internal
              then xmlNewDtd xdoc xname xpublic xsystem
              else xmlCreateIntSubset xdoc xname xpublic xsystem);
      match xdtd with
      | None => e ← xmlGetLastError; rxml_raise e
      | Some p =>
          (* The document will free the dtd so Ruby should not *)
          let self := set_dfree None self in
          let self := set_data (Some p) self in
          _ ← xmlSetTreeDoc p xdoc;
          mret self
      end
  | 2 =>
      args ← rb_scan_args 2 0 argv;
      let external := arg 0 args in
      let system := arg 1 args in
      _ ← Check_Type external T_STRING;
      _ ← Check_Type system T_STRING;
      xexternal ← StringValuePtr external;
      xsystem ← StringValuePtr system;
      xdtd ← xmlParseDTD xexternal xsystem;
      match xdtd with
      | None => e ← xmlGetLastError; rxml_raise e
      | Some p =>
          let self := set_data (Some p) self in
          _ ← xmlSetTreeDoc p None;
          mret self
      end
  | 1 =>
      args ← rb_scan_args 1 0 argv;
      let dtd_string := arg 0 args in
      _ ← Check_Type dtd_string T_STRING;
      buffer ← xmlAllocParserInputBuffer;
      s ← StringValuePtr dtd_string;
      new_string ← xmlStrdup s;
      buffer ← xmlParserInputBufferPush buffer new_string;
      xdtd ← xmlIOParseDTD buffer;
      match xdtd with
      | None => e ← xmlGetLastError; rxml_raise e
      | Some p =>
          _ ← xmlFree new_string;
          mret (set_data (Some p) self)
      end
  | _ => rb_raise (ArgError "wrong number of arguments")
  end.

(** The class as [rxml_init_dtd] registers it. *)
Inductive method :=
| Variadic (f : list VALUE -> RData -> M RData)     (* arity -1, returns self *)
| Nullary (f : RData -> M VALUE).                    (* arity 0 *)

Record rb_class := {
  alloc_func : option (rclass -> RData);
  methods : list (string * method) }.

Definition lookup_method (name : string) (c : rb_class) : option method :=
  snd <$> List.find (fun '(n, _) => String.eqb n name) (methods c).

Definition rb_define_class_under : rb_class :=
  {| alloc_func := None; methods := [] |}.

Definition rb_define_alloc_func (c : rb_class) (f : rclass -> RData) : rb_class :=
  {| alloc_func := Some f; methods := methods c |}.

Definition rb_define_method (c : rb_class) (name : string) (m : method)
  : rb_class :=
  {| alloc_func := alloc_func c; methods := (name, m) :: methods c |}.

Definition rb_define_alias (c : rb_class) (new old : string) : rb_class :=
  match lookup_method old c with
  | Some m => rb_define_method c new m
  | None => c
  end.

Definition rxml_init_dtd : rb_class :=
  let cXMLDtd := rb_define_class_under in
  let cXMLDtd := rb_define_alloc_func cXMLDtd rxml_dtd_alloc in
  let cXMLDtd := rb_define_method cXMLDtd "initialize"
                   (Variadic rxml_dtd_initialize) in
  let cXMLDtd := rb_define_method cXMLDtd "external_id"
                   (Nullary rxml_dtd_external_id_get) in
  let cXMLDtd := rb_define_method cXMLDtd "name" (Nullary rxml_dtd_name_get) in
  let cXMLDtd := rb_define_method cXMLDtd "uri" (Nullary rxml_dtd_uri_get) in
  let cXMLDtd := rb_define_method cXMLDtd "node_type" (Nullary rxml_dtd_type) in
  rb_define_alias cXMLDtd "system_id" "uri".

(** Calling an accessor by name on a handle. *)
Definition send (name : string) (self : RData) : M VALUE :=
  match lookup_method name rxml_init_dtd with
  | Some (Nullary f) => f self
  | _ => rb_raise (ArgError "no such accessor")
  end.

(** [XML::Dtd.new] on the arguments [argv]: allocate, then initialize. *)
Definition Dtd_new (argv : list VALUE) : M RData :=
  match alloc_func rxml_init_dtd, lookup_method "initialize" rxml_init_dtd with
  | Some alloc, Some (Variadic init) => init argv (alloc cXMLDtd)
  | _, _ => rb_raise (ArgError "class not initialised")
  end.

End Initialize.

(** *** Properties of the DTD handle adapter *)

Ltac st_unfold :=
  unfold mbind, mret, ST_bind, ST_ret, rb_raise, rxml_raise, crash, gets,
    modify in *.

(** A sample world and oracle, used to run the definitions: one native DTD
    at address 1 that belongs to no document, and a libxml2 that builds the
    object it is asked for. *)
Definition sample_dtd : xmlDtd :=
  {| dtd_name := Some "root"; dtd_ExternalID := None;
     dtd_SystemID := Some "root.dtd"; dtd_type := 14;
     dtd_doc := None; dtd_parent := None |}.

Definition sample_world : world :=
  {| dtds := {[ 1%positive := sample_dtd ]}; last_error := None; trace := [] |}.

Definition sample_libxml2 (c : native_call) (w : world)
  : xmlDtd + option xmlError :=
  match c with
  | NewDtd xdoc xname xpublic xsystem =>
      inl {| dtd_name := xname; dtd_ExternalID := Some xpublic;
             dtd_SystemID := Some xsystem; dtd_type := 14;
             dtd_doc := xdoc; dtd_parent := None |}
  | CreateIntSubset xdoc xname xpublic xsystem =>
      inl {| dtd_name := xname; dtd_ExternalID := Some xpublic;
             dtd_SystemID := Some xsystem; dtd_type := 14;
             dtd_doc := xdoc; dtd_parent := xdoc |}
  | ParseDTD ExternalID SystemID =>
      inl {| dtd_name := None; dtd_ExternalID := Some ExternalID;
             dtd_SystemID := Some SystemID; dtd_type := 14;
             dtd_doc := None; dtd_parent := None |}
  | IOParseDTD input =>
      if String.eqb input ""
      then inr (Some {| err_code := 4; err_message := "Document is empty" |})
      else inl {| dtd_name := None; dtd_ExternalID := None;
                  dtd_SystemID := None; dtd_type := 14;
                  dtd_doc := None; dtd_parent := None |}
  end.

(** The native object at [xdtd] was released between [w] and [w']. *)
Definition freed (xdtd : ptr) (w w' : world) : Prop :=
  dtds w' !! xdtd = None /\ trace w' = trace w ++ [EvFreeDtd xdtd].

Lemma deref_live (xdtd : ptr) (d : xmlDtd) (w : world) :
  dtds w !! xdtd = Some d -> deref (Some xdtd) w = (Ok d, w).
Proof. intros H. unfold deref. simpl. by rewrite H. Qed.

(** The collector runs [rxml_dtd_free] on the handles that keep the hook
    [rxml_dtd_alloc] installs. *)
Lemma rb_data_free_alloc (k : rclass) (xdtd : ptr) :
  rb_data_free (set_data (Some xdtd) (rxml_dtd_alloc k)) = rxml_dtd_free xdtd.
Proof. reflexivity. Qed.

(** [rxml_dtd_free] on an allocated object: it frees the object exactly
    when the object has no document and no parent, and otherwise changes
    nothing. *)
Lemma rxml_dtd_free_unattached (xdtd : ptr) (d : xmlDtd) (w : world) :
  dtds w !! xdtd = Some d ->
  exists w', rxml_dtd_free xdtd w = (Ok tt, w') /\
    (freed xdtd w w' <-> dtd_doc d = None /\ dtd_parent d = None) /\
    (dtd_doc d <> None \/ dtd_parent d <> None -> w' = w).
Proof.
  intros Hlive. unfold rxml_dtd_free, xmlFreeDtd. st_unfold.
  rewrite (deref_live _ _ _ Hlive).
  destruct (dtd_doc d) as [xdoc|] eqn:Hdoc, (dtd_parent d) as [xparent|] eqn:Hpar;
    try rewrite (deref_live _ _ _ Hlive);
    eexists; (split; [reflexivity|]); split;
    try (split; [intros [Hgone _]; congruence | intros [? ?]; congruence]);
    try (intros _; reflexivity).
  - split; [done|]. intros _. split; simpl; [apply lookup_delete_eq | done].
  - intros [?|?]; congruence.
Qed.

Lemma bind_returns {A B} (m : M A) (f : A -> M B) (w w' : world) (b : B) :
  (m ≫= f) w = (Ok b, w') ->
  exists a w1, m w = (Ok a, w1) /\ f a w1 = (Ok b, w').
Proof.
  unfold mbind, ST_bind. destruct (m w) as [[a|e|] w1]; intros H;
    try discriminate. by exists a, w1.
Qed.

Section Properties.

Variable libxml2 : native_call -> world -> xmlDtd + option xmlError.

Lemma Check_Type_not_string (v : VALUE) (w : world) :
  rb_type v <> T_STRING ->
  Check_Type v T_STRING w = (Raised (TypeError "wrong argument type"), w).
Proof.
  intros H. unfold Check_Type. rewrite bool_decide_eq_false_2 by done.
  reflexivity.
Qed.

(** With three to five arguments, the first two must be Strings and the
    third a String or [nil]; up to the check of the document argument the
    constructor leaves the world as it was. *)
Lemma initialize_bad_document (a b c doc : VALUE) (rest : list VALUE)
    (self : RData) (w : world) :
  (List.length rest <= 1)%nat ->
  NIL_P doc = false ->
  rb_obj_is_kind_of doc cXMLDocument = false ->
  exists msg,
    rxml_dtd_initialize libxml2 (a :: b :: c :: doc :: rest) self w
    = (Raised (TypeError msg), w).
Proof.
  intros Hrest Hnil Hkind.
  assert (Hargs : exists internal,
    rb_scan_args (W := world) 2 3 (a :: b :: c :: doc :: rest) w
    = (Ok [a; b; c; doc; internal], w)).
  { destruct rest as [|internal [|? ?]]; simpl in Hrest; [| |lia];
      eexists; reflexivity. }
  destruct Hargs as [internal Hargs].
  assert (Hlen : List.length (a :: b :: c :: doc :: rest) = 4%nat \/
                 List.length (a :: b :: c :: doc :: rest) = 5%nat).
  { destruct rest as [|? [|? ?]]; simpl in *; lia. }
  unfold rxml_dtd_initialize.
  destruct Hlen as [-> | ->]; st_unfold; rewrite Hargs; unfold arg; simpl;
    destruct a, b, c; simpl; try (eexists; reflexivity);
    rewrite Hnil, Hkind; simpl; eexists; reflexivity.
Qed.

(** C9: the constructor raises a [TypeError] when a document argument is
    given (four or five arguments, the fourth not [nil]) that is not a
    Document, and an [ArgumentError] when it is given no argument or more
    than five; in both cases the world is the one it started in, so no
    native creation or parse call was made. *)
Theorem rxml_dtd_initialize_rejects_before_native
    (argv : list VALUE) (self : RData) (w : world) :
  ((List.length argv = 4%nat \/ List.length argv = 5%nat) ->
   NIL_P (arg 3 argv) = false ->
   rb_obj_is_kind_of (arg 3 argv) cXMLDocument = false ->
   exists msg,
     rxml_dtd_initialize libxml2 argv self w = (Raised (TypeError msg), w))
  /\
  (List.length argv = 0%nat \/ (5 < List.length argv)%nat ->
   rxml_dtd_initialize libxml2 argv self w
   = (Raised (ArgError "wrong number of arguments"), w)).
Proof.
  split.
  - intros Hlen Hnil Hkind.
    destruct argv as [|a [|b [|c [|doc rest]]]]; simpl in Hlen; try lia.
    apply initialize_bad_document; [simpl in Hlen; lia | done | done].
  - intros Hlen. unfold rxml_dtd_initialize.
    destruct argv as [|a [|b [|c [|d [|e [|f rest]]]]]]; simpl in Hlen;
      try lia; reflexivity.
Qed.

(** The value an accessor returns for a text field. *)
Definition text_or_nil (field : option string) : VALUE :=
  from_option (fun s => Str s rb_utf8_encoding) Qnil field.

(** C8: on a constructed handle (its pointer is that of an allocated native
    DTD) each accessor returns [nil] when the native field is unset and
    otherwise the text of the field, [node_type] returns the integer tag,
    none of them changes the world, and [system_id] is [uri] under another
    name. *)
Theorem accessors_return_native_fields
    (self : RData) (xdtd : ptr) (d : xmlDtd) (w : world) :
  data self = Some xdtd ->
  dtds w !! xdtd = Some d ->
  send libxml2 "name" self w = (Ok (text_or_nil (dtd_name d)), w) /\
  send libxml2 "external_id" self w = (Ok (text_or_nil (dtd_ExternalID d)), w) /\
  send libxml2 "uri" self w = (Ok (text_or_nil (dtd_SystemID d)), w) /\
  send libxml2 "system_id" self w = (Ok (text_or_nil (dtd_SystemID d)), w) /\
  send libxml2 "node_type" self w = (Ok (Fixnum (dtd_type d)), w) /\
  lookup_method "system_id" (rxml_init_dtd libxml2)
  = Some (Nullary rxml_dtd_uri_get).
Proof.
  intros Hdata Hlive.
  assert (Hd : deref (data self) w = (Ok d, w)).
  { rewrite Hdata. by apply deref_live. }
  unfold send, text_or_nil. simpl.
  unfold rxml_dtd_name_get, rxml_dtd_external_id_get, rxml_dtd_uri_get,
    rxml_dtd_type.
  st_unfold. rewrite Hd.
  repeat split.
  - by destruct (dtd_name d).
  - by destruct (dtd_ExternalID d).
  - by destruct (dtd_SystemID d).
  - by destruct (dtd_SystemID d).
Qed.

(** With a document the handle has no release hook and the native object
    belongs to the document. *)
Lemma initialize_with_document_clears_release_hook
    (external system name : string) (enc : rb_encoding) (xdoc : ptr)
    (d : xmlDtd) (w : world) :
  libxml2 (NewDtd (Some xdoc) (Some (cstr name)) (cstr external) (cstr system)) w
  = inl d ->
  exists self xdtd w',
    Dtd_new libxml2 [Str external enc; Str system enc; Str name enc;
                     Data cXMLDocument (Some xdoc)] w
    = (Ok self, w') /\
    dfree self = None /\
    data self = Some xdtd /\
    dtds w' !! xdtd = Some (set_dtd_doc (Some xdoc) d).
Proof.
  intros Hnew.
  unfold Dtd_new. simpl. unfold rxml_dtd_initialize. simpl.
  unfold arg, xmlNewDtd, native_create, xmlSetTreeDoc. st_unfold. simpl.
  rewrite Hnew. simpl.
  set (p := fresh (dom (dtds w))).
  rewrite (deref_live p d) by (simpl; apply lookup_insert_eq).
  simpl. do 3 eexists. split; [reflexivity|].
  split_and!; try reflexivity. simpl. apply lookup_insert_eq.
Qed.

(** The two-argument constructor keeps the hook [rxml_dtd_alloc] installed:
    collecting the handle runs [rxml_dtd_free] on the parsed object. *)
Lemma initialize_parse_keeps_release_hook
    (external system : string) (enc : rb_encoding) (d : xmlDtd) (w : world) :
  libxml2 (ParseDTD (cstr external) (cstr system)) w = inl d ->
  exists self xdtd w',
    Dtd_new libxml2 [Str external enc; Str system enc] w = (Ok self, w') /\
    data self = Some xdtd /\
    rb_data_free self = rxml_dtd_free xdtd.
Proof.
  intros Hnew.
  unfold Dtd_new. simpl. unfold rxml_dtd_initialize. simpl.
  unfold arg, xmlParseDTD, native_create, xmlSetTreeDoc. st_unfold. simpl.
  rewrite Hnew. simpl.
  set (p := fresh (dom (dtds w))).
  rewrite (deref_live p d) by (simpl; apply lookup_insert_eq).
  simpl. do 3 eexists. split; [reflexivity|]. split; reflexivity.
Qed.

(** C2: evaluation of the constructor on three arguments, that is with no
    document.  When libxml2 builds the object, the handle that comes back
    has no release hook although no document was given: collecting it
    calls nothing, and the native object, which by then has no owning
    document, stays allocated. *)
Theorem initialize_without_document_clears_release_hook
    (external system name : string) (enc : rb_encoding) (d : xmlDtd)
    (w : world) :
  libxml2 (NewDtd None (Some (cstr name)) (cstr external) (cstr system)) w
  = inl d ->
  exists self xdtd w',
    Dtd_new libxml2 [Str external enc; Str system enc; Str name enc] w
    = (Ok self, w') /\
    dfree self = None /\
    data self = Some xdtd /\
    dtds w' !! xdtd = Some (set_dtd_doc None d) /\
    rb_data_free self w' = (Ok tt, w').
Proof.
  intros Hnew.
  unfold Dtd_new. simpl. unfold rxml_dtd_initialize. simpl.
  unfold arg, xmlNewDtd, native_create, xmlSetTreeDoc. st_unfold. simpl.
  rewrite Hnew. simpl.
  set (p := fresh (dom (dtds w))).
  rewrite (deref_live p d) by (simpl; apply lookup_insert_eq).
  simpl. do 3 eexists. split; [reflexivity|].
  repeat split. simpl. apply lookup_insert_eq.
Qed.

(** *** Collection of the handles the constructor returns *)

Lemma native_create_returns (c : native_call) (xdtd : ptr) (w w' : world) :
  native_create libxml2 c w = (Ok (Some xdtd), w') -> is_Some (dtds w' !! xdtd).
Proof.
  unfold native_create. destruct (libxml2 c w) as [d|e]; intros H;
    [|discriminate].
  injection H as <- <-. simpl. rewrite lookup_insert_eq. by eexists.
Qed.

Lemma xmlSetTreeDoc_returns (xdtd : ptr) (xdoc : option ptr) (w w' : world) :
  xmlSetTreeDoc xdtd xdoc w = (Ok tt, w') -> is_Some (dtds w' !! xdtd).
Proof.
  unfold xmlSetTreeDoc, deref. st_unfold. simpl.
  destruct (dtds w !! xdtd) as [d|]; intros H; [|discriminate].
  injection H as <-. simpl. rewrite lookup_insert_eq. by eexists.
Qed.

Ltac peel H :=
  repeat (let a := fresh "a" in
          let w1 := fresh "w" in
          let Hstep := fresh "Hstep" in
          apply bind_returns in H as (a & w1 & Hstep & H);
          cbv beta zeta in H).

(** The handle [XML::Dtd.new] returns wraps a native object, and keeps the
    release hook [rxml_dtd_alloc] installed exactly when it was given one
    or two arguments. *)
Lemma constructed_handle (argv : list VALUE) (self : RData) (w w' : world) :
  Dtd_new libxml2 argv w = (Ok self, w') ->
  exists xdtd,
    data self = Some xdtd /\ is_Some (dtds w' !! xdtd) /\
    dfree self
    = (if bool_decide (List.length argv <= 2)%nat then Some rxml_dtd_free
       else None).
Proof.
  intros H. unfold Dtd_new in H. simpl in H. unfold rxml_dtd_initialize in H.
  destruct (List.length argv) as [|[|[|[|[|[|n]]]]]]; cbv zeta in H;
    try discriminate; peel H.
  - unfold xmlIOParseDTD in *.
    match goal with
    | Hc : native_create _ _ _ = (Ok ?x, _) |- _ =>
        destruct x as [p|]; [apply native_create_returns in Hc|]
    end; peel H; [|discriminate].
    injection H as <- <-.
    match goal with
    | Hf : xmlFree _ _ = (Ok _, _) |- _ =>
        unfold xmlFree, modify in Hf; injection Hf as _ <-
    end.
    by exists p.
  - unfold xmlParseDTD in *.
    match goal with
    | Hc : native_create _ _ _ = (Ok ?x, _) |- _ => destruct x as [p|]
    end; peel H; [|discriminate].
    injection H as <- <-.
    match goal with
    | Hs : xmlSetTreeDoc _ _ _ = (Ok ?u, _) |- _ =>
        destruct u; apply xmlSetTreeDoc_returns in Hs
    end.
    by exists p.
  - match goal with
    | Hc : _ = (Ok ?x, _) |- _ =>
        match type of x with option ptr => destruct x as [p|] end
    end; peel H; [|discriminate].
    injection H as <- <-.
    match goal with
    | Hs : xmlSetTreeDoc _ _ _ = (Ok ?u, _) |- _ =>
        destruct u; apply xmlSetTreeDoc_returns in Hs
    end.
    by exists p.
  - match goal with
    | Hc : _ = (Ok ?x, _) |- _ =>
        match type of x with option ptr => destruct x as [p|] end
    end; peel H; [|discriminate].
    injection H as <- <-.
    match goal with
    | Hs : xmlSetTreeDoc _ _ _ = (Ok ?u, _) |- _ =>
        destruct u; apply xmlSetTreeDoc_returns in Hs
    end.
    by exists p.
  - match goal with
    | Hc : _ = (Ok ?x, _) |- _ =>
        match type of x with option ptr => destruct x as [p|] end
    end; peel H; [|discriminate].
    injection H as <- <-.
    match goal with
    | Hs : xmlSetTreeDoc _ _ _ = (Ok ?u, _) |- _ =>
        destruct u; apply xmlSetTreeDoc_returns in Hs
    end.
    by exists p.
Qed.

(** C1: evaluation of the collection of every handle [XML::Dtd.new]
    returns, whatever the arguments and whatever libxml2 built, in any
    world in which the native object is still allocated.  The collection
    frees the object if and only if the object has, at that time, no owning
    document and no parent node and the handle was built from one or two
    arguments; in every other case it changes nothing.  So the handles of
    the one- and two-argument forms are released exactly when the object is
    unattached, and a handle of the three-to-five argument form is never
    released, also when its object is unattached because no document was
    given. *)
Theorem collection_frees_iff_unattached_and_hooked
    (argv : list VALUE) (self : RData) (w w' : world) :
  Dtd_new libxml2 argv w = (Ok self, w') ->
  exists xdtd,
    data self = Some xdtd /\ is_Some (dtds w' !! xdtd) /\
    forall (w1 : world) (d : xmlDtd),
      dtds w1 !! xdtd = Some d ->
      exists w2,
        rb_data_free self w1 = (Ok tt, w2) /\
        (freed xdtd w1 w2 <->
           dtd_doc d = None /\ dtd_parent d = None /\
           (List.length argv <= 2)%nat) /\
        (~ freed xdtd w1 w2 -> w2 = w1).
Proof.
  intros Hnew.
  destruct (constructed_handle argv self w w' Hnew)
    as (xdtd & Hdata & Hlive & Hhook).
  exists xdtd. split; [done|]. split; [done|].
  intros w1 d Hd. unfold rb_data_free. rewrite Hhook, Hdata.
  case_bool_decide as Hlen.
  - destruct (rxml_dtd_free_unattached xdtd d w1 Hd)
      as (w2 & Hfree & Hiff & Hsame).
    exists w2. split; [done|]. split; [rewrite Hiff; tauto|].
    intros Hnot. apply Hsame.
    destruct (dtd_doc d), (dtd_parent d); auto.
    exfalso. apply Hnot, Hiff. done.
  - exists w1. split; [done|]. split; [|done].
    split; [|tauto]. intros [Hgone _]. congruence.
Qed.

(** *** Further properties of the constructor *)

(** The creation call the three-to-five argument form makes: an external
    subset unless the internal flag is truthy. *)
Definition subset_call (internal : VALUE) (xdoc : option ptr)
    (xname : option string) (external system : string) : native_call :=
  if NIL_P internal || is_Qfalse internal
  then NewDtd xdoc (cstr <$> xname) (cstr external) (cstr system)
  else CreateIntSubset xdoc (cstr <$> xname) (cstr external) (cstr system).

(** The name the constructor reads from its third argument: [NULL] for
    [nil], the bytes of a String, and nothing else passes [Check_Type]. *)
Definition name_of (name : VALUE) : option (option string) :=
  match name with
  | Qnil => Some None
  | Str s _ => Some (Some s)
  | _ => None
  end.

(** The document the constructor reads from its fourth argument: [NULL]
    for [nil], the pointer a Document wraps, and nothing else passes the
    class check. *)
Definition document_of (doc : VALUE) : option (option ptr) :=
  match doc with
  | Qnil => Some None
  | Data _ p => if rb_obj_is_kind_of doc cXMLDocument then Some p else None
  | _ => None
  end.

(** Three to five arguments that pass the checks of the constructor: two
    Strings, then a name, a document and a flag, each of which may be
    absent. *)
Definition subset_arguments (argv : list VALUE) (external system : string)
    (xname : option string) (xdoc : option ptr) : Prop :=
  (3 <= List.length argv <= 5)%nat /\
  (exists enc, arg 0 argv = Str external enc) /\
  (exists enc, arg 1 argv = Str system enc) /\
  name_of (arg 2 argv) = Some xname /\
  document_of (arg 3 argv) = Some xdoc.

Lemma initialize_subset_run
    (argv : list VALUE) (external system : string) (xname : option string)
    (xdoc : option ptr) (self : RData) (w : world) :
  subset_arguments argv external system xname xdoc ->
  rxml_dtd_initialize libxml2 argv self w
  = (xdtd ← native_create libxml2
              (subset_call (arg 4 argv) xdoc xname external system);
     match xdtd with
     | None => e ← xmlGetLastError; rxml_raise e
     | Some p =>
         _ ← xmlSetTreeDoc p xdoc;
         mret (set_data (Some p) (set_dfree None self))
     end) w.
Proof.
  intros (Hlen & [enc0 Hext] & [enc1 Hsys] & Hname & Hdoc).
  destruct argv as [|a [|b [|c rest]]]; simpl in Hlen; try lia.
  unfold arg in *. simpl in Hext, Hsys, Hname. subst a b.
  assert (Hargs : exists doc internal,
    rb_scan_args (W := world) 2 3 (Str external enc0 :: Str system enc1 :: c :: rest)
    = mret [Str external enc0; Str system enc1; c; doc; internal] /\
    nth 3 (Str external enc0 :: Str system enc1 :: c :: rest) Qnil = doc /\
    nth 4 (Str external enc0 :: Str system enc1 :: c :: rest) Qnil = internal).
  { destruct rest as [|doc [|internal [|? ?]]]; simpl in Hlen; try lia;
      eexists _, _; split_and!; reflexivity. }
  destruct Hargs as (doc & internal & Hargs & Hd & Hi).
  rewrite Hd in Hdoc. rewrite Hi.
  assert (Hrun : rxml_dtd_initialize libxml2
                   (Str external enc0 :: Str system enc1 :: c :: rest) self
                 = rxml_dtd_initialize libxml2
                     [Str external enc0; Str system enc1; c; doc; internal]
                     self).
  { unfold rxml_dtd_initialize.
    destruct rest as [|? [|? [|? ?]]]; simpl in Hlen; try lia;
      simpl in Hd, Hi; subst; reflexivity. }
  rewrite Hrun. clear Hrun Hargs Hd Hi Hlen rest.
  destruct c; simpl in Hname; try discriminate; injection Hname as <-;
    destruct doc as [| | | | | | |k q]; simpl in Hdoc; try discriminate;
    try (destruct (bool_decide (k = cXMLDocument)) eqn:Hkind; [|discriminate]);
    injection Hdoc as <-;
    unfold rxml_dtd_initialize, subset_call, xmlNewDtd, xmlCreateIntSubset;
    simpl; unfold arg; simpl; st_unfold; simpl;
    try (rewrite Hkind; simpl);
    destruct (NIL_P internal || is_Qfalse internal); reflexivity.
Qed.

(** X1: constructed from three to five arguments with a document, whether
    the name is a String or [nil] and whether or not a flag is given, the
    handle has no release hook, the native object carries the document as
    owner, collecting the handle frees nothing, and marking the handle
    marks the document. *)
Theorem construction_with_document_hands_over_ownership
    (argv : list VALUE) (external system : string) (xname : option string)
    (xdoc : ptr) (d : xmlDtd) (self : RData) (w : world) :
  subset_arguments argv external system xname (Some xdoc) ->
  libxml2 (subset_call (arg 4 argv) (Some xdoc) xname external system) w
  = inl d ->
  exists self' xdtd w',
    rxml_dtd_initialize libxml2 argv self w = (Ok self', w') /\
    dfree self' = None /\
    data self' = Some xdtd /\
    dtds w' !! xdtd = Some (set_dtd_doc (Some xdoc) d) /\
    rb_data_free self' w' = (Ok tt, w') /\
    rxml_dtd_mark (data self') w' = (Ok [Data cXMLDocument (Some xdoc)], w').
Proof.
  intros Hargs Hnew.
  rewrite (initialize_subset_run argv external system xname (Some xdoc))
    by done.
  unfold native_create, xmlSetTreeDoc. st_unfold. rewrite Hnew. simpl.
  set (p := fresh (dom (dtds w))).
  rewrite (deref_live p d) by (simpl; apply lookup_insert_eq).
  simpl. do 3 eexists. split; [reflexivity|].
  split_and!; try reflexivity.
  - simpl. apply lookup_insert_eq.
  - unfold rxml_dtd_mark. simpl. st_unfold.
    erewrite deref_live by (simpl; apply lookup_insert_eq). reflexivity.
Qed.

(** X2: whatever libxml2 answers, the first call the three-to-five
    argument form makes on arguments that pass its checks is [xmlNewDtd]
    when the internal flag is absent, [nil] or [false] and
    [xmlCreateIntSubset] for any other flag, with the document or [NULL],
    the name read up to its first NUL or [NULL], and the identifiers read
    up to their first NUL. *)
Theorem internal_flag_selects_creation_call
    (argv : list VALUE) (external system : string) (xname : option string)
    (xdoc : option ptr) (self : RData) (w : world) :
  subset_arguments argv external system xname xdoc ->
  let internal := arg 4 argv in
  (exists rest,
     trace (rxml_dtd_initialize libxml2 argv self w).2
     = trace w
       ++ EvCreate (if NIL_P internal || is_Qfalse internal
                    then NewDtd xdoc (cstr <$> xname) (cstr external)
                           (cstr system)
                    else CreateIntSubset xdoc (cstr <$> xname)
                           (cstr external) (cstr system)) :: rest) /\
  ((List.length argv <= 4)%nat -> NIL_P internal = true).
Proof.
  intros Hargs internal. split.
  - rewrite (initialize_subset_run argv external system xname xdoc) by done.
    fold internal. fold (subset_call internal xdoc xname external system).
    unfold native_create, xmlSetTreeDoc. st_unfold.
    destruct (libxml2 _ w) as [d|e]; simpl.
    + set (p := fresh (dom (dtds w))).
      rewrite (deref_live p d) by (simpl; apply lookup_insert_eq).
      simpl. eexists. rewrite <- app_assoc. reflexivity.
    + by exists [].
  - intros Hlen. subst internal. unfold arg.
    destruct argv as [|? [|? [|? [|? [|? ?]]]]]; simpl in *; try done; lia.
Qed.

(** X3: a handle built from a pair of identifiers keeps its release hook
    and its native object is detached from any document, so collecting the
    handle frees the object exactly when libxml2 gave it no parent. *)
Theorem parsed_dtd_is_freed_at_collection
    (external system : string) (enc : rb_encoding) (d : xmlDtd) (w : world) :
  libxml2 (ParseDTD (cstr external) (cstr system)) w = inl d ->
  exists self xdtd w' w'',
    Dtd_new libxml2 [Str external enc; Str system enc] w = (Ok self, w') /\
    data self = Some xdtd /\
    dtds w' !! xdtd = Some (set_dtd_doc None d) /\
    rb_data_free self w' = (Ok tt, w'') /\
    (freed xdtd w' w'' <-> dtd_parent d = None).
Proof.
  intros Hnew.
  unfold Dtd_new. simpl. unfold rxml_dtd_initialize. simpl.
  unfold arg, xmlParseDTD, native_create, xmlSetTreeDoc. st_unfold. simpl.
  rewrite Hnew. simpl.
  set (p := fresh (dom (dtds w))).
  rewrite (deref_live p d) by (simpl; apply lookup_insert_eq).
  simpl.
  match goal with |- context [(Ok ?s, ?w1)] => set (w' := w1) end.
  assert (Hlive : dtds w' !! p = Some (set_dtd_doc None d))
    by (simpl; apply lookup_insert_eq).
  destruct (rxml_dtd_free_unattached p _ w' Hlive) as (w'' & Hfree & Hiff & _).
  eexists _, p, w', w''. split; [reflexivity|].
  split_and!; try done.
  rewrite Hiff. simpl. tauto.
Qed.

(** The world in which the one-argument form calls the parser on [text]. *)
Definition before_parse (text : string) (w : world) : world :=
  log (EvParserInputBufferPush (cstr text))
    (log (EvStrdup (cstr text)) (log EvAllocParserInputBuffer w)).

(** X4: the one-argument form hands the parser the text up to its first
    NUL byte.  When the parse succeeds the copy of the text is freed and
    the handle, which keeps its release hook, wraps the new object, left as
    libxml2 built it; when it fails the error libxml2 recorded is raised
    and the copy is not freed. *)
Theorem text_is_parsed_up_to_first_nul
    (text : string) (enc : rb_encoding) (w : world) :
  match libxml2 (IOParseDTD (cstr text)) (before_parse text w) with
  | inl d =>
      exists self xdtd w',
        Dtd_new libxml2 [Str text enc] w = (Ok self, w') /\
        data self = Some xdtd /\
        dtds w' !! xdtd = Some d /\
        rb_data_free self = rxml_dtd_free xdtd /\
        trace w' = trace w ++ [EvAllocParserInputBuffer; EvStrdup (cstr text);
                               EvParserInputBufferPush (cstr text);
                               EvCreate (IOParseDTD (cstr text));
                               EvFree (cstr text)]
  | inr e =>
      exists w',
        Dtd_new libxml2 [Str text enc] w = (Raised (LibXMLError e), w') /\
        dtds w' = dtds w /\
        trace w' = trace w ++ [EvAllocParserInputBuffer; EvStrdup (cstr text);
                               EvParserInputBufferPush (cstr text);
                               EvCreate (IOParseDTD (cstr text))]
  end.
Proof.
  unfold Dtd_new. simpl. unfold rxml_dtd_initialize. simpl.
  unfold arg, xmlAllocParserInputBuffer, xmlStrdup, xmlParserInputBufferPush,
    xmlIOParseDTD, xmlFree, native_create. st_unfold. simpl.
  fold (before_parse text w).
  destruct (libxml2 _ (before_parse text w)) as [d|e]; simpl.
  - do 3 eexists. split; [reflexivity|]. split_and!; try reflexivity.
    + simpl. apply lookup_insert_eq.
    + simpl. by rewrite <- !app_assoc.
  - eexists. split; [reflexivity|]. split; [reflexivity|].
    simpl. by rewrite <- !app_assoc.
Qed.

(** X5: when the native creation or parse call fails, the two-argument
    form and the three-to-five argument form, on any arguments that pass
    their checks, raise the error libxml2 recorded, which is then the last
    error, and no native object is added. *)
Theorem native_failure_is_raised
    (argv : list VALUE) (external system : string) (xname : option string)
    (xdoc : option ptr) (enc0 enc1 : rb_encoding) (e : option xmlError)
    (self : RData) (w : world) :
  (libxml2 (ParseDTD (cstr external) (cstr system)) w = inr e ->
   exists w',
     rxml_dtd_initialize libxml2 [Str external enc0; Str system enc1] self w
     = (Raised (LibXMLError e), w') /\
     dtds w' = dtds w /\ last_error w' = e) /\
  (subset_arguments argv external system xname xdoc ->
   libxml2 (subset_call (arg 4 argv) xdoc xname external system) w = inr e ->
   exists w',
     rxml_dtd_initialize libxml2 argv self w = (Raised (LibXMLError e), w') /\
     dtds w' = dtds w /\ last_error w' = e).
Proof.
  split.
  - intros Hfail. unfold rxml_dtd_initialize. simpl.
    unfold arg, xmlParseDTD, native_create. st_unfold. simpl.
    rewrite Hfail. simpl. by eexists.
  - intros Hargs Hfail.
    rewrite (initialize_subset_run argv external system xname xdoc) by done.
    unfold native_create. st_unfold. rewrite Hfail. simpl. by eexists.
Qed.

(** X6: an argument of the wrong type is refused with a [TypeError] before
    anything else happens: any argument that is not a String in the one-
    and two-argument forms; in the longer form an external or system
    identifier that is not a String, or a name that is neither [nil] nor a
    String. *)
Theorem ill_typed_argument_is_refused
    (argv : list VALUE) (self : RData) (w : world) :
  ((List.length argv = 1%nat \/ List.length argv = 2%nat) ->
   Exists (fun v => rb_type v <> T_STRING) argv ->
   exists msg,
     rxml_dtd_initialize libxml2 argv self w = (Raised (TypeError msg), w))
  /\
  ((3 <= List.length argv <= 5)%nat ->
   rb_type (arg 0 argv) <> T_STRING \/ rb_type (arg 1 argv) <> T_STRING \/
   (NIL_P (arg 2 argv) = false /\ rb_type (arg 2 argv) <> T_STRING) ->
   exists msg,
     rxml_dtd_initialize libxml2 argv self w = (Raised (TypeError msg), w)).
Proof.
  split.
  - intros Hlen Hbad.
    destruct argv as [|a [|b [|c rest]]]; simpl in Hlen; try lia.
    + apply Exists_cons in Hbad as [Ha|Hbad]; [|by apply Exists_nil in Hbad].
      unfold rxml_dtd_initialize. simpl. st_unfold. unfold arg. simpl.
      destruct a; simpl in *; try (eexists; reflexivity). done.
    + unfold rxml_dtd_initialize. simpl. st_unfold. unfold arg. simpl.
      apply Exists_cons in Hbad as [Ha|Hbad].
      * destruct a; simpl in *; try (eexists; reflexivity). done.
      * apply Exists_cons in Hbad as [Hb|Hbad]; [|by apply Exists_nil in Hbad].
        destruct a, b; simpl in *; try (eexists; reflexivity); done.
  - intros Hlen Hbad.
    destruct argv as [|a [|b [|c rest]]]; simpl in Hlen; try lia.
    assert (Hargs : exists doc internal,
      rb_scan_args (W := world) 2 3 (a :: b :: c :: rest) w
      = (Ok [a; b; c; doc; internal], w)).
    { destruct rest as [|doc [|internal [|? ?]]]; simpl in Hlen; try lia;
        eexists _, _; reflexivity. }
    destruct Hargs as (doc & internal & Hargs).
    assert (Hcase : List.length (a :: b :: c :: rest) = 3%nat \/
                    List.length (a :: b :: c :: rest) = 4%nat \/
                    List.length (a :: b :: c :: rest) = 5%nat)
      by (simpl; lia).
    unfold rxml_dtd_initialize, arg in *. simpl in Hbad.
    destruct Hcase as [-> | [-> | ->]]; st_unfold; rewrite Hargs; simpl;
      destruct Hbad as [Ha | [Hb | [Hnil Hc]]];
      destruct a, b, c; simpl in *; try (eexists; reflexivity);
      try done.
Qed.

(** *** What the constructor leaves alone *)

(** A step that keeps the native object [d0] at [p0] as it is. *)
Definition keeps_dtd (p0 : ptr) (d0 : xmlDtd) {A} (m : M A) : Prop :=
  forall w, dtds w !! p0 = Some d0 -> dtds (m w).2 !! p0 = Some d0.

Lemma keeps_dtd_same (p0 : ptr) (d0 : xmlDtd) {A} (m : M A) :
  (forall w, dtds (m w).2 = dtds w) -> keeps_dtd p0 d0 m.
Proof. intros Hsame w Hw. by rewrite Hsame. Qed.

Lemma keeps_dtd_bind (p0 : ptr) (d0 : xmlDtd) {A B} (m : M A) (f : A -> M B) :
  keeps_dtd p0 d0 m -> (forall a, keeps_dtd p0 d0 (f a)) ->
  keeps_dtd p0 d0 (m ≫= f).
Proof.
  intros Hm Hf w Hw. unfold mbind, ST_bind.
  specialize (Hm w Hw). destruct (m w) as [[a|e|] w1]; simpl in *; try done.
  by apply Hf.
Qed.

Lemma keeps_dtd_create (p0 : ptr) (d0 : xmlDtd) {A} (c : native_call)
    (k : option ptr -> M A) :
  keeps_dtd p0 d0 (k None) ->
  (forall p, p <> p0 -> keeps_dtd p0 d0 (k (Some p))) ->
  keeps_dtd p0 d0 (native_create libxml2 c ≫= k).
Proof.
  intros Hnone Hsome w Hw. unfold native_create, mbind, ST_bind.
  destruct (libxml2 c w) as [d|e]; simpl.
  - assert (Hfresh : fresh (dom (dtds w)) <> p0).
    { intros Heq. apply (is_fresh (dom (dtds w))). rewrite Heq.
      by apply elem_of_dom_2 in Hw. }
    apply Hsome; [done|]. simpl. by rewrite lookup_insert_ne.
  - by apply Hnone.
Qed.

Lemma keeps_dtd_xmlSetTreeDoc (p0 p : ptr) (d0 : xmlDtd) (xdoc : option ptr) :
  p <> p0 -> keeps_dtd p0 d0 (xmlSetTreeDoc p xdoc).
Proof.
  intros Hne w Hw. unfold xmlSetTreeDoc, deref, mbind, ST_bind, modify. simpl.
  destruct (dtds w !! p); simpl; [|done]. by rewrite lookup_insert_ne.
Qed.

Ltac same_dtds :=
  apply keeps_dtd_same; intros ?;
  unfold rb_scan_args, Check_Type, StringValuePtr, Data_Get_Struct,
    xmlAllocParserInputBuffer, xmlStrdup, xmlParserInputBufferPush, xmlFree,
    xmlGetLastError;
  st_unfold; repeat case_match; reflexivity.

Ltac keeps_dtd_tac :=
  repeat first
    [ match goal with
      | |- keeps_dtd _ _ (mbind _ (if ?b then _ else _)) => destruct b
      end
    | apply keeps_dtd_create; [|intros ? ?]
    | apply keeps_dtd_xmlSetTreeDoc; assumption
    | apply keeps_dtd_bind; [|intros ?]
    | match goal with
      | |- keeps_dtd _ _ (if ?b then _ else _) => destruct b
      | |- keeps_dtd _ _ (match ?x with _ => _ end) => destruct x
      end
    | same_dtds ].

(** X22: whatever its arguments and whatever libxml2 answers, the
    constructor neither frees nor changes a native DTD object that exists
    when it is called.  In particular a handle that is initialized a second
    time drops the object it wrapped without freeing it. *)
Theorem initialize_keeps_existing_objects
    (argv : list VALUE) (self : RData) (p0 : ptr) (d0 : xmlDtd) (w : world) :
  dtds w !! p0 = Some d0 ->
  dtds (rxml_dtd_initialize libxml2 argv self w).2 !! p0 = Some d0.
Proof.
  revert w. change (keeps_dtd p0 d0 (rxml_dtd_initialize libxml2 argv self)).
  unfold rxml_dtd_initialize, xmlNewDtd, xmlCreateIntSubset, xmlParseDTD,
    xmlIOParseDTD.
  destruct (List.length argv) as [|[|[|[|[|[|n]]]]]]; cbv zeta;
    keeps_dtd_tac.
Qed.

(** X23: the hooks of a handle that was allocated and never initialized do
    nothing, since marking checks the wrapped pointer and the collector
    calls the free hook on no [NULL]; its accessors do not check the
    pointer and crash on it. *)
Theorem never_initialized_handle
    (k : rclass) (name : string) (w : world) :
  let self := rxml_dtd_alloc k in
  rb_data_free self w = (Ok tt, w) /\
  (exists mark, dmark self = Some mark /\ mark (data self) w = (Ok [], w)) /\
  (In name ["external_id"; "name"; "uri"; "system_id"; "node_type"] ->
   send libxml2 name self w = (Crash, w)).
Proof.
  split_and!.
  - reflexivity.
  - by eexists.
  - simpl. intros [<-|[<-|[<-|[<-|[<-|[]]]]]]; reflexivity.
Qed.

End Properties.

Lemma rxml_dtd_initialize_rejects_before_native_witness :
  (exists msg,
     rxml_dtd_initialize sample_libxml2
       [Str "-//W3C//DTD XHTML 1.0//EN" "UTF-8"; Str "xhtml1.dtd" "UTF-8";
        Str "html" "UTF-8"; Str "not a document" "UTF-8"]
       (rxml_dtd_alloc cXMLDtd) sample_world
     = (Raised (TypeError msg), sample_world))
  /\
  rxml_dtd_initialize sample_libxml2 [] (rxml_dtd_alloc cXMLDtd) sample_world
  = (Raised (ArgError "wrong number of arguments"), sample_world).
Proof.
  split.
  - apply (rxml_dtd_initialize_rejects_before_native sample_libxml2);
      [left; reflexivity | reflexivity | reflexivity].
  - apply (rxml_dtd_initialize_rejects_before_native sample_libxml2).
    left; reflexivity.
Defined.

(** The three constructors on the sample world: a DTD parsed from text and
    one parsed from identifiers land at the first free address; an empty
    text is a parse error, raised with the error libxml2 recorded. *)
Example new_from_text :
  data <$> match (Dtd_new sample_libxml2
                    [Str "<!ELEMENT root (item*)>" "UTF-8"] sample_world).1 with
           | Ok self => Some self
           | _ => None
           end
  = Some (Some 2%positive).
Proof. vm_compute. reflexivity. Qed.

Definition new_then_external_id : M VALUE :=
  self ← Dtd_new sample_libxml2
           [Str "-//W3C//DTD XHTML 1.0//EN" "UTF-8"; Str "xhtml1.dtd" "UTF-8"];
  send sample_libxml2 "external_id" self.

Example new_from_identifiers :
  (new_then_external_id sample_world).1
  = Ok (Str "-//W3C//DTD XHTML 1.0//EN" "UTF-8").
Proof. vm_compute. reflexivity. Qed.

Example new_from_empty_text :
  (Dtd_new sample_libxml2 [Str "" "UTF-8"] sample_world).1
  = Raised (LibXMLError
              (Some {| err_code := 4; err_message := "Document is empty" |})).
Proof. vm_compute. reflexivity. Qed.

Lemma accessors_return_native_fields_witness :
  send sample_libxml2 "name" (rxml_dtd_wrap 1%positive) sample_world
  = (Ok (Str "root" "UTF-8"), sample_world) /\
  send sample_libxml2 "external_id" (rxml_dtd_wrap 1%positive) sample_world
  = (Ok Qnil, sample_world).
Proof.
  destruct (accessors_return_native_fields sample_libxml2
              (rxml_dtd_wrap 1%positive) 1%positive sample_dtd sample_world
              eq_refl eq_refl) as (Hname & Hext & _).
  split; [exact Hname | exact Hext].
Defined.

Lemma initialize_without_document_clears_release_hook_witness :
  exists self xdtd w',
    Dtd_new sample_libxml2
      [Str "-//W3C//DTD XHTML 1.0//EN" "UTF-8"; Str "xhtml1.dtd" "UTF-8";
       Str "html" "UTF-8"] sample_world
    = (Ok self, w') /\
    dfree self = None /\
    data self = Some xdtd /\
    dtds w' !! xdtd
    = Some (set_dtd_doc None
              {| dtd_name := Some "html";
                 dtd_ExternalID := Some "-//W3C//DTD XHTML 1.0//EN";
                 dtd_SystemID := Some "xhtml1.dtd"; dtd_type := 14;
                 dtd_doc := None; dtd_parent := None |}) /\
    rb_data_free self w' = (Ok tt, w').
Proof.
  apply (initialize_without_document_clears_release_hook sample_libxml2).
  reflexivity.
Defined.

(** A libxml2 that fails every call with the same error. *)
Definition failing_libxml2 (c : native_call) (w : world)
  : xmlDtd + option xmlError :=
  inr (Some {| err_code := 2; err_message := "out of memory" |}).

Lemma collection_frees_iff_unattached_and_hooked_witness :
  exists self w' xdtd d,
    Dtd_new sample_libxml2
      [Str "-//W3C//DTD XHTML 1.0//EN" "UTF-8"; Str "xhtml1.dtd" "UTF-8";
       Str "html" "UTF-8"] sample_world
    = (Ok self, w') /\
    data self = Some xdtd /\
    dtds w' !! xdtd = Some d /\
    dtd_doc d = None /\ dtd_parent d = None /\
    exists w2, rb_data_free self w' = (Ok tt, w2) /\ ~ freed xdtd w' w2.
Proof.
  destruct (Dtd_new sample_libxml2
              [Str "-//W3C//DTD XHTML 1.0//EN" "UTF-8";
               Str "xhtml1.dtd" "UTF-8"; Str "html" "UTF-8"] sample_world)
    as [o w'] eqn:Hnew.
  assert (Ho : o = Ok (set_data (Some 2%positive)
                         (set_dfree None (rxml_dtd_alloc cXMLDtd))))
    by (pose proof (f_equal fst Hnew) as H1; cbn [fst] in H1;
        rewrite <- H1; vm_compute; reflexivity).
  subst o.
  destruct (collection_frees_iff_unattached_and_hooked sample_libxml2 _ _ _ _
              Hnew) as (xdtd & Hdata & [d Hd] & Hfree).
  destruct (Hfree w' d Hd) as (w2 & Hrun & Hiff & _).
  assert (Hw' : dtds w' !! 2%positive
                = Some {| dtd_name := Some "html";
                          dtd_ExternalID := Some "-//W3C//DTD XHTML 1.0//EN";
                          dtd_SystemID := Some "xhtml1.dtd"; dtd_type := 14;
                          dtd_doc := None; dtd_parent := None |})
    by (pose proof (f_equal snd Hnew) as H2; cbn [snd] in H2;
        rewrite <- H2; vm_compute; reflexivity).
  simpl in Hdata. injection Hdata as <-.
  pose proof (eq_trans (eq_sym Hd) Hw') as Heq. injection Heq as ->.
  eexists _, w', 2%positive, _. split; [reflexivity|].
  split_and!; try done.
  exists w2. split; [done|]. rewrite Hiff. simpl. lia.
Defined.

Lemma construction_with_document_hands_over_ownership_witness :
  exists self' xdtd w',
    rxml_dtd_initialize sample_libxml2
      [Str "-//W3C//DTD XHTML 1.0//EN" "UTF-8"; Str "xhtml1.dtd" "UTF-8";
       Qnil; Data cXMLDocument (Some 7%positive)]
      (rxml_dtd_alloc cXMLDtd) sample_world
    = (Ok self', w') /\
    dfree self' = None /\
    data self' = Some xdtd /\
    dtds w' !! xdtd
    = Some (set_dtd_doc (Some 7%positive)
              {| dtd_name := None;
                 dtd_ExternalID := Some "-//W3C//DTD XHTML 1.0//EN";
                 dtd_SystemID := Some "xhtml1.dtd"; dtd_type := 14;
                 dtd_doc := Some 7%positive; dtd_parent := None |}) /\
    rb_data_free self' w' = (Ok tt, w') /\
    rxml_dtd_mark (data self') w'
    = (Ok [Data cXMLDocument (Some 7%positive)], w').
Proof.
  apply (construction_with_document_hands_over_ownership sample_libxml2
           [Str "-//W3C//DTD XHTML 1.0//EN" "UTF-8"; Str "xhtml1.dtd" "UTF-8";
            Qnil; Data cXMLDocument (Some 7%positive)]
           "-//W3C//DTD XHTML 1.0//EN" "xhtml1.dtd" None 7%positive).
  - split_and!; [simpl; lia | simpl; lia | by eexists | by eexists
                | reflexivity | reflexivity].
  - reflexivity.
Defined.

Lemma internal_flag_selects_creation_call_witness :
  exists rest,
    trace (rxml_dtd_initialize sample_libxml2
             [Str "-//W3C//DTD XHTML 1.0//EN" "UTF-8";
              Str "xhtml1.dtd" "UTF-8"; Str "html" "UTF-8"]
             (rxml_dtd_alloc cXMLDtd) sample_world).2
    = trace sample_world
      ++ EvCreate (NewDtd None (Some "html") "-//W3C//DTD XHTML 1.0//EN"
                     "xhtml1.dtd") :: rest.
Proof.
  apply (proj1 (internal_flag_selects_creation_call sample_libxml2
                  [Str "-//W3C//DTD XHTML 1.0//EN" "UTF-8";
                   Str "xhtml1.dtd" "UTF-8"; Str "html" "UTF-8"]
                  "-//W3C//DTD XHTML 1.0//EN" "xhtml1.dtd" (Some "html") None
                  (rxml_dtd_alloc cXMLDtd) sample_world
                  ltac:(split_and!; [simpl; lia | simpl; lia | by eexists
                                    | by eexists | reflexivity
                                    | reflexivity]))).
Defined.

Lemma parsed_dtd_is_freed_at_collection_witness :
  exists self xdtd w' w'',
    Dtd_new sample_libxml2
      [Str "-//W3C//DTD XHTML 1.0//EN" "UTF-8"; Str "xhtml1.dtd" "UTF-8"]
      sample_world = (Ok self, w') /\
    data self = Some xdtd /\
    dtds w' !! xdtd
    = Some (set_dtd_doc None
              {| dtd_name := None;
                 dtd_ExternalID := Some "-//W3C//DTD XHTML 1.0//EN";
                 dtd_SystemID := Some "xhtml1.dtd"; dtd_type := 14;
                 dtd_doc := None; dtd_parent := None |}) /\
    rb_data_free self w' = (Ok tt, w'') /\
    (freed xdtd w' w'' <-> @None ptr = None).
Proof.
  apply (parsed_dtd_is_freed_at_collection sample_libxml2).
  reflexivity.
Defined.

Lemma native_failure_is_raised_witness :
  (exists w',
     rxml_dtd_initialize failing_libxml2
       [Str "-//W3C//DTD XHTML 1.0//EN" "UTF-8"; Str "xhtml1.dtd" "UTF-8"]
       (rxml_dtd_alloc cXMLDtd) sample_world
     = (Raised (LibXMLError
                  (Some {| err_code := 2; err_message := "out of memory" |})),
        w') /\
     dtds w' = dtds sample_world /\
     last_error w'
     = Some {| err_code := 2; err_message := "out of memory" |}) /\
  (exists w',
     rxml_dtd_initialize failing_libxml2
       [Str "-//W3C//DTD XHTML 1.0//EN" "UTF-8"; Str "xhtml1.dtd" "UTF-8";
        Qnil]
       (rxml_dtd_alloc cXMLDtd) sample_world
     = (Raised (LibXMLError
                  (Some {| err_code := 2; err_message := "out of memory" |})),
        w') /\
     dtds w' = dtds sample_world /\
     last_error w'
     = Some {| err_code := 2; err_message := "out of memory" |}).
Proof.
  split.
  - apply (proj1 (native_failure_is_raised failing_libxml2 []
                    "-//W3C//DTD XHTML 1.0//EN" "xhtml1.dtd" None None
                    "UTF-8" "UTF-8" _ (rxml_dtd_alloc cXMLDtd) sample_world)).
    reflexivity.
  - apply (proj2 (native_failure_is_raised failing_libxml2
                    [Str "-//W3C//DTD XHTML 1.0//EN" "UTF-8";
                     Str "xhtml1.dtd" "UTF-8"; Qnil]
                    "-//W3C//DTD XHTML 1.0//EN" "xhtml1.dtd" None None
                    "UTF-8" "UTF-8" _ (rxml_dtd_alloc cXMLDtd) sample_world)).
    + split_and!; [simpl; lia | simpl; lia | by eexists | by eexists
                  | reflexivity | reflexivity].
    + reflexivity.
Defined.

Lemma ill_typed_argument_is_refused_witness :
  (exists msg,
     rxml_dtd_initialize sample_libxml2 [Str "xhtml1" "UTF-8"; Fixnum 1]
       (rxml_dtd_alloc cXMLDtd) sample_world
     = (Raised (TypeError msg), sample_world)) /\
  (exists msg,
     rxml_dtd_initialize sample_libxml2
       [Str "xhtml1" "UTF-8"; Str "xhtml1.dtd" "UTF-8"; Sym "html"]
       (rxml_dtd_alloc cXMLDtd) sample_world
     = (Raised (TypeError msg), sample_world)).
Proof.
  split.
  - apply (proj1 (ill_typed_argument_is_refused sample_libxml2
                    [Str "xhtml1" "UTF-8"; Fixnum 1]
                    (rxml_dtd_alloc cXMLDtd) sample_world)).
    + right. reflexivity.
    + apply Exists_cons_tl, Exists_cons_hd. discriminate.
  - apply (proj2 (ill_typed_argument_is_refused sample_libxml2
                    [Str "xhtml1" "UTF-8"; Str "xhtml1.dtd" "UTF-8"; Sym "html"]
                    (rxml_dtd_alloc cXMLDtd) sample_world)).
    + simpl. lia.
    + right. right. split; [reflexivity | discriminate].
Defined.

Lemma initialize_keeps_existing_objects_witness :
  dtds (rxml_dtd_initialize sample_libxml2 [Str "<!ELEMENT a EMPTY>" "UTF-8"]
          (set_data (Some 1%positive) (rxml_dtd_alloc cXMLDtd)) sample_world).2
    !! 1%positive
  = Some sample_dtd.
Proof.
  apply (initialize_keeps_existing_objects sample_libxml2).
  reflexivity.
Defined.

Lemma never_initialized_handle_witness :
  send sample_libxml2 "name" (rxml_dtd_alloc cXMLDtd) sample_world
  = (Crash, sample_world).
Proof.
  apply (proj2 (proj2 (never_initialized_handle sample_libxml2 cXMLDtd "name"
                         sample_world))).
  right. left. reflexivity.
Defined.

End Dtd.

(** ** The streaming writer adapter ([ruby_xml_writer.c]) *)

Module Writer.

Inductive rxmlw_output_type :=
| RXMLW_OUTPUT_NONE
| RXMLW_OUTPUT_IO
| RXMLW_OUTPUT_DOC
| RXMLW_OUTPUT_STRING.

Global Instance rxmlw_output_type_eq_dec : EqDecision rxmlw_output_type.
Proof. solve_decision. Defined.

Record rxml_writer_object := {
  output : VALUE;
  encoding : rb_encoding;
  buffer : option ptr;                (* xmlBufferPtr *)
  writer : option ptr;                (* xmlTextWriterPtr *)
  output_type : rxmlw_output_type;
  closed : Z }.

Definition set_encoding (e : rb_encoding) (o : rxml_writer_object) :=
  {| output := output o; encoding := e; buffer := buffer o;
     writer := writer o; output_type := output_type o; closed := closed o |}.

Definition set_closed (c : Z) (o : rxml_writer_object) :=
  {| output := output o; encoding := encoding o; buffer := buffer o;
     writer := writer o; output_type := output_type o; closed := c |}.

(** The primitives of libxml2's text writer that the adapter calls, with
    the arguments it passes after the writer ([None] is a [NULL] string). *)
Inductive wcall :=
| SetIndent (indent : bool)
| SetIndentString (str : option string)
| SetQuoteChar (quotechar : ascii)
| WriteComment (content : option string)
| WriteCDATA (content : option string)
| WriteElement (name content : option string)
| WriteElementNS (prefix name namespaceURI content : option string)
| WriteAttribute (name content : option string)
| WriteAttributeNS (prefix name namespaceURI content : option string)
| WritePI (target content : option string)
| WriteString (content : option string)
| WriteRaw (content : option string)
| StartAttribute (name : option string)
| StartAttributeNS (prefix name namespaceURI : option string)
| EndAttribute
| StartComment
| EndComment
| StartElement (name : option string)
| StartElementNS (prefix name namespaceURI : option string)
| EndElement
| FullEndElement
| StartCDATA
| EndCDATA
| StartDocument (version encoding standalone : option string)
| EndDocument
| StartPI (target : option string)
| EndPI
| StartDTD (name pubid sysid : option string)
| StartDTDElement (name : option string)
| StartDTDEntity (pe : bool) (name : option string)
| StartDTDAttlist (name : option string)
| EndDTD
| EndDTDEntity
| EndDTDAttlist
| EndDTDElement
| WriteDTD (name pubid sysid subset : option string)
| WriteDTDAttlist (name content : option string)
| WriteDTDElement (name content : option string)
| WriteDTDEntity (pe : bool) (name pubid sysid ndataid content : option string)
| WriteDTDExternalEntity (pe : bool) (name pubid sysid ndataid : option string)
| WriteDTDExternalEntityContents (pubid sysid ndataid : option string)
| WriteDTDInternalEntity (pe : bool) (name content : option string)
| WriteDTDNotation (name pubid sysid : option string).

(** Where a native writer sends its bytes. *)
Inductive sink :=
| SinkIO (context : ptr)      (* through rxml_writer_write_callback(context, ..) *)
| SinkFile (filename : string)
| SinkMemory (buf : ptr)      (* appended to an xmlBuffer *)
| SinkDoc (doc : ptr).        (* parsed into a document tree *)

Inductive alloc_call :=
| OutputBufferCreateIO (context : ptr) (encoder : string)
| BufferCreate
| NewTextWriter (k : sink).

(** What a writer primitive does to the native writer it is called on. *)
Record step_result (S : Type) := {
  rc : Z;                          (* the int returned, -1 on error *)
  next_state : S;
  emitted : string;                (* bytes added to the output buffer *)
  recorded : option xmlError }.    (* the error recorded, if any *)
Arguments rc {S} _.
Arguments next_state {S} _.
Arguments emitted {S} _.
Arguments recorded {S} _.

(** What the world records, in order: the calls into libxml2 and what
    reaches the sinks. *)
Inductive event :=
| EvAlloc (a : alloc_call) (ok : bool)
| EvWriter (w : option ptr) (c : wcall) (ret : Z)
| EvFlush (w : option ptr) (ret : Z)
| EvBufferEmpty (buf : ptr)
| EvBufferFree (buf : ptr)
| EvFreeTextWriter (w : ptr)
| EvIOWrite (io : VALUE) (bytes : string)    (* io.write(bytes) *)
| EvFileWrite (filename : string) (bytes : string)
| EvDocWrite (doc : ptr) (bytes : string).

(** The environment: libxml2's decisions and the parts of the Ruby runtime
    and of the extension that are not in the two files.
    - [wstate], [xml_init], [xml_step]: a native writer as a state machine;
      a primitive returns an int, moves the state and emits bytes;
    - [xml_alloc_error]: [None] when an allocation succeeds, otherwise the
      error libxml2 records;
    - [xml_flush_error]: [None] when a flush can proceed, otherwise the
      error it records (libxml2 keeps an output buffer that failed in
      error);
    - [xmlGetCharEncodingName]: libxml2's name of an encoding number;
    - [transcode]: the conversion behind [rb_str_conv_enc], [None] when the
      text cannot be converted;
    - [object_encoding]: [rb_enc_get] on an object that is not a String;
    - [io_write]: the count the byte sink of a stream session answers when
      it is handed bytes, given what has happened so far;
    - [rxml_figure_encoding]: the helper of the extension, defined in
      another file, that maps an encoding name to a Ruby encoding. *)
Record environment := {
  wstate : Type;
  xml_init : sink -> wstate;
  xml_alloc_error : alloc_call -> option (option xmlError);
  xml_step : wcall -> wstate -> step_result wstate;
  xml_flush_error : wstate -> option (option xmlError);
  xmlGetCharEncodingName : Z -> option string;
  transcode : string -> option rb_encoding -> rb_encoding -> option string;
  object_encoding : VALUE -> option rb_encoding;
  io_write : list event -> VALUE -> string -> Z;
  rxml_figure_encoding : option string -> rb_encoding }.

Section WithEnvironment.

Variable env : environment.

(** A native text writer: its sink, the bytes in its output buffer that
    have not reached the sink yet, and the rest of its state. *)
Record xmlTextWriter := {
  xw_sink : sink;
  xw_out : string;
  xw_state : wstate env }.

Record world := {
  rwos : gmap ptr rxml_writer_object;   (* the session structs (ALLOC) *)
  writers : gmap ptr xmlTextWriter;     (* the native writers *)
  buffers : gmap ptr string;            (* the xmlBuffers: their content *)
  last_error : option xmlError;         (* xmlGetLastError() *)
  trace : list event }.

Definition log (e : event) (w : world) : world :=
  {| rwos := rwos w; writers := writers w; buffers := buffers w;
     last_error := last_error w; trace := trace w ++ [e] |}.

Definition set_rwos (h : gmap ptr rxml_writer_object) (w : world) : world :=
  {| rwos := h; writers := writers w; buffers := buffers w;
     last_error := last_error w; trace := trace w |}.

Definition set_writers (h : gmap ptr xmlTextWriter) (w : world) : world :=
  {| rwos := rwos w; writers := h; buffers := buffers w;
     last_error := last_error w; trace := trace w |}.

Definition set_buffers (h : gmap ptr string) (w : world) : world :=
  {| rwos := rwos w; writers := writers w; buffers := h;
     last_error := last_error w; trace := trace w |}.

Definition set_last_error (e : option xmlError) (w : world) : world :=
  {| rwos := rwos w; writers := writers w; buffers := buffers w;
     last_error := e; trace := trace w |}.

(** An error that libxml2 records replaces the last error. *)
Definition record_error (e : option xmlError) (w : world) : world :=
  match e with
  | Some _ => set_last_error e w
  | None => w
  end.

(** An address that no live object has. *)
Definition fresh_ptr (w : world) : ptr :=
  fresh (dom (rwos w) ∪ dom (writers w) ∪ dom (buffers w)).

Abbreviation M := (ST world).

Definition xmlGetLastError : M (option xmlError) := gets last_error.

(** Reads through pointers: [NULL] and dangling pointers crash. *)
Definition deref_rwo (rwo : option ptr) : M rxml_writer_object := fun w =>
  match rwo ≫= (fun p => rwos w !! p) with
  | Some o => (Ok o, w)
  | None => (Crash, w)
  end.

Definition deref_writer (p : ptr) : M xmlTextWriter := fun w =>
  match writers w !! p with
  | Some xw => (Ok xw, w)
  | None => (Crash, w)
  end.

Definition deref_buffer (b : option ptr) : M string := fun w =>
  match b ≫= (fun p => buffers w !! p) with
  | Some s => (Ok s, w)
  | None => (Crash, w)
  end.

Definition store_rwo (rwo : ptr) (o : rxml_writer_object) : M unit :=
  modify (fun w => set_rwos (<[rwo := o]> (rwos w)) w).

Definition store_writer (p : ptr) (xw : xmlTextWriter) : M unit :=
  modify (fun w => set_writers (<[p := xw]> (writers w)) w).

Definition strlen (s : string) : Z := Z.of_nat (String.length s).

Fixpoint string_drop (n : nat) (s : string) : string :=
  match n, s with
  | O, _ => s
  | S n', String _ r => string_drop n' r
  | S _, EmptyString => EmptyString
  end.

(** Modelled from the spec: [rxml_write_callback], which is defined in
    another file of the extension.  The byte sink supports
    [write(bytes) -> count]; the [len] bytes are handed to it and the count
    it answers comes back. *)
Definition rxml_write_callback (io : VALUE) (bytes : string) (len : Z) : M Z :=
  history ← gets trace;
  _ ← modify (log (EvIOWrite io bytes));
  mret (io_write env history io bytes).

Definition rxml_writer_write_callback (context : ptr) (bytes : string)
    (len : Z) : M Z :=
  rwo ← deref_rwo (Some context);
  if negb (closed rwo =? 0)%Z
  then mret 0%Z
  else rxml_write_callback (output rwo) bytes len.

(** The write callback of a native output buffer: hands [bytes] to the
    sink and returns the number of bytes the sink took.  The sinks inside
    libxml2 take every byte; the byte sink of a stream session answers for
    itself. *)
Definition sink_write (k : sink) (bytes : string) : M Z :=
  match k with
  | SinkIO context => rxml_writer_write_callback context bytes (strlen bytes)
  | SinkFile filename =>
      _ ← modify (log (EvFileWrite filename bytes)); mret (strlen bytes)
  | SinkMemory buf =>
      content ← deref_buffer (Some buf);
      _ ← modify (fun w =>
            set_buffers (<[buf := content +:+ bytes]> (buffers w)) w);
      mret (strlen bytes)
  | SinkDoc doc =>
      _ ← modify (log (EvDocWrite doc bytes)); mret (strlen bytes)
  end.

(** A writer primitive called on the writer [wp].  libxml2 returns -1 for a
    [NULL] writer. *)
Definition xmlTextWriterCall (c : wcall) (wp : option ptr) : M Z :=
  match wp with
  | None => _ ← modify (log (EvWriter None c (-1))); mret (-1)%Z
  | Some p =>
      xw ← deref_writer p;
      let r := xml_step env c (xw_state xw) in
      _ ← store_writer p {| xw_sink := xw_sink xw;
                            xw_out := xw_out xw +:+ emitted r;
                            xw_state := next_state r |};
      _ ← modify (record_error (recorded r));
      _ ← modify (log (EvWriter wp c (rc r)));
      mret (rc r)
  end.

(** [xmlTextWriterFlush]: -1 when the writer is in error, otherwise the
    output buffer is handed to the sink and what the sink took is dropped
    from it. *)
Definition xmlTextWriterFlush (wp : option ptr) : M Z :=
  match wp with
  | None => _ ← modify (log (EvFlush None (-1))); mret (-1)%Z
  | Some p =>
      xw ← deref_writer p;
      match xml_flush_error env (xw_state xw) with
      | Some e =>
          _ ← modify (set_last_error e);
          _ ← modify (log (EvFlush wp (-1)));
          mret (-1)%Z
      | None =>
          n ← sink_write (xw_sink xw) (xw_out xw);
          _ ← store_writer p {| xw_sink := xw_sink xw;
                                xw_out := string_drop (Z.to_nat n) (xw_out xw);
                                xw_state := xw_state xw |};
          _ ← modify (log (EvFlush wp n));
          mret n
      end
  end.

(** [xmlFreeTextWriter]: closes the output buffer, which pushes what it
    still holds to the sink, and releases the writer. *)
Definition xmlFreeTextWriter (wp : option ptr) : M unit :=
  match wp with
  | None => mret tt
  | Some p =>
      xw ← deref_writer p;
      _ ← sink_write (xw_sink xw) (xw_out xw);
      _ ← modify (fun w => set_writers (delete p (writers w)) w);
      modify (log (EvFreeTextWriter p))
  end.

Definition xmlBufferEmpty (buf : ptr) : M unit :=
  _ ← deref_buffer (Some buf);
  _ ← modify (fun w => set_buffers (<[buf := ""]> (buffers w)) w);
  modify (log (EvBufferEmpty buf)).

Definition xmlBufferFree (buf : ptr) : M unit :=
  _ ← deref_buffer (Some buf);
  _ ← modify (fun w => set_buffers (delete buf (buffers w)) w);
  modify (log (EvBufferFree buf)).

Definition xfree (rwo : ptr) : M unit :=
  modify (fun w => set_rwos (delete rwo (rwos w)) w).

(** [rwo->encoding = e] *)
Definition assign_encoding (rwo : option ptr) (e : rb_encoding) : M unit :=
  o ← deref_rwo rwo;
  match rwo with
  | Some p => store_rwo p (set_encoding e o)
  | None => crash
  end.

(** Allocation inside libxml2: it succeeds, or fails and records an
    error. *)
Definition xml_alloc (a : alloc_call) : M bool := fun w =>
  match xml_alloc_error env a with
  | None => (Ok true, log (EvAlloc a true) w)
  | Some e => (Ok false, log (EvAlloc a false) (set_last_error e w))
  end.

(** [xmlOutputBufferCreateIO(rxml_writer_write_callback, NULL, context,
    encoder)]. *)
Definition xmlOutputBufferCreateIO (context : ptr) (encoder : string)
  : M (option sink) :=
  ok ← xml_alloc (OutputBufferCreateIO context encoder);
  mret (if ok : bool then Some (SinkIO context) else None).

Definition new_writer (k : sink) : M (option ptr) :=
  ok ← xml_alloc (NewTextWriter k);
  if ok : bool then
    p ← gets fresh_ptr;
    _ ← store_writer p
          {| xw_sink := k; xw_out := ""; xw_state := xml_init env k |};
    mret (Some p)
  else mret None.

Definition xmlNewTextWriter (out : sink) : M (option ptr) := new_writer out.

Definition xmlNewTextWriterFilename (filename : string) : M (option ptr) :=
  new_writer (SinkFile filename).

Definition xmlNewTextWriterMemory (buf : ptr) : M (option ptr) :=
  new_writer (SinkMemory buf).

(** [xmlNewTextWriterDoc(&doc, 0)]: the writer and the document it builds.
    Documents are not part of the world; the document is given the number
    of its writer as address. *)
Definition xmlNewTextWriterDoc : M (option ptr * ptr) :=
  doc ← gets fresh_ptr;
  wp ← new_writer (SinkDoc doc);
  mret (wp, doc).

Definition xmlBufferCreate : M (option ptr) :=
  ok ← xml_alloc BufferCreate;
  if ok : bool then
    p ← gets fresh_ptr;
    _ ← modify (fun w => set_buffers (<[p := ""]> (buffers w)) w);
    mret (Some p)
  else mret None.

(** [ALLOC(rxml_writer_object)]: the fields are assigned by the caller
    before they are read. *)
Definition ALLOC : M ptr :=
  p ← gets fresh_ptr;
  _ ← store_rwo p {| output := Qnil; encoding := ""; buffer := None;
                     writer := None; output_type := RXMLW_OUTPUT_NONE;
                     closed := 0 |};
  mret p.

Definition rb_enc_get (v : VALUE) : option rb_encoding :=
  match v with
  | Str _ enc => Some enc
  | _ => object_encoding env v
  end.

(** [rb_str_conv_enc]: the String converted to the encoding [to], or the
    String itself when it cannot be converted.  The runtime specifies the
    function for Strings only: handed another value it reads the value as
    a String object, which is undefined behaviour and is recorded as a
    crash. *)
Definition rb_str_conv_enc (str : VALUE) (from : option rb_encoding)
    (to : rb_encoding) : M VALUE :=
  match str with
  | Str s enc =>
      match transcode env s from to with
      | Some s' => mret (Str s' to)
      | None => mret str
      end
  | _ => crash
  end.

Definition rb_external_str_new_with_enc (bytes : string) (enc : rb_encoding)
  : VALUE := Str bytes enc.

Definition INT2NUM (n : Z) : VALUE := Fixnum n.

(** [NUM2INT]: the integer must fit a C [int]. *)
Definition NUM2INT (v : VALUE) : M Z :=
  match v with
  | Fixnum n =>
      if ((-2147483648 <=? n) && (n <=? 2147483647))%Z then mret n
      else rb_raise (RangeError "integer too big to convert to int")
  | _ => rb_raise (TypeError "no implicit conversion into Integer")
  end.

Definition rb_hash_aref (h : VALUE) (key : string) : VALUE :=
  match h with
  | Hash kvs =>
      from_option snd Qnil (List.find (fun '(k, _) => String.eqb k key) kvs)
  | _ => Qnil
  end.

Definition sEncoding : string := "encoding".
Definition sStandalone : string := "standalone".

(** Modelled from the spec: [rxml_document_wrap], which is defined in
    another file of the extension.  The native document is wrapped as the
    managed Document. *)
Definition rxml_document_wrap (doc : ptr) : VALUE :=
  Data cXMLDocument (Some doc).

Definition rxml_writer_free (rwo : ptr) : M unit :=
  o ← deref_rwo (Some rwo);
  _ ← store_rwo rwo (set_closed 1 o);
  _ ← xmlFreeTextWriter (writer o);
  xfree rwo.

(** The values [rxml_writer_mark] marks. *)
Definition rxml_writer_mark (rwo : ptr) : M (list VALUE) :=
  o ← deref_rwo (Some rwo);
  if negb (NIL_P (output o)) then mret [output o] else mret [].

(** [Data_Wrap_Struct(cXMLWriter, rxml_writer_mark, rxml_writer_free, rwo)] *)
Definition rxml_writer_wrap (rwo : ptr) : VALUE := Data cXMLWriter (Some rwo).

(** Collection of a session: the free hook [rxml_writer_wrap] installs is
    called on the wrapped struct. *)
Definition rb_data_free (self : VALUE) : M unit :=
  match self with
  | Data _ (Some rwo) => rxml_writer_free rwo
  | _ => mret tt
  end.

Definition rxml_textwriter_get (obj : VALUE) : M (option ptr) :=
  Data_Get_Struct obj.

(** *** Constructors *)

Definition rxml_writer_io (klass : rclass) (io : VALUE) : M VALUE :=
  rwo ← ALLOC;
  let o := {| output := io; buffer := None; closed := 0;
              encoding := default rb_utf8_encoding (rb_enc_get io);
              output_type := RXMLW_OUTPUT_IO; writer := None |} in
  _ ← store_rwo rwo o;
  out ← xmlOutputBufferCreateIO rwo (encoding o);
  match out with
  | None => e ← xmlGetLastError; rxml_raise e
  | Some out =>
      wp ← xmlNewTextWriter out;
      match wp with
      | None => e ← xmlGetLastError; rxml_raise e
      | Some _ =>
          _ ← store_rwo rwo
                {| output := output o; buffer := buffer o; closed := closed o;
                   encoding := encoding o; output_type := output_type o;
                   writer := wp |};
          mret (rxml_writer_wrap rwo)
      end
  end.

Definition rxml_writer_file (klass : rclass) (filename : VALUE) : M VALUE :=
  rwo ← ALLOC;
  let o := {| output := Qnil; buffer := None; closed := 0;
              encoding := rb_utf8_encoding;
              output_type := RXMLW_OUTPUT_NONE; writer := None |} in
  _ ← store_rwo rwo o;
  name ← StringValueCStr filename;
  wp ← xmlNewTextWriterFilename name;
  match wp with
  | None => e ← xmlGetLastError; rxml_raise e
  | Some _ =>
      _ ← store_rwo rwo
            {| output := output o; buffer := buffer o; closed := closed o;
               encoding := encoding o; output_type := output_type o;
               writer := wp |};
      mret (rxml_writer_wrap rwo)
  end.

Definition rxml_writer_string (klass : rclass) : M VALUE :=
  rwo ← ALLOC;
  let o := {| output := Qnil; buffer := None; closed := 0;
              encoding := rb_utf8_encoding;
              output_type := RXMLW_OUTPUT_STRING; writer := None |} in
  _ ← store_rwo rwo o;
  buf ← xmlBufferCreate;
  match buf with
  | None => e ← xmlGetLastError; rxml_raise e
  | Some b =>
      wp ← xmlNewTextWriterMemory b;
      match wp with
      | None => _ ← xmlBufferFree b; e ← xmlGetLastError; rxml_raise e
      | Some _ =>
          _ ← store_rwo rwo
                {| output := output o; buffer := buf; closed := closed o;
                   encoding := encoding o; output_type := output_type o;
                   writer := wp |};
          mret (rxml_writer_wrap rwo)
      end
  end.

Definition rxml_writer_doc (klass : rclass) : M VALUE :=
  rwo ← ALLOC;
  let o := {| output := Qnil; buffer := None; closed := 0;
              encoding := rb_utf8_encoding;
              output_type := RXMLW_OUTPUT_DOC; writer := None |} in
  _ ← store_rwo rwo o;
  '(wp, doc) ← xmlNewTextWriterDoc;
  match wp with
  | None => e ← xmlGetLastError; rxml_raise e
  | Some _ =>
      _ ← store_rwo rwo
            {| output := rxml_document_wrap doc; buffer := buffer o;
               closed := closed o; encoding := encoding o;
               output_type := output_type o; writer := wp |};
      mret (rxml_writer_wrap rwo)
  end.

(** *** flush and result *)

Definition rxml_writer_flush (argv : list VALUE) (self : VALUE) : M VALUE :=
  args ← rb_scan_args 0 1 argv;
  let empty := arg 0 args in
  rwo ← rxml_textwriter_get self;
  o ← deref_rwo rwo;
  ret ← xmlTextWriterFlush (writer o);
  if (-1 =? ret)%Z then e ← xmlGetLastError; rxml_raise e
  else
    match buffer o with
    | Some b =>
        bytes ← deref_buffer (Some b);
        let content := rb_external_str_new_with_enc bytes (encoding o) in
        _ ← (if NIL_P empty || RTEST empty  (* nil = default value = true *)
             then xmlBufferEmpty b
             else mret tt);
        mret content
    | None => mret (INT2NUM ret)
    end.

Definition rxml_writer_result (self : VALUE) : M VALUE :=
  let ret := Qnil in
  rwo ← rxml_textwriter_get self;
  o ← deref_rwo rwo;
  bytesWritten ← xmlTextWriterFlush (writer o);
  if (bytesWritten =? -1)%Z then e ← xmlGetLastError; rxml_raise e
  else
    match output_type o with
    | RXMLW_OUTPUT_DOC => mret (output o)
    | RXMLW_OUTPUT_STRING =>
        bytes ← deref_buffer (buffer o);
        mret (rb_external_str_new_with_enc bytes (encoding o))
    | RXMLW_OUTPUT_IO
    | RXMLW_OUTPUT_NONE => mret ret
    end.

(** *** Private helpers *)

Fixpoint encodeStrings (encoding : rb_encoding) (strings : list VALUE)
  : M (list (option string)) :=
  match strings with
  | [] => mret []
  | string :: rest =>
      x ← (if NIL_P string then mret None
           else
             encoded ← rb_str_conv_enc string (rb_enc_get string) encoding;
             s ← StringValueCStr encoded;
             mret (Some s));
      xs ← encodeStrings encoding rest;
      mret (x :: xs)
  end.

Definition xs_nth (i : nat) (xmlStrings : list (option string)) : option string :=
  nth i xmlStrings None.

Definition invoke_void_arg_function (self : VALUE) (fn : wcall) : M VALUE :=
  rwo ← rxml_textwriter_get self;
  o ← deref_rwo rwo;
  result ← xmlTextWriterCall fn (writer o);
  mret (if (result =? -1)%Z then Qfalse else Qtrue).

Definition invoke_single_arg_function (self : VALUE)
    (fn : option string -> wcall) (value : VALUE) : M VALUE :=
  rwo ← rxml_textwriter_get self;
  o ← deref_rwo rwo;
  let rubyStrings := [value] in
  xmlStrings ← encodeStrings (encoding o) rubyStrings;
  result ← xmlTextWriterCall (fn (xs_nth 0 xmlStrings)) (writer o);
  mret (if (result =? -1)%Z then Qfalse else Qtrue).

(** *** Public instance methods *)

Definition rxml_writer_set_indent (self indentation : VALUE) : M VALUE :=
  rwo ← rxml_textwriter_get self;
  o ← deref_rwo rwo;
  ret ← xmlTextWriterCall (SetIndent (RTEST indentation)) (writer o);
  mret (if (-1 =? ret)%Z then Qfalse else Qtrue).

Definition rxml_writer_set_indent_string (self indentation : VALUE) : M VALUE :=
  invoke_single_arg_function self SetIndentString indentation.

Definition rxml_writer_write_comment (self content : VALUE) : M VALUE :=
  invoke_single_arg_function self WriteComment content.

Definition rxml_writer_write_cdata (self content : VALUE) : M VALUE :=
  invoke_single_arg_function self WriteCDATA content.

Definition rxml_writer_start_element (self name : VALUE) : M VALUE :=
  invoke_single_arg_function self StartElement name.

Definition rxml_writer_start_element_ns (argv : list VALUE) (self : VALUE)
  : M VALUE :=
  args ← rb_scan_args 2 1 argv;
  let prefix := arg 0 args in
  let name := arg 1 args in
  let namespaceURI := arg 2 args in
  rwo ← rxml_textwriter_get self;
  o ← deref_rwo rwo;
  let rubyStrings := [prefix; name; namespaceURI] in
  xmlStrings ← encodeStrings (encoding o) rubyStrings;
  result ← xmlTextWriterCall
               (StartElementNS (xs_nth 0 xmlStrings) (xs_nth 1 xmlStrings)
                  (xs_nth 2 xmlStrings))
               (writer o);
  mret (if (result =? -1)%Z then Qfalse else Qtrue).

Definition rxml_writer_end_element (self : VALUE) : M VALUE :=
  invoke_void_arg_function self EndElement.

Definition rxml_writer_write_element (argv : list VALUE) (self : VALUE)
  : M VALUE :=
  args ← rb_scan_args 1 1 argv;
  let name := arg 0 args in
  let content := arg 1 args in
  if NIL_P content then
    started ← rxml_writer_start_element self name;
    if is_Qfalse started then mret Qfalse
    else rxml_writer_end_element self
  else
    rwo ← rxml_textwriter_get self;
    o ← deref_rwo rwo;
    let rubyStrings := [name; content] in
    xmlStrings ← encodeStrings (encoding o) rubyStrings;
    result ← xmlTextWriterCall
               (WriteElement (xs_nth 0 xmlStrings) (xs_nth 1 xmlStrings))
               (writer o);
    mret (if (result =? -1)%Z then Qfalse else Qtrue).

Definition rxml_writer_write_element_ns (argv : list VALUE) (self : VALUE)
  : M VALUE :=
  args ← rb_scan_args 2 2 argv;
  let prefix := arg 0 args in
  let name := arg 1 args in
  let namespaceURI := arg 2 args in
  let content := arg 3 args in
  if NIL_P content then
    let argv := [prefix; name; namespaceURI] in
    started ← rxml_writer_start_element_ns argv self;
    if is_Qfalse started then mret Qfalse
    else rxml_writer_end_element self
  else
    rwo ← rxml_textwriter_get self;
    o ← deref_rwo rwo;
    let rubyStrings := [prefix; name; namespaceURI; content] in
    xmlStrings ← encodeStrings (encoding o) rubyStrings;
    result ← xmlTextWriterCall
               (WriteElementNS (xs_nth 0 xmlStrings) (xs_nth 1 xmlStrings)
                  (xs_nth 2 xmlStrings) (xs_nth 3 xmlStrings))
               (writer o);
    mret (if (result =? -1)%Z then Qfalse else Qtrue).

Definition rxml_writer_write_attribute (self name content : VALUE) : M VALUE :=
  rwo ← rxml_textwriter_get self;
  o ← deref_rwo rwo;
  let rubyStrings := [name; content] in
  xmlStrings ← encodeStrings (encoding o) rubyStrings;
  result ← xmlTextWriterCall
               (WriteAttribute (xs_nth 0 xmlStrings) (xs_nth 1 xmlStrings))
               (writer o);
  mret (if (result =? -1)%Z then Qfalse else Qtrue).

Definition rxml_writer_write_attribute_ns (argv : list VALUE) (self : VALUE)
  : M VALUE :=
  args ← rb_scan_args 2 2 argv;
  let prefix := arg 0 args in
  let name := arg 1 args in
  let namespaceURI := arg 2 args in
  let content := arg 3 args in
  rwo ← rxml_textwriter_get self;
  o ← deref_rwo rwo;
  let rubyStrings := [prefix; name; namespaceURI; content] in
  xmlStrings ← encodeStrings (encoding o) rubyStrings;
  result ← xmlTextWriterCall
               (WriteAttributeNS (xs_nth 0 xmlStrings) (xs_nth 1 xmlStrings)
                  (xs_nth 2 xmlStrings) (xs_nth 3 xmlStrings))
               (writer o);
  mret (if (result =? -1)%Z then Qfalse else Qtrue).

Definition rxml_writer_write_pi (self target content : VALUE) : M VALUE :=
  rwo ← rxml_textwriter_get self;
  o ← deref_rwo rwo;
  let rubyStrings := [target; content] in
  xmlStrings ← encodeStrings (encoding o) rubyStrings;
  result ← xmlTextWriterCall
               (WritePI (xs_nth 0 xmlStrings) (xs_nth 1 xmlStrings))
               (writer o);
  mret (if (result =? -1)%Z then Qfalse else Qtrue).

Definition rxml_writer_write_string (self content : VALUE) : M VALUE :=
  invoke_single_arg_function self WriteString content.

Definition rxml_writer_write_raw (self content : VALUE) : M VALUE :=
  invoke_single_arg_function self WriteRaw content.

Definition rxml_writer_start_attribute (self name : VALUE) : M VALUE :=
  invoke_single_arg_function self StartAttribute name.

Definition rxml_writer_start_attribute_ns (argv : list VALUE) (self : VALUE)
  : M VALUE :=
  args ← rb_scan_args 2 1 argv;
  let prefix := arg 0 args in
  let name := arg 1 args in
  let namespaceURI := arg 2 args in
  rwo ← rxml_textwriter_get self;
  o ← deref_rwo rwo;
  let rubyStrings := [prefix; name; namespaceURI] in
  xmlStrings ← encodeStrings (encoding o) rubyStrings;
  result ← xmlTextWriterCall
               (StartAttributeNS (xs_nth 0 xmlStrings) (xs_nth 1 xmlStrings)
                  (xs_nth 2 xmlStrings))
               (writer o);
  mret (if (result =? -1)%Z then Qfalse else Qtrue).

Definition rxml_writer_end_attribute (self : VALUE) : M VALUE :=
  invoke_void_arg_function self EndAttribute.

Definition rxml_writer_start_comment (self : VALUE) : M VALUE :=
  invoke_void_arg_function self StartComment.

Definition rxml_writer_end_comment (self : VALUE) : M VALUE :=
  invoke_void_arg_function self EndComment.

Definition rxml_writer_full_end_element (self : VALUE) : M VALUE :=
  invoke_void_arg_function self FullEndElement.

Definition rxml_writer_start_cdata (self : VALUE) : M VALUE :=
  invoke_void_arg_function self StartCDATA.

Definition rxml_writer_end_cdata (self : VALUE) : M VALUE :=
  invoke_void_arg_function self EndCDATA.

Definition rxml_writer_start_document (argv : list VALUE) (self : VALUE)
  : M VALUE :=
  args ← rb_scan_args 0 1 argv;
  let options := arg 0 args in
  '(xencoding, xstandalone) ←
    (if negb (NIL_P options) then
       _ ← Check_Type options T_HASH;
       let encoding := rb_hash_aref options sEncoding in
       xencoding ← (if NIL_P encoding then mret None
                    else n ← NUM2INT encoding;
                         mret (xmlGetCharEncodingName env n));
       let standalone := rb_hash_aref options sStandalone in
       let xstandalone :=
         if NIL_P standalone then None
         else Some (if RTEST standalone then "yes" else "no") in
       mret (xencoding, xstandalone)
     else mret (None, None));
  rwo ← rxml_textwriter_get self;
  _ ← assign_encoding rwo (rxml_figure_encoding env xencoding);
  o ← deref_rwo rwo;
  ret ← xmlTextWriterCall (StartDocument None xencoding xstandalone) (writer o);
  mret (if (-1 =? ret)%Z then Qfalse else Qtrue).

Definition rxml_writer_end_document (self : VALUE) : M VALUE :=
  invoke_void_arg_function self EndDocument.

Definition rxml_writer_start_pi (self target : VALUE) : M VALUE :=
  invoke_single_arg_function self StartPI target.

Definition rxml_writer_end_pi (self : VALUE) : M VALUE :=
  invoke_void_arg_function self EndPI.

Definition rxml_writer_start_dtd (argv : list VALUE) (self : VALUE) : M VALUE :=
  args ← rb_scan_args 1 2 argv;
  let name := arg 0 args in
  let pubid := arg 1 args in
  let sysid := arg 2 args in
  rwo ← rxml_textwriter_get self;
  o ← deref_rwo rwo;
  let rubyStrings := [name; pubid; sysid] in
  xmlStrings ← encodeStrings (encoding o) rubyStrings;
  result ← xmlTextWriterCall
               (StartDTD (xs_nth 0 xmlStrings) (xs_nth 1 xmlStrings)
                  (xs_nth 2 xmlStrings))
               (writer o);
  mret (if (result =? -1)%Z then Qfalse else Qtrue).

Definition rxml_writer_start_dtd_element (self name : VALUE) : M VALUE :=
  invoke_single_arg_function self StartDTDElement name.

Definition rxml_writer_start_dtd_entity (argv : list VALUE) (self : VALUE)
  : M VALUE :=
  args ← rb_scan_args 1 1 argv;
  let name := arg 0 args in
  let pe := arg 1 args in
  rwo ← rxml_textwriter_get self;
  o ← deref_rwo rwo;
  let rubyStrings := [name] in
  xmlStrings ← encodeStrings (encoding o) rubyStrings;
  result ← xmlTextWriterCall
               (StartDTDEntity (RTEST pe) (xs_nth 0 xmlStrings))
               (writer o);
  mret (if (result =? -1)%Z then Qfalse else Qtrue).

Definition rxml_writer_start_dtd_attlist (self name : VALUE) : M VALUE :=
  invoke_single_arg_function self StartDTDAttlist name.

Definition rxml_writer_end_dtd (self : VALUE) : M VALUE :=
  invoke_void_arg_function self EndDTD.

Definition rxml_writer_end_dtd_entity (self : VALUE) : M VALUE :=
  invoke_void_arg_function self EndDTDEntity.

Definition rxml_writer_end_dtd_attlist (self : VALUE) : M VALUE :=
  invoke_void_arg_function self EndDTDAttlist.

Definition rxml_writer_end_dtd_element (self : VALUE) : M VALUE :=
  invoke_void_arg_function self EndDTDElement.

Definition rxml_writer_write_dtd (argv : list VALUE) (self : VALUE) : M VALUE :=
  args ← rb_scan_args 1 3 argv;
  let name := arg 0 args in
  let pubid := arg 1 args in
  let sysid := arg 2 args in
  let subset := arg 3 args in
  rwo ← rxml_textwriter_get self;
  o ← deref_rwo rwo;
  let rubyStrings := [name; pubid; sysid; subset] in
  xmlStrings ← encodeStrings (encoding o) rubyStrings;
  result ← xmlTextWriterCall
               (WriteDTD (xs_nth 0 xmlStrings) (xs_nth 1 xmlStrings)
                  (xs_nth 2 xmlStrings) (xs_nth 3 xmlStrings))
               (writer o);
  mret (if (result =? -1)%Z then Qfalse else Qtrue).

Definition rxml_writer_write_dtd_attlist (self name content : VALUE)
  : M VALUE :=
  rwo ← rxml_textwriter_get self;
  o ← deref_rwo rwo;
  let rubyStrings := [name; content] in
  xmlStrings ← encodeStrings (encoding o) rubyStrings;
  result ← xmlTextWriterCall
               (WriteDTDAttlist (xs_nth 0 xmlStrings) (xs_nth 1 xmlStrings))
               (writer o);
  mret (if (result =? -1)%Z then Qfalse else Qtrue).

Definition rxml_writer_write_dtd_element (self name content : VALUE)
  : M VALUE :=
  rwo ← rxml_textwriter_get self;
  o ← deref_rwo rwo;
  let rubyStrings := [name; content] in
  xmlStrings ← encodeStrings (encoding o) rubyStrings;
  result ← xmlTextWriterCall
               (WriteDTDElement (xs_nth 0 xmlStrings) (xs_nth 1 xmlStrings))
               (writer o);
  mret (if (result =? -1)%Z then Qfalse else Qtrue).

Definition rxml_writer_write_dtd_entity
    (self name pubid sysid ndataid content pe : VALUE)
  : M VALUE :=
  rwo ← rxml_textwriter_get self;
  o ← deref_rwo rwo;
  let rubyStrings := [name; pubid; sysid; ndataid; content] in
  xmlStrings ← encodeStrings (encoding o) rubyStrings;
  result ← xmlTextWriterCall
               (WriteDTDEntity (RTEST pe) (xs_nth 0 xmlStrings)
                  (xs_nth 1 xmlStrings) (xs_nth 2 xmlStrings)
                  (xs_nth 3 xmlStrings) (xs_nth 4 xmlStrings))
               (writer o);
  mret (if (result =? -1)%Z then Qfalse else Qtrue).

Definition rxml_writer_write_dtd_external_entity
    (self name pubid sysid ndataid pe : VALUE)
  : M VALUE :=
  rwo ← rxml_textwriter_get self;
  o ← deref_rwo rwo;
  let rubyStrings := [name; pubid; sysid; ndataid] in
  xmlStrings ← encodeStrings (encoding o) rubyStrings;
  result ← xmlTextWriterCall
               (WriteDTDExternalEntity (RTEST pe) (xs_nth 0 xmlStrings)
                  (xs_nth 1 xmlStrings) (xs_nth 2 xmlStrings)
                  (xs_nth 3 xmlStrings))
               (writer o);
  mret (if (result =? -1)%Z then Qfalse else Qtrue).

Definition rxml_writer_write_dtd_external_entity_contents
    (self pubid sysid ndataid : VALUE)
  : M VALUE :=
  rwo ← rxml_textwriter_get self;
  o ← deref_rwo rwo;
  let rubyStrings := [pubid; sysid; ndataid] in
  xmlStrings ← encodeStrings (encoding o) rubyStrings;
  result ← xmlTextWriterCall
               (WriteDTDExternalEntityContents (xs_nth 0 xmlStrings)
                  (xs_nth 1 xmlStrings) (xs_nth 2 xmlStrings))
               (writer o);
  mret (if (result =? -1)%Z then Qfalse else Qtrue).

Definition rxml_writer_write_dtd_internal_entity (self name content pe : VALUE)
  : M VALUE :=
  rwo ← rxml_textwriter_get self;
  o ← deref_rwo rwo;
  let rubyStrings := [name; content] in
  xmlStrings ← encodeStrings (encoding o) rubyStrings;
  result ← xmlTextWriterCall
               (WriteDTDInternalEntity (RTEST pe) (xs_nth 0 xmlStrings)
                  (xs_nth 1 xmlStrings))
               (writer o);
  mret (if (result =? -1)%Z then Qfalse else Qtrue).

Definition rxml_writer_write_dtd_notation (self name pubid sysid : VALUE)
  : M VALUE :=
  rwo ← rxml_textwriter_get self;
  o ← deref_rwo rwo;
  let rubyStrings := [name; pubid; sysid] in
  xmlStrings ← encodeStrings (encoding o) rubyStrings;
  result ← xmlTextWriterCall
               (WriteDTDNotation (xs_nth 0 xmlStrings) (xs_nth 1 xmlStrings)
                  (xs_nth 2 xmlStrings))
               (writer o);
  mret (if (result =? -1)%Z then Qfalse else Qtrue).

Definition rxml_writer_set_quote_char (self quotechar : VALUE) : M VALUE :=
  rwo ← rxml_textwriter_get self;
  xquotechar ← StringValueCStr quotechar;
  o ← deref_rwo rwo;
  ret ← xmlTextWriterCall
          (SetQuoteChar (match xquotechar with
                         | String c _ => c
                         | EmptyString => NUL
                         end))
          (writer o);
  mret (if (-1 =? ret)%Z then Qfalse else Qtrue).

(** *** The class as [rxml_init_writer] registers it *)

(** A method with the arity it is registered with; arity -1 takes the
    argument list. *)
Inductive method :=
| Variadic (f : list VALUE -> VALUE -> M VALUE)
| Arity0 (f : VALUE -> M VALUE)
| Arity1 (f : VALUE -> VALUE -> M VALUE)
| Arity2 (f : VALUE -> VALUE -> VALUE -> M VALUE)
| Arity3 (f : VALUE -> VALUE -> VALUE -> VALUE -> M VALUE)
| Arity5 (f : VALUE -> VALUE -> VALUE -> VALUE -> VALUE -> VALUE -> M VALUE)
| Arity6 (f : VALUE -> VALUE -> VALUE -> VALUE -> VALUE -> VALUE -> VALUE
              -> M VALUE).

(** The runtime checks the number of arguments of a method of fixed arity
    before it calls the C function. *)
Definition rb_call (m : method) (argv : list VALUE) (self : VALUE) : M VALUE :=
  match m, argv with
  | Variadic f, _ => f argv self
  | Arity0 f, [] => f self
  | Arity1 f, [a] => f self a
  | Arity2 f, [a; b] => f self a b
  | Arity3 f, [a; b; c] => f self a b c
  | Arity5 f, [a; b; c; d; e] => f self a b c d e
  | Arity6 f, [a; b; c; d; e; g] => f self a b c d e g
  | _, _ => rb_raise (ArgError "wrong number of arguments")
  end.

Definition rb_define_method (name : string) (m : method)
    (methods : list (string * method)) : list (string * method) :=
  methods ++ [(name, m)].

Definition rxml_init_writer : list (string * method) :=
  let c := [] in
  (* misc *)
  let c := rb_define_method "set_indent" (Arity1 rxml_writer_set_indent) c in
  let c := rb_define_method "set_indent_string"
             (Arity1 rxml_writer_set_indent_string) c in
  let c := rb_define_method "set_quote_char"
             (Arity1 rxml_writer_set_quote_char) c in
  let c := rb_define_method "flush" (Variadic rxml_writer_flush) c in
  let c := rb_define_method "start_dtd" (Variadic rxml_writer_start_dtd) c in
  let c := rb_define_method "start_dtd_entity"
             (Variadic rxml_writer_start_dtd_entity) c in
  let c := rb_define_method "start_dtd_attlist"
             (Arity1 rxml_writer_start_dtd_attlist) c in
  let c := rb_define_method "start_dtd_element"
             (Arity1 rxml_writer_start_dtd_element) c in
  let c := rb_define_method "write_dtd" (Variadic rxml_writer_write_dtd) c in
  let c := rb_define_method "write_dtd_attlist"
             (Arity2 rxml_writer_write_dtd_attlist) c in
  let c := rb_define_method "write_dtd_element"
             (Arity2 rxml_writer_write_dtd_element) c in
  let c := rb_define_method "write_dtd_entity"
             (Arity6 rxml_writer_write_dtd_entity) c in
  let c := rb_define_method "write_dtd_external_entity"
             (Arity5 rxml_writer_write_dtd_external_entity) c in
  let c := rb_define_method "write_dtd_external_entity_contents"
             (Arity3 rxml_writer_write_dtd_external_entity_contents) c in
  let c := rb_define_method "write_dtd_internal_entity"
             (Arity3 rxml_writer_write_dtd_internal_entity) c in
  let c := rb_define_method "write_dtd_notation"
             (Arity3 rxml_writer_write_dtd_notation) c in
  let c := rb_define_method "end_dtd" (Arity0 rxml_writer_end_dtd) c in
  let c := rb_define_method "end_dtd_entity"
             (Arity0 rxml_writer_end_dtd_entity) c in
  let c := rb_define_method "end_dtd_attlist"
             (Arity0 rxml_writer_end_dtd_attlist) c in
  let c := rb_define_method "end_dtd_element"
             (Arity0 rxml_writer_end_dtd_element) c in
  (* tag by parts *)
  let c := rb_define_method "write_raw" (Arity1 rxml_writer_write_raw) c in
  let c := rb_define_method "write_string"
             (Arity1 rxml_writer_write_string) c in
  let c := rb_define_method "start_cdata" (Arity0 rxml_writer_start_cdata) c in
  let c := rb_define_method "end_cdata" (Arity0 rxml_writer_end_cdata) c in
  let c := rb_define_method "start_attribute"
             (Arity1 rxml_writer_start_attribute) c in
  let c := rb_define_method "start_attribute_ns"
             (Variadic rxml_writer_start_attribute_ns) c in
  let c := rb_define_method "end_attribute"
             (Arity0 rxml_writer_end_attribute) c in
  let c := rb_define_method "start_element"
             (Arity1 rxml_writer_start_element) c in
  let c := rb_define_method "start_element_ns"
             (Variadic rxml_writer_start_element_ns) c in
  let c := rb_define_method "end_element" (Arity0 rxml_writer_end_element) c in
  let c := rb_define_method "full_end_element"
             (Arity0 rxml_writer_full_end_element) c in
  let c := rb_define_method "start_document"
             (Variadic rxml_writer_start_document) c in
  let c := rb_define_method "end_document"
             (Arity0 rxml_writer_end_document) c in
  let c := rb_define_method "start_comment"
             (Arity0 rxml_writer_start_comment) c in
  let c := rb_define_method "end_comment" (Arity0 rxml_writer_end_comment) c in
  let c := rb_define_method "start_pi" (Arity1 rxml_writer_start_pi) c in
  let c := rb_define_method "end_pi" (Arity0 rxml_writer_end_pi) c in
  (* full tag at once *)
  let c := rb_define_method "write_attribute"
             (Arity2 rxml_writer_write_attribute) c in
  let c := rb_define_method "write_attribute_ns"
             (Variadic rxml_writer_write_attribute_ns) c in
  let c := rb_define_method "write_comment"
             (Arity1 rxml_writer_write_comment) c in
  let c := rb_define_method "write_cdata" (Arity1 rxml_writer_write_cdata) c in
  let c := rb_define_method "write_element"
             (Variadic rxml_writer_write_element) c in
  let c := rb_define_method "write_element_ns"
             (Variadic rxml_writer_write_element_ns) c in
  let c := rb_define_method "write_pi" (Arity2 rxml_writer_write_pi) c in
  rb_define_method "result" (Arity0 rxml_writer_result) c.

(** The operations that report success as a boolean: every method but
    [flush] and [result]. *)
Definition boolean_operations : list (string * method) :=
  List.filter
    (fun '(name, _) => negb (String.eqb name "flush" || String.eqb name "result"))
    rxml_init_writer.

(** Calling a method by name. *)
Definition send (name : string) (argv : list VALUE) (self : VALUE) : M VALUE :=
  match List.find (fun '(n, _) => String.eqb n name) rxml_init_writer with
  | Some (_, m) => rb_call m argv self
  | None => rb_raise (ArgError "undefined method")
  end.

(** *** Sessions and what an operation reports *)

(** What the constructors establish for each kind of output, between the
    session struct [o] at [rwo] and the sink [k] of its native writer. *)
Definition shape (rwo : ptr) (o : rxml_writer_object) (k : sink) (w : world)
  : Prop :=
  match output_type o with
  | RXMLW_OUTPUT_IO => buffer o = None /\ k = SinkIO rwo
  | RXMLW_OUTPUT_NONE =>
      buffer o = None /\ output o = Qnil /\ exists f, k = SinkFile f
  | RXMLW_OUTPUT_STRING =>
      output o = Qnil /\
      exists b, buffer o = Some b /\ k = SinkMemory b /\ is_Some (buffers w !! b)
  | RXMLW_OUTPUT_DOC =>
      buffer o = None /\
      exists d, k = SinkDoc d /\ output o = rxml_document_wrap d
  end.

(** A writer session: [self] wraps the session struct at [rwo], which is
    not closed and whose native writer is the live writer at [p]. *)
Definition live (self : VALUE) (rwo p : ptr) (w : world) : Prop :=
  exists cls o xw,
    self = Data cls (Some rwo) /\ rwos w !! rwo = Some o /\ closed o = 0%Z /\
    writer o = Some p /\ writers w !! p = Some xw /\
    shape rwo o (xw_sink xw) w.

(** The trace of a writer primitive called on [p] that returned [r]. *)
Definition call_event (p : ptr) (call : wcall * Z) : event :=
  EvWriter (Some p) call.1 call.2.

(** How the outcome of an operation relates to the native calls it made:
    a value is returned after at least one call, it is [false] exactly when
    the last call returned -1, and every call before the last succeeded;
    an exception is raised, and an argument that is no String is read as
    one, only when no native call was made. *)
Definition verdict (o : outcome VALUE) (calls : list (wcall * Z)) : Prop :=
  match o with
  | Ok v => exists before c r,
      calls = before ++ [(c, r)] /\
      Forall (fun call => call.2 <> (-1)%Z) before /\
      v = (if (r =? -1)%Z then Qfalse else Qtrue)
  | Raised _ | Crash => calls = []
  end.

Definition reports (self : VALUE) (rwo p : ptr) (prog : M VALUE) : Prop :=
  forall w, live self rwo p w ->
    exists o w' calls,
      prog w = (o, w') /\
      trace w' = trace w ++ map (call_event p) calls /\
      live self rwo p w' /\
      verdict o calls.

(** A step that makes no native call: it leaves the trace as it is and
    the session live, and a value it returns satisfies [R]. *)
Definition silent {A} (self : VALUE) (rwo p : ptr) (m : M A) (R : A -> Prop)
  : Prop :=
  forall w, live self rwo p w ->
    exists o w', m w = (o, w') /\ trace w' = trace w /\ live self rwo p w' /\
      match o with
      | Ok a => R a
      | Raised _ | Crash => True
      end.

(** *** Basic facts about the monad and the primitives *)

Lemma bind_ok {A B} (m : M A) (f : A -> M B) (w w' : world) (a : A) :
  m w = (Ok a, w') -> (m ≫= f) w = f a w'.
Proof. intros H. unfold mbind, ST_bind. by rewrite H. Qed.

Lemma bind_raised {A B} (m : M A) (f : A -> M B) (w w' : world) (e : exn) :
  m w = (Raised e, w') -> (m ≫= f) w = (Raised e, w').
Proof. intros H. unfold mbind, ST_bind. by rewrite H. Qed.

Lemma bind_crash {A B} (m : M A) (f : A -> M B) (w w' : world) :
  m w = (Crash, w') -> (m ≫= f) w = (Crash, w').
Proof. intros H. unfold mbind, ST_bind. by rewrite H. Qed.

Lemma trace_record_error (e : option xmlError) (w : world) :
  trace (record_error e w) = trace w.
Proof. by destruct e. Qed.

Lemma rwos_record_error (e : option xmlError) (w : world) :
  rwos (record_error e w) = rwos w.
Proof. by destruct e. Qed.

Lemma writers_record_error (e : option xmlError) (w : world) :
  writers (record_error e w) = writers w.
Proof. by destruct e. Qed.

Lemma buffers_record_error (e : option xmlError) (w : world) :
  buffers (record_error e w) = buffers w.
Proof. by destruct e. Qed.

Lemma deref_rwo_live (rwo : ptr) (o : rxml_writer_object) (w : world) :
  rwos w !! rwo = Some o -> deref_rwo (Some rwo) w = (Ok o, w).
Proof. intros H. unfold deref_rwo. simpl. by rewrite H. Qed.

Lemma deref_writer_live (p : ptr) (xw : xmlTextWriter) (w : world) :
  writers w !! p = Some xw -> deref_writer p w = (Ok xw, w).
Proof. intros H. unfold deref_writer. by rewrite H. Qed.

Lemma deref_buffer_live (b : ptr) (content : string) (w : world) :
  buffers w !! b = Some content -> deref_buffer (Some b) w = (Ok content, w).
Proof. intros H. unfold deref_buffer. simpl. by rewrite H. Qed.

(** The world after a writer primitive. *)
Definition after_call (c : wcall) (p : ptr) (xw : xmlTextWriter) (w : world)
  : world :=
  let r := xml_step env c (xw_state xw) in
  log (EvWriter (Some p) c (rc r))
    (record_error (recorded r)
       (set_writers
          (<[p := {| xw_sink := xw_sink xw; xw_out := xw_out xw +:+ emitted r;
                     xw_state := next_state r |}]> (writers w)) w)).

Lemma xmlTextWriterCall_live (c : wcall) (p : ptr) (xw : xmlTextWriter)
    (w : world) :
  writers w !! p = Some xw ->
  xmlTextWriterCall c (Some p) w
  = (Ok (rc (xml_step env c (xw_state xw))), after_call c p xw w).
Proof.
  intros H. unfold xmlTextWriterCall.
  rewrite (bind_ok _ _ _ _ _ (deref_writer_live _ _ _ H)).
  reflexivity.
Qed.

Lemma after_call_trace c p xw w :
  trace (after_call c p xw w)
  = trace w ++ [EvWriter (Some p) c (rc (xml_step env c (xw_state xw)))].
Proof. unfold after_call. simpl. by rewrite trace_record_error. Qed.

Lemma after_call_rwos c p xw w : rwos (after_call c p xw w) = rwos w.
Proof. unfold after_call. simpl. by rewrite rwos_record_error. Qed.

Lemma after_call_buffers c p xw w : buffers (after_call c p xw w) = buffers w.
Proof. unfold after_call. simpl. by rewrite buffers_record_error. Qed.

Lemma after_call_writers c p xw w :
  writers (after_call c p xw w)
  = <[p := {| xw_sink := xw_sink xw;
              xw_out := xw_out xw +:+ emitted (xml_step env c (xw_state xw));
              xw_state := next_state (xml_step env c (xw_state xw)) |}]>
      (writers w).
Proof. unfold after_call. simpl. by rewrite writers_record_error. Qed.

Lemma after_call_live self rwo p c xw w :
  writers w !! p = Some xw ->
  live self rwo p w -> live self rwo p (after_call c p xw w).
Proof.
  intros Hp (cls & o & xw' & -> & Hrwo & Hcl & Hwr & Hxw & Hshape).
  eexists cls, o, _. rewrite after_call_rwos, after_call_writers.
  rewrite lookup_insert_eq. repeat split; try done.
  unfold shape in *. rewrite after_call_buffers. simpl.
  replace xw' with xw in Hshape by congruence. done.
Qed.

(** *** The arguments an operation accepts *)

(** The bytes of a String of encoding [e] once converted to the session
    encoding [enc]: the String itself when it cannot be converted. *)
Definition converted (enc : rb_encoding) (s : string) (e : rb_encoding)
  : string :=
  default s (transcode env s (Some e) enc).

(** A text argument the native layer can be handed: [nil], or a String
    whose converted bytes hold no NUL. *)
Definition encodable (enc : rb_encoding) (v : VALUE) : bool :=
  match v with
  | Qnil => true
  | Str s e => negb (has_nul (converted enc s e))
  | _ => false
  end.

(** What the native layer is handed for a text argument: [NULL] for [nil],
    the converted bytes for a String. *)
Definition marshal (enc : rb_encoding) (v : VALUE) : option string :=
  match v with
  | Str s e => Some (converted enc s e)
  | _ => None
  end.

Lemma encode_one (enc : rb_encoding) (v : VALUE) (w : world) :
  (if NIL_P v then mret None
   else encoded ← rb_str_conv_enc v (rb_enc_get v) enc;
        s ← StringValueCStr encoded;
        mret (Some s)) w
  = match v with
    | Qnil => (Ok None, w)
    | Str s e =>
        if has_nul (converted enc s e)
        then (Raised (ArgError "string contains null byte"), w)
        else (Ok (Some (converted enc s e)), w)
    | _ => (Crash, w)
    end.
Proof.
  destruct v; try reflexivity. simpl. unfold converted.
  destruct (transcode env s (Some enc0) enc) as [s'|]; simpl;
    unfold mbind, ST_bind; simpl.
  - by destruct (has_nul s').
  - by destruct (has_nul s).
Qed.

Lemma encodeStrings_cons (enc : rb_encoding) (v : VALUE) (rest : list VALUE)
    (w : world) :
  encodeStrings enc (v :: rest) w
  = match v with
    | Qnil => (xs ← encodeStrings enc rest; mret (None :: xs)) w
    | Str s e =>
        if has_nul (converted enc s e)
        then (Raised (ArgError "string contains null byte"), w)
        else (xs ← encodeStrings enc rest;
              mret (Some (converted enc s e) :: xs)) w
    | _ => (Crash, w)
    end.
Proof.
  change (encodeStrings enc (v :: rest) w)
    with (mbind (fun x => xs ← encodeStrings enc rest; mret (x :: xs))
            (if NIL_P v then mret None
             else encoded ← rb_str_conv_enc v (rb_enc_get v) enc;
                  s ← StringValueCStr encoded;
                  mret (Some s)) w).
  unfold mbind at 1, ST_bind at 1. rewrite encode_one.
  destruct v; try reflexivity. by destruct (has_nul _).
Qed.

Lemma encodeStrings_accepted (enc : rb_encoding) (strings : list VALUE)
    (w : world) :
  forallb (encodable enc) strings = true ->
  encodeStrings enc strings w = (Ok (map (marshal enc) strings), w).
Proof.
  induction strings as [|v rest IH]; [reflexivity|].
  simpl forallb. intros [Hv Hrest]%andb_prop. rewrite encodeStrings_cons.
  destruct v; simpl in Hv; try discriminate.
  - by rewrite (bind_ok _ _ _ _ _ (IH Hrest)).
  - apply negb_true_iff in Hv. rewrite Hv.
    by rewrite (bind_ok _ _ _ _ _ (IH Hrest)).
Qed.

(** What an operation does with an argument. *)
Inductive parameter :=
| Text        (* handed to [encodeStrings] *)
| Flag        (* tested by [RTEST] *)
| Byte        (* read by [StringValueCStr] *)
| Options.    (* the option Hash of [start_document] *)

(** An argument an operation goes on with: a text that can be encoded, any
    value for a flag, a String without NUL where the bytes are read
    directly, and for the options [nil] or a Hash whose [:encoding] is
    [nil] or an Integer that fits a C [int]. *)
Definition acceptable (enc : rb_encoding) (k : parameter) (v : VALUE) : bool :=
  match k with
  | Text => encodable enc v
  | Flag => true
  | Byte => match v with Str s _ => negb (has_nul s) | _ => false end
  | Options =>
      match v with
      | Qnil => true
      | Hash _ =>
          match rb_hash_aref v sEncoding with
          | Qnil => true
          | Fixnum n => ((-2147483648 <=? n) && (n <=? 2147483647))%Z
          | _ => false
          end
      | _ => false
      end
  end.

(** The start/write/end/set operations: how many arguments each requires
    and what it does with each argument it takes. *)
Definition parameters : list (string * (nat * list parameter)) :=
  [ ("set_indent", (1, [Flag])); ("set_indent_string", (1, [Text]));
    ("set_quote_char", (1, [Byte]));
    ("start_dtd", (1, [Text; Text; Text]));
    ("start_dtd_entity", (1, [Text; Flag]));
    ("start_dtd_attlist", (1, [Text])); ("start_dtd_element", (1, [Text]));
    ("write_dtd", (1, [Text; Text; Text; Text]));
    ("write_dtd_attlist", (2, [Text; Text]));
    ("write_dtd_element", (2, [Text; Text]));
    ("write_dtd_entity", (6, [Text; Text; Text; Text; Text; Flag]));
    ("write_dtd_external_entity", (5, [Text; Text; Text; Text; Flag]));
    ("write_dtd_external_entity_contents", (3, [Text; Text; Text]));
    ("write_dtd_internal_entity", (3, [Text; Text; Flag]));
    ("write_dtd_notation", (3, [Text; Text; Text]));
    ("end_dtd", (0, [])); ("end_dtd_entity", (0, []));
    ("end_dtd_attlist", (0, [])); ("end_dtd_element", (0, []));
    ("write_raw", (1, [Text])); ("write_string", (1, [Text]));
    ("start_cdata", (0, [])); ("end_cdata", (0, []));
    ("start_attribute", (1, [Text]));
    ("start_attribute_ns", (2, [Text; Text; Text]));
    ("end_attribute", (0, []));
    ("start_element", (1, [Text]));
    ("start_element_ns", (2, [Text; Text; Text]));
    ("end_element", (0, [])); ("full_end_element", (0, []));
    ("start_document", (0, [Options])); ("end_document", (0, []));
    ("start_comment", (0, [])); ("end_comment", (0, []));
    ("start_pi", (1, [Text])); ("end_pi", (0, []));
    ("write_attribute", (2, [Text; Text]));
    ("write_attribute_ns", (2, [Text; Text; Text; Text]));
    ("write_comment", (1, [Text])); ("write_cdata", (1, [Text]));
    ("write_element", (1, [Text; Text]));
    ("write_element_ns", (2, [Text; Text; Text; Text]));
    ("write_pi", (2, [Text; Text])) ]%nat.

(** Arguments an operation goes on with, on a session of encoding [enc]:
    as many as it requires, no more than it takes, and each acceptable. *)
Definition well_formed (name : string) (enc : rb_encoding)
    (argv : list VALUE) : bool :=
  match List.find (fun entry => String.eqb entry.1 name) parameters with
  | Some (_, (required, kinds)) =>
      (required <=? List.length argv)%nat &&
      (List.length argv <=? List.length kinds)%nat &&
      forallb (fun '(k, v) => acceptable enc k v) (combine kinds argv)
  | None => false
  end.

(** *** Steps that make no native call *)

Section Steps.

Variables (self : VALUE) (rwo p : ptr).

Lemma silent_ret {A} (a : A) (R : A -> Prop) :
  R a -> silent self rwo p (mret a) R.
Proof. intros HR w Hlive. by exists (Ok a), w. Qed.

Lemma silent_raise {A} (e : exn) (R : A -> Prop) :
  silent self rwo p (rb_raise e) R.
Proof. intros w Hlive. by exists (Raised e), w. Qed.

Lemma silent_crash {A} (R : A -> Prop) : silent self rwo p crash R.
Proof. intros w Hlive. by exists Crash, w. Qed.

Lemma silent_weaken {A} (m : M A) (R R' : A -> Prop) :
  silent self rwo p m R -> (forall a, R a -> R' a) -> silent self rwo p m R'.
Proof.
  intros Hm HR w Hlive.
  destruct (Hm w Hlive) as (o & w' & Hrun & Htr & Hlive' & Ho).
  exists o, w'. repeat split; try done. destruct o; auto.
Qed.

Lemma silent_bind {A B} (m : M A) (f : A -> M B)
    (R : A -> Prop) (R' : B -> Prop) :
  silent self rwo p m R ->
  (forall a, R a -> silent self rwo p (f a) R') ->
  silent self rwo p (m ≫= f) R'.
Proof.
  intros Hm Hf w Hlive.
  destruct (Hm w Hlive) as ([a|e|] & w1 & Ha & Htr & Hlive1 & HR).
  - rewrite (bind_ok _ _ _ _ _ Ha).
    destruct (Hf a HR w1 Hlive1) as (o & w2 & Hb & Htr2 & Hlive2 & HR').
    exists o, w2. repeat split; try done. congruence.
  - rewrite (bind_raised _ _ _ _ _ Ha). by exists (Raised e), w1.
  - rewrite (bind_crash _ _ _ _ Ha). by exists Crash, w1.
Qed.

Lemma silent_scan_args (req opt : nat) (argv : list VALUE) :
  silent self rwo p (rb_scan_args req opt argv) (fun _ => True).
Proof.
  unfold rb_scan_args. case_bool_decide.
  - by apply silent_ret.
  - apply silent_raise.
Qed.

Lemma silent_Check_Type (v : VALUE) (t : ruby_type) :
  silent self rwo p (Check_Type v t) (fun _ => True).
Proof.
  unfold Check_Type. case_bool_decide.
  - by apply silent_ret.
  - apply silent_raise.
Qed.

Lemma silent_StringValueCStr (v : VALUE) :
  silent self rwo p (StringValueCStr v) (fun _ => True).
Proof.
  destruct v; simpl; try apply silent_raise.
  destruct (has_nul s); [apply silent_raise | by apply silent_ret].
Qed.

Lemma silent_NUM2INT (v : VALUE) :
  silent self rwo p (NUM2INT v) (fun _ => True).
Proof.
  destruct v; simpl; try apply silent_raise.
  destruct (_ && _); [by apply silent_ret | apply silent_raise].
Qed.

Lemma silent_textwriter_get :
  silent self rwo p (rxml_textwriter_get self) (fun r => r = Some rwo).
Proof.
  intros w Hlive. pose proof Hlive as (cls & o & xw & -> & _).
  by exists (Ok (Some rwo)), w.
Qed.

Lemma silent_deref_rwo :
  silent self rwo p (deref_rwo (Some rwo)) (fun o => writer o = Some p).
Proof.
  intros w Hlive. pose proof Hlive as (cls & o & xw & -> & Hrwo & _ & Hwr & _).
  exists (Ok o), w. by rewrite (deref_rwo_live _ _ _ Hrwo).
Qed.

Lemma silent_rb_str_conv_enc (v : VALUE) (from : option rb_encoding)
    (to : rb_encoding) :
  silent self rwo p (rb_str_conv_enc v from to) (fun _ => True).
Proof.
  destruct v; simpl; try apply silent_crash.
  destruct (transcode _ _ _ _); by apply silent_ret.
Qed.

Lemma silent_encodeStrings (enc : rb_encoding) (strings : list VALUE) :
  silent self rwo p (encodeStrings enc strings) (fun _ => True).
Proof.
  induction strings as [|string rest IH]; simpl.
  - by apply silent_ret.
  - eapply silent_bind with (R := fun _ => True).
    + destruct (NIL_P string); [by apply silent_ret|].
      eapply silent_bind; [apply silent_rb_str_conv_enc|]. intros encoded _.
      eapply silent_bind; [apply silent_StringValueCStr|].
      intros; by apply silent_ret.
    + intros x _. eapply silent_bind; [apply IH|].
      intros; by apply silent_ret.
Qed.

Lemma silent_assign_encoding (e : rb_encoding) :
  silent self rwo p (assign_encoding (Some rwo) e) (fun _ => True).
Proof.
  intros w Hlive.
  pose proof Hlive as (cls & o & xw & -> & Hrwo & Hcl & Hwr & Hxw & Hshape).
  unfold assign_encoding.
  rewrite (bind_ok _ _ _ _ _ (deref_rwo_live _ _ _ Hrwo)).
  eexists (Ok tt), _. split; [reflexivity|]. repeat split; try done.
  exists cls, (set_encoding e o), xw. simpl. rewrite lookup_insert_eq. done.
Qed.

(** *** Operations that end in a native call *)

Lemma reports_raise (e : exn) : reports self rwo p (rb_raise e).
Proof.
  intros w Hlive. exists (Raised e), w, []. simpl.
  by rewrite app_nil_r.
Qed.

Lemma reports_bind {A} (m : M A) (f : A -> M VALUE) (R : A -> Prop) :
  silent self rwo p m R ->
  (forall a, R a -> reports self rwo p (f a)) ->
  reports self rwo p (m ≫= f).
Proof.
  intros Hm Hf w Hlive.
  destruct (Hm w Hlive) as ([a|e|] & w1 & Ha & Htr & Hlive1 & HR).
  - rewrite (bind_ok _ _ _ _ _ Ha).
    destruct (Hf a HR w1 Hlive1) as (o & w2 & calls & Hb & Htr2 & Hlive2 & Hv).
    exists o, w2, calls. repeat split; try done. congruence.
  - rewrite (bind_raised _ _ _ _ _ Ha).
    exists (Raised e), w1, []. simpl. rewrite app_nil_r. done.
  - rewrite (bind_crash _ _ _ _ Ha).
    exists Crash, w1, []. simpl. rewrite app_nil_r. done.
Qed.

(** The end of every operation: the native call, then the mapping of what
    it returned to a boolean. *)
Lemma reports_call (c : wcall) (o : rxml_writer_object) :
  writer o = Some p ->
  reports self rwo p
    (result ← xmlTextWriterCall c (writer o);
     mret (if (result =? -1)%Z then Qfalse else Qtrue)).
Proof.
  intros Hwr w Hlive.
  pose proof Hlive as (cls & o' & xw & -> & Hrwo & Hcl & Hwr' & Hxw & Hshape).
  rewrite Hwr.
  rewrite (bind_ok _ _ _ _ _ (xmlTextWriterCall_live c _ _ _ Hxw)).
  eexists _, _, [(c, rc (xml_step env c (xw_state xw)))].
  split; [reflexivity|]. split; [apply after_call_trace|].
  split; [by apply after_call_live|].
  exists [], c, (rc (xml_step env c (xw_state xw))). done.
Qed.

Lemma reports_call_sym (c : wcall) (o : rxml_writer_object) :
  writer o = Some p ->
  reports self rwo p
    (ret ← xmlTextWriterCall c (writer o);
     mret (if (-1 =? ret)%Z then Qfalse else Qtrue)).
Proof.
  intros Hwr w Hlive.
  destruct (reports_call c o Hwr w Hlive) as (out & w' & calls & Hrun & H).
  exists out, w', calls. split; [|done]. rewrite <- Hrun.
  unfold mbind, ST_bind. destruct (xmlTextWriterCall c (writer o) w) as [[r| |] w1];
    try done.
  by rewrite Z.eqb_sym.
Qed.

(** An operation that takes no text never raises: it makes its one native
    call and maps what the call returned. *)
Lemma invoke_void_arg_function_live (c : wcall) (w : world) :
  live self rwo p w ->
  exists xw, writers w !! p = Some xw /\
    invoke_void_arg_function self c w
    = (Ok (if (rc (xml_step env c (xw_state xw)) =? -1)%Z then Qfalse else Qtrue),
       after_call c p xw w).
Proof.
  intros (cls & o & xw & -> & Hrwo & Hcl & Hwr & Hxw & Hshape).
  exists xw. split; [done|].
  unfold invoke_void_arg_function, rxml_textwriter_get. simpl.
  rewrite (bind_ok _ _ w w (Some rwo)) by done.
  rewrite (bind_ok _ _ _ _ _ (deref_rwo_live _ _ _ Hrwo)). rewrite Hwr.
  rewrite (bind_ok _ _ _ _ _ (xmlTextWriterCall_live c _ _ _ Hxw)).
  reflexivity.
Qed.

(** A start step followed by an end step, as [write_element] and
    [write_element_ns] chain them when no content is given. *)
Lemma reports_start_then_end (start : M VALUE) (c : wcall) :
  reports self rwo p start ->
  reports self rwo p
    (started ← start;
     if is_Qfalse started then mret Qfalse
     else invoke_void_arg_function self c).
Proof.
  intros Hstart w Hlive.
  destruct (Hstart w Hlive) as ([v|e|] & w1 & calls & Hrun & Htr & Hlive1 & Hv).
  - rewrite (bind_ok _ _ _ _ _ Hrun).
    destruct Hv as (before & c1 & r1 & -> & Hbefore & ->).
    destruct (r1 =? -1)%Z eqn:Hr1; simpl.
    + exists (Ok Qfalse), w1, (before ++ [(c1, r1)]).
      repeat split; try done. exists before, c1, r1. by rewrite Hr1.
    + destruct (invoke_void_arg_function_live c w1 Hlive1) as (xw & Hxw & ->).
      set (r2 := rc (xml_step env c (xw_state xw))).
      eexists _, _, ((before ++ [(c1, r1)]) ++ [(c, r2)]).
      split; [reflexivity|]. split.
      { rewrite after_call_trace, Htr, !map_app. simpl. by rewrite <- !app_assoc. }
      split; [by apply after_call_live|].
      exists (before ++ [(c1, r1)]), c, r2. repeat split; try done.
      apply Forall_app. split; [done|]. constructor; [|done].
      simpl. by apply Z.eqb_neq.
  - rewrite (bind_raised _ _ _ _ _ Hrun). by exists (Raised e), w1, calls.
  - rewrite (bind_crash _ _ _ _ Hrun). by exists Crash, w1, calls.
Qed.

Create HintDb writer_ops.

#[local] Hint Unfold invoke_void_arg_function invoke_single_arg_function
  rxml_writer_set_indent rxml_writer_set_indent_string
  rxml_writer_write_comment rxml_writer_write_cdata
  rxml_writer_start_element rxml_writer_start_element_ns
  rxml_writer_end_element rxml_writer_write_element
  rxml_writer_write_element_ns rxml_writer_write_attribute
  rxml_writer_write_attribute_ns rxml_writer_write_pi
  rxml_writer_write_string rxml_writer_write_raw rxml_writer_start_attribute
  rxml_writer_start_attribute_ns rxml_writer_end_attribute
  rxml_writer_start_comment rxml_writer_end_comment
  rxml_writer_full_end_element rxml_writer_start_cdata rxml_writer_end_cdata
  rxml_writer_start_document rxml_writer_end_document rxml_writer_start_pi
  rxml_writer_end_pi rxml_writer_start_dtd rxml_writer_start_dtd_element
  rxml_writer_start_dtd_entity rxml_writer_start_dtd_attlist
  rxml_writer_end_dtd rxml_writer_end_dtd_entity rxml_writer_end_dtd_attlist
  rxml_writer_end_dtd_element rxml_writer_write_dtd
  rxml_writer_write_dtd_attlist rxml_writer_write_dtd_element
  rxml_writer_write_dtd_entity rxml_writer_write_dtd_external_entity
  rxml_writer_write_dtd_external_entity_contents
  rxml_writer_write_dtd_internal_entity rxml_writer_write_dtd_notation
  rxml_writer_set_quote_char : writer_ops.

Ltac silent_true :=
  repeat first
    [ apply silent_scan_args
    | apply silent_Check_Type
    | apply silent_StringValueCStr
    | apply silent_NUM2INT
    | apply silent_encodeStrings
    | apply silent_assign_encoding
    | apply silent_raise
    | apply silent_ret; exact I
    | eapply silent_bind with (R := fun _ => True); [ | intros ? _ ]
    | match goal with
      | |- silent _ _ _ (if ?b then _ else _) _ => destruct b
      end ].

Ltac reports_tac :=
  autounfold with writer_ops; cbv zeta;
  repeat first
    [ apply reports_raise
    | apply reports_call; assumption
    | apply reports_call_sym; assumption
    | apply reports_start_then_end
    | eapply reports_bind;
        [ apply silent_textwriter_get | cbv beta zeta; intros ? -> ]
    | eapply reports_bind;
        [ apply silent_deref_rwo | cbv beta zeta; intros ? ? ]
    | eapply reports_bind with (R := fun _ => True);
        [ solve [silent_true] | cbv beta zeta; intros ? _ ]
    | match goal with
      | |- reports _ _ _ (if ?b then _ else _) => destruct b
      | |- reports _ _ _ (let '(_, _) := ?a in _) => destruct a
      end ].

(** Every operation registered by [rxml_init_writer], [flush] and [result]
    apart, called with any arguments on a live session. *)
Lemma boolean_operation_reports (name : string) (m : method)
    (argv : list VALUE) :
  In (name, m) boolean_operations ->
  reports self rwo p (rb_call m argv self).
Proof.
  intros Hin. unfold boolean_operations in Hin. simpl in Hin.
  repeat (destruct Hin as [Hin|Hin];
          [injection Hin as <- <-;
           destruct argv as [|a1 [|a2 [|a3 [|a4 [|a5 [|a6 [|a7 rest]]]]]]];
           simpl; reports_tac|]).
  destruct Hin.
Qed.

(** *** Operations on arguments they accept *)

Section Accepted.

Variable o : rxml_writer_object.

(** The worlds in which the session is live and its struct is [o]. *)
Definition tuned (w : world) : Prop :=
  live self rwo p w /\ rwos w !! rwo = Some o.

(** A step before the native call that returns a value that satisfies [R]
    and leaves the world as it is. *)
Definition passes {A} (m : M A) (R : A -> Prop) : Prop :=
  forall w, tuned w -> exists a, m w = (Ok a, w) /\ R a.

(** An operation that returns a value. *)
Definition returns (prog : M VALUE) : Prop :=
  forall w, tuned w -> exists v w', prog w = (Ok v, w') /\ live self rwo p w'.

Lemma tuned_writer (w : world) : tuned w -> writer o = Some p.
Proof.
  intros [(cls & o' & xw & _ & Hrwo & _ & Hwr & _) Ho]. congruence.
Qed.

Lemma passes_ret {A} (a : A) (R : A -> Prop) : R a -> passes (mret a) R.
Proof. intros HR w _. by exists a. Qed.

Lemma passes_scan_args (req opt : nat) (argv : list VALUE) :
  (req <= List.length argv <= req + opt)%nat ->
  passes (rb_scan_args req opt argv)
    (fun args => args = argv ++ replicate (req + opt - List.length argv) Qnil).
Proof.
  intros Hlen w _. unfold rb_scan_args.
  rewrite bool_decide_eq_true_2 by done. by eexists.
Qed.

Lemma passes_StringValueCStr (v : VALUE) :
  acceptable (encoding o) Byte v = true ->
  passes (StringValueCStr v) (fun _ => True).
Proof.
  intros Hv w _. destruct v; simpl in Hv; try discriminate.
  apply negb_true_iff in Hv. simpl. rewrite Hv. by eexists.
Qed.

Lemma passes_textwriter_get :
  passes (rxml_textwriter_get self) (fun r => r = Some rwo).
Proof.
  intros w [(cls & o' & xw & -> & _) _]. by exists (Some rwo).
Qed.

Lemma passes_deref_rwo : passes (deref_rwo (Some rwo)) (fun x => x = o).
Proof.
  intros w [_ Ho]. exists o. by rewrite (deref_rwo_live _ _ _ Ho).
Qed.

Lemma passes_encodeStrings (strings : list VALUE) :
  forallb (encodable (encoding o)) strings = true ->
  passes (encodeStrings (encoding o) strings) (fun _ => True).
Proof.
  intros Hok w _. eexists. by rewrite (encodeStrings_accepted _ _ _ Hok).
Qed.

Lemma returns_bind {A} (m : M A) (f : A -> M VALUE) (R : A -> Prop) :
  passes m R -> (forall a, R a -> returns (f a)) -> returns (m ≫= f).
Proof.
  intros Hm Hf w Hw. destruct (Hm w Hw) as (a & Ha & HR).
  rewrite (bind_ok _ _ _ _ _ Ha). by apply Hf.
Qed.

Lemma returns_call (c : wcall) :
  returns (result ← xmlTextWriterCall c (writer o);
           mret (if (result =? -1)%Z then Qfalse else Qtrue)).
Proof.
  intros w Hw. rewrite (tuned_writer w Hw). destruct Hw as [Hlive _].
  pose proof Hlive as (cls & o' & xw & -> & _ & _ & _ & Hxw & _).
  rewrite (bind_ok _ _ _ _ _ (xmlTextWriterCall_live c _ _ _ Hxw)).
  eexists _, _. split; [reflexivity|]. by apply after_call_live.
Qed.

Lemma returns_call_sym (c : wcall) :
  returns (ret ← xmlTextWriterCall c (writer o);
           mret (if (-1 =? ret)%Z then Qfalse else Qtrue)).
Proof.
  intros w Hw. rewrite (tuned_writer w Hw). destruct Hw as [Hlive _].
  pose proof Hlive as (cls & o' & xw & -> & _ & _ & _ & Hxw & _).
  rewrite (bind_ok _ _ _ _ _ (xmlTextWriterCall_live c _ _ _ Hxw)).
  eexists _, _. split; [reflexivity|]. by apply after_call_live.
Qed.

Lemma returns_start_then_end (start : M VALUE) (c : wcall) :
  returns start ->
  returns (started ← start;
           if is_Qfalse started then mret Qfalse
           else invoke_void_arg_function self c).
Proof.
  intros Hstart w Hw. destruct (Hstart w Hw) as (v & w1 & Hrun & Hlive1).
  rewrite (bind_ok _ _ _ _ _ Hrun). destruct (is_Qfalse v).
  - by eexists _, _.
  - destruct (invoke_void_arg_function_live c w1 Hlive1) as (xw & Hxw & ->).
    eexists _, _. split; [reflexivity|]. by apply after_call_live.
Qed.

(** [start_document] assigns the encoding before it reads the struct
    again: the native call is made on the struct with the new encoding. *)
Lemma returns_start_document (argv : list VALUE) :
  well_formed "start_document" (encoding o) argv = true ->
  returns (rxml_writer_start_document argv self).
Proof.
  intros Hwf.
  assert (Htail : forall xencoding xstandalone,
    returns (rwo ← rxml_textwriter_get self;
             _ ← assign_encoding rwo (rxml_figure_encoding env xencoding);
             o ← deref_rwo rwo;
             ret ← xmlTextWriterCall
                     (StartDocument None xencoding xstandalone) (writer o);
             mret (if (-1 =? ret)%Z then Qfalse else Qtrue))).
  { intros xencoding xstandalone w [Hlive Ho].
    destruct (silent_assign_encoding (rxml_figure_encoding env xencoding) w
                Hlive) as (out & w1 & Hassign & _ & Hlive1 & _).
    pose proof Hlive as (cls & o' & xw & Hself & Hrwo & Hcl & Hwr & Hxw & _).
    unfold assign_encoding in Hassign |- *.
    rewrite (bind_ok _ _ _ _ _ (deref_rwo_live _ _ _ Hrwo)) in Hassign.
    unfold store_rwo, modify in Hassign. injection Hassign as <- <-.
    rewrite Hself in Hlive1 |- *. unfold rxml_textwriter_get. simpl.
    rewrite (bind_ok _ _ w w (Some rwo)) by done.
    rewrite (bind_ok _ _ _ _ _ (bind_ok _ _ _ _ _ (deref_rwo_live _ _ _ Hrwo))).
    set (w1 := set_rwos _ w) in *.
    assert (Ho1 : rwos w1 !! rwo
                  = Some (set_encoding (rxml_figure_encoding env xencoding) o'))
      by (simpl; apply lookup_insert_eq).
    rewrite (bind_ok _ _ _ _ _ (deref_rwo_live _ _ _ Ho1)). simpl writer.
    rewrite Hwr.
    assert (Hxw1 : writers w1 !! p = Some xw) by done.
    rewrite (bind_ok _ _ _ _ _ (xmlTextWriterCall_live _ _ _ _ Hxw1)).
    eexists _, _. split; [reflexivity|]. by apply after_call_live. }
  unfold rxml_writer_start_document.
  unfold well_formed, parameters in Hwf.
  destruct argv as [|options [|? ?]]; simpl in Hwf; try discriminate.
  - eapply returns_bind; [by apply passes_scan_args; simpl; lia|].
    intros args ->. unfold arg. simpl nth. cbv zeta. cbn [negb NIL_P].
    eapply returns_bind with (R := fun _ => True);
      [intros w _; by eexists | intros [xe xs] _; apply Htail].
  - rewrite andb_true_r in Hwf.
    eapply returns_bind; [by apply passes_scan_args; simpl; lia|].
    intros args ->. unfold arg. simpl nth. cbv zeta.
    destruct options; simpl in Hwf; try discriminate; cbn [negb NIL_P];
      (eapply returns_bind with (R := fun _ => True);
       [|intros [xe xs] _; apply Htail]).
    + intros w _. by eexists.
    + intros w _. unfold Check_Type, rb_hash_aref in *. simpl.
      destruct (from_option snd Qnil
                  (List.find (fun '(k, _) => String.eqb k sEncoding) h))
        as [| | |n| | | |] eqn:Henc; try discriminate; simpl.
      * by eexists.
      * unfold mbind, ST_bind. simpl. rewrite Hwf. by eexists.
Qed.

Ltac accepted_text :=
  unfold arg; simpl;
  repeat match goal with
         | H : encodable _ _ = true |- _ => rewrite H
         end;
  reflexivity.

Ltac returns_tac :=
  autounfold with writer_ops; cbv zeta;
  repeat first
    [ apply returns_call
    | apply returns_call_sym
    | apply returns_start_then_end
    | eapply returns_bind;
        [ apply passes_textwriter_get | cbv beta zeta; intros ? -> ]
    | eapply returns_bind;
        [ apply passes_deref_rwo | cbv beta zeta; intros ? -> ]
    | eapply returns_bind;
        [ apply passes_scan_args; simpl; lia
        | cbv beta zeta; intros ? ->; unfold arg;
          cbn [nth app replicate Nat.sub Nat.add length] ]
    | eapply returns_bind with (R := fun _ => True);
        [ apply passes_StringValueCStr; assumption
        | cbv beta zeta; intros ? _ ]
    | eapply returns_bind with (R := fun _ => True);
        [ apply passes_encodeStrings; accepted_text
        | cbv beta zeta; intros ? _ ]
    | match goal with
      | |- returns (if ?b then _ else _) => destruct b
      end ].

(** Every operation registered by [rxml_init_writer], [flush] and [result]
    apart, called on arguments it accepts, returns a value. *)
Lemma boolean_operation_returns (name : string) (m : method)
    (argv : list VALUE) :
  In (name, m) boolean_operations ->
  well_formed name (encoding o) argv = true ->
  returns (rb_call m argv self).
Proof.
  intros Hin Hwf. unfold boolean_operations in Hin. simpl in Hin.
  repeat (destruct Hin as [Hin|Hin];
          [injection Hin as <- <-;
           first
             [ by apply returns_start_document
             | unfold well_formed, parameters in Hwf;
               destruct argv as [|a1 [|a2 [|a3 [|a4 [|a5 [|a6 [|a7 rest]]]]]]];
               simpl in Hwf; try discriminate;
               repeat match goal with
                      | H : _ && _ = true |- _ => apply andb_prop in H as [? ?]
                      end;
               simpl; returns_tac ]|]).
  destruct Hin.
Qed.

End Accepted.

End Steps.

(** *** The boolean operations *)

(** C3: every start/write/end/set operation (every method registered by
    [rxml_init_writer] but [flush] and [result]), called with any arguments
    on any live session,
    - returns [true] or [false] after at least one native call: [false]
      exactly when the last call it made returned -1, [true] otherwise, and
      every call before the last one had succeeded;
    - ends in another way, by an exception or by reading as a String an
      argument that is none, only when it has made no native call at all,
      so never on a native error;
    - and returns whenever it is called on arguments it accepts: as many
      as it requires and no more than it takes, for a text [nil] or a
      String whose bytes in the session encoding hold no NUL. *)
Theorem boolean_operations_map_native_result
    (name : string) (m : method) (argv : list VALUE)
    (self : VALUE) (rwo p : ptr) (o : rxml_writer_object) (w : world) :
  In (name, m) boolean_operations ->
  live self rwo p w ->
  rwos w !! rwo = Some o ->
  exists out w' calls,
    rb_call m argv self w = (out, w') /\
    trace w' = trace w ++ map (call_event p) calls /\
    match out with
    | Ok v => exists before c r,
        calls = before ++ [(c, r)] /\
        Forall (fun call => call.2 <> (-1)%Z) before /\
        v = (if (r =? -1)%Z then Qfalse else Qtrue)
    | Raised _ | Crash => calls = []
    end /\
    (well_formed name (encoding o) argv = true -> exists v, out = Ok v).
Proof.
  intros Hin Hlive Ho.
  destruct (boolean_operation_reports self rwo p name m argv Hin w Hlive)
    as (out & w' & calls & Hrun & Htr & _ & Hv).
  exists out, w', calls. split_and!; try done.
  intros Hwf.
  destruct (boolean_operation_returns self rwo p o name m argv Hin Hwf w)
    as (v & w'' & Hrun' & _); [done|].
  exists v. congruence.
Qed.






(** *** flush and result *)

Lemma string_drop_all (s : string) : string_drop (String.length s) s = "".
Proof. induction s; simpl; auto. Qed.

Lemma append_empty_r (s : string) : s +:+ "" = s.
Proof.
  induction s as [|c s IH]; [reflexivity|].
  change (String c (s +:+ "") = String c s). by rewrite IH.
Qed.

Lemma strlen_nonneg (s : string) : (0 <= strlen s)%Z.
Proof. unfold strlen. lia. Qed.

(** The count the sink of a live session answers when it is handed
    [bytes] in the world [w]: the sinks inside libxml2 take every byte, the
    byte sink of a stream session answers for itself. *)
Definition sink_count (o : rxml_writer_object) (bytes : string) (w : world)
  : Z :=
  match output_type o with
  | RXMLW_OUTPUT_IO => io_write env (trace w) (output o) bytes
  | _ => strlen bytes
  end.

(** What the native flush of a live session whose writer is not in error
    returns: the count its sink answers for the pending bytes. *)
Definition flush_count (o : rxml_writer_object) (xw : xmlTextWriter)
    (w : world) : Z :=
  sink_count o (xw_out xw) w.

(** The world after the output buffer of the writer at [p] went to its
    sink, which took [n] bytes: [w1] is the world the sink left. *)
Definition flushed_by (n : Z) (p : ptr) (xw : xmlTextWriter) (w1 : world)
  : world :=
  log (EvFlush (Some p) n)
    (set_writers
       (<[p := {| xw_sink := xw_sink xw;
                  xw_out := string_drop (Z.to_nat n) (xw_out xw);
                  xw_state := xw_state xw |}]> (writers w1)) w1).

(** The same when the sink took every byte. *)
Definition flushed (p : ptr) (xw : xmlTextWriter) (w1 : world) : world :=
  log (EvFlush (Some p) (strlen (xw_out xw)))
    (set_writers
       (<[p := {| xw_sink := xw_sink xw; xw_out := "";
                  xw_state := xw_state xw |}]> (writers w1)) w1).

Lemma flushed_by_all (p : ptr) (xw : xmlTextWriter) (w1 : world) :
  flushed_by (strlen (xw_out xw)) p xw w1 = flushed p xw w1.
Proof.
  unfold flushed_by, flushed, strlen. by rewrite Nat2Z.id, string_drop_all.
Qed.

(** On a live session the sink answers [sink_count]; only a memory sink
    changes a buffer, and it appends. *)
Lemma sink_write_live (self : VALUE) (rwo p : ptr) (o : rxml_writer_object)
    (xw : xmlTextWriter) (bytes : string) (w : world) :
  live self rwo p w ->
  rwos w !! rwo = Some o ->
  writers w !! p = Some xw ->
  exists w1,
    sink_write (xw_sink xw) bytes w = (Ok (sink_count o bytes w), w1) /\
    rwos w1 = rwos w /\ writers w1 = writers w /\
    last_error w1 = last_error w /\
    match xw_sink xw with
    | SinkMemory b => exists content,
        buffers w !! b = Some content /\
        buffers w1 = <[b := content +:+ bytes]> (buffers w) /\
        trace w1 = trace w
    | _ => buffers w1 = buffers w
    end.
Proof.
  intros (cls & o' & xw' & -> & Hrwo & Hcl & Hwr & Hxw & Hshape) Ho Hp.
  replace o' with o in * by congruence.
  replace xw' with xw in * by congruence. clear Hxw.
  unfold shape in Hshape. unfold sink_count.
  destruct (output_type o).
  - destruct Hshape as (_ & _ & f & ->). simpl. by eexists.
  - destruct Hshape as (_ & ->). simpl.
    unfold rxml_writer_write_callback.
    rewrite (bind_ok _ _ _ _ _ (deref_rwo_live _ _ _ Hrwo)).
    rewrite Hcl. simpl. by eexists.
  - destruct Hshape as (_ & d & -> & _). simpl. by eexists.
  - destruct Hshape as (_ & b & _ & -> & [content Hb]). simpl.
    rewrite (bind_ok _ _ _ _ _ (deref_buffer_live _ _ _ Hb)).
    eexists. split; [reflexivity|]. simpl. repeat split. by exists content.
Qed.

Lemma xmlTextWriterFlush_error (p : ptr) (xw : xmlTextWriter)
    (e : option xmlError) (w : world) :
  writers w !! p = Some xw ->
  xml_flush_error env (xw_state xw) = Some e ->
  xmlTextWriterFlush (Some p) w
  = (Ok (-1)%Z, log (EvFlush (Some p) (-1)) (set_last_error e w)).
Proof.
  intros Hp He. unfold xmlTextWriterFlush.
  rewrite (bind_ok _ _ _ _ _ (deref_writer_live _ _ _ Hp)).
  by rewrite He.
Qed.

(** The native flush of a live session whose writer is not in error. *)
Lemma xmlTextWriterFlush_count (self : VALUE) (rwo p : ptr)
    (o : rxml_writer_object) (xw : xmlTextWriter) (w : world) :
  live self rwo p w ->
  rwos w !! rwo = Some o ->
  writers w !! p = Some xw ->
  xml_flush_error env (xw_state xw) = None ->
  exists w1,
    sink_write (xw_sink xw) (xw_out xw) w = (Ok (flush_count o xw w), w1) /\
    xmlTextWriterFlush (Some p) w
    = (Ok (flush_count o xw w), flushed_by (flush_count o xw w) p xw w1).
Proof.
  intros Hlive Ho Hp He.
  destruct (sink_write_live self rwo p o xw (xw_out xw) w Hlive Ho Hp)
    as (w1 & Hsink & _).
  exists w1. split; [done|]. unfold xmlTextWriterFlush.
  rewrite (bind_ok _ _ _ _ _ (deref_writer_live _ _ _ Hp)).
  rewrite He. by rewrite (bind_ok _ _ _ _ _ Hsink).
Qed.

(** The same for a session that is no stream session: the sink takes every
    pending byte. *)
Lemma xmlTextWriterFlush_ok (self : VALUE) (rwo p : ptr)
    (o : rxml_writer_object) (xw : xmlTextWriter) (w : world) :
  live self rwo p w ->
  rwos w !! rwo = Some o ->
  writers w !! p = Some xw ->
  xml_flush_error env (xw_state xw) = None ->
  output_type o <> RXMLW_OUTPUT_IO ->
  exists w1,
    sink_write (xw_sink xw) (xw_out xw) w = (Ok (strlen (xw_out xw)), w1) /\
    xmlTextWriterFlush (Some p) w = (Ok (strlen (xw_out xw)), flushed p xw w1).
Proof.
  intros Hlive Ho Hp He Hty.
  destruct (xmlTextWriterFlush_count self rwo p o xw w Hlive Ho Hp He)
    as (w1 & Hsink & Hflush).
  assert (Hn : flush_count o xw w = strlen (xw_out xw)).
  { unfold flush_count, sink_count. by destruct (output_type o). }
  rewrite Hn in *. rewrite flushed_by_all in Hflush. by exists w1.
Qed.

(** The native flush on a live session never crashes, and the session is
    live afterwards with the same struct. *)
Lemma xmlTextWriterFlush_live (self : VALUE) (rwo p : ptr) (w : world) :
  live self rwo p w ->
  exists n w1,
    xmlTextWriterFlush (Some p) w = (Ok n, w1) /\
    live self rwo p w1 /\ rwos w1 = rwos w.
Proof.
  intros Hlive.
  pose proof Hlive as (cls & o & xw & -> & Hrwo & Hcl & Hwr & Hxw & Hshape).
  destruct (xml_flush_error env (xw_state xw)) as [e|] eqn:He.
  - rewrite (xmlTextWriterFlush_error p xw e w Hxw He).
    eexists _, _. split; [reflexivity|]. split; [|done].
    by exists cls, o, xw.
  - destruct (xmlTextWriterFlush_count _ rwo p o xw w Hlive Hrwo Hxw He)
      as (w1 & Hsink & ->).
    destruct (sink_write_live _ rwo p o xw (xw_out xw) w Hlive Hrwo Hxw)
      as (w1' & Hsink' & Hrwos & Hwriters & _ & Hbuf).
    rewrite Hsink in Hsink'. injection Hsink' as <-.
    eexists _, _. split; [reflexivity|].
    split; [|done].
    eexists cls, o, _. simpl. rewrite Hrwos, lookup_insert_eq.
    repeat split; try done. simpl.
    unfold shape in *. destruct (output_type o); try done.
    destruct Hshape as (Hout & b & Hb & Hk & Hlive_b). split; [done|].
    exists b. repeat split; try done. rewrite Hk in Hbuf.
    destruct Hbuf as (content & _ & Hb1 & _). simpl.
    rewrite Hb1, lookup_insert_eq. by eexists.
Qed.

Lemma empty_flag (empty : VALUE) :
  NIL_P empty || RTEST empty = negb (is_Qfalse empty).
Proof. by destruct empty. Qed.

Lemma scan_optional (argv : list VALUE) (w : world) :
  (List.length argv <= 1)%nat ->
  exists args, rb_scan_args 0 1 argv w = (Ok args, w) /\ arg 0 args = arg 0 argv.
Proof.
  intros Hlen. destruct argv as [|a [|b rest]]; simpl in Hlen; [| |lia];
    eexists; split; reflexivity.
Qed.

(** [flush] on a live session, from the native flush on. *)
Lemma rxml_writer_flush_unfold (self : VALUE) (rwo p : ptr)
    (o : rxml_writer_object) (argv : list VALUE) (w : world) :
  live self rwo p w ->
  rwos w !! rwo = Some o ->
  (List.length argv <= 1)%nat ->
  send "flush" argv self w
  = (ret ← xmlTextWriterFlush (Some p);
     if (-1 =? ret)%Z then e ← xmlGetLastError; rxml_raise e
     else
       match buffer o with
       | Some b =>
           bytes ← deref_buffer (Some b);
           _ ← (if negb (is_Qfalse (arg 0 argv)) then xmlBufferEmpty b
                else mret tt);
           mret (Str bytes (encoding o))
       | None => mret (Fixnum ret)
       end) w.
Proof.
  intros (cls & o' & xw & -> & Hrwo & Hcl & Hwr & Hxw & Hshape) Ho Hlen.
  replace o' with o in * by congruence.
  change (send "flush" argv (Data cls (Some rwo)))
    with (rxml_writer_flush argv (Data cls (Some rwo))).
  unfold rxml_writer_flush.
  destruct (scan_optional argv w Hlen) as (args & Hscan & Harg).
  rewrite (bind_ok _ _ _ _ _ Hscan).
  unfold rxml_textwriter_get. simpl.
  rewrite (bind_ok _ _ w w (Some rwo)) by done.
  rewrite (bind_ok _ _ _ _ _ (deref_rwo_live _ _ _ Hrwo)).
  rewrite Hwr, empty_flag, Harg. reflexivity.
Qed.

(** [result] on a live session, from the native flush on. *)
Lemma rxml_writer_result_unfold (self : VALUE) (rwo p : ptr)
    (o : rxml_writer_object) (w : world) :
  live self rwo p w ->
  rwos w !! rwo = Some o ->
  send "result" [] self w
  = (bytesWritten ← xmlTextWriterFlush (Some p);
     if (bytesWritten =? -1)%Z then e ← xmlGetLastError; rxml_raise e
     else
       match output_type o with
       | RXMLW_OUTPUT_DOC => mret (output o)
       | RXMLW_OUTPUT_STRING =>
           bytes ← deref_buffer (buffer o);
           mret (Str bytes (encoding o))
       | RXMLW_OUTPUT_IO | RXMLW_OUTPUT_NONE => mret Qnil
       end) w.
Proof.
  intros (cls & o' & xw & -> & Hrwo & Hcl & Hwr & Hxw & Hshape) Ho.
  replace o' with o in * by congruence.
  change (send "result" [] (Data cls (Some rwo)))
    with (rxml_writer_result (Data cls (Some rwo))).
  unfold rxml_writer_result, rxml_textwriter_get. simpl.
  rewrite (bind_ok _ _ w w (Some rwo)) by done.
  rewrite (bind_ok _ _ _ _ _ (deref_rwo_live _ _ _ Hrwo)).
  rewrite Hwr. reflexivity.
Qed.

(** A session that has a buffer is a string-sink session and conversely:
    its writer appends to that buffer, which is allocated. *)
Lemma buffer_of_string_sink (self : VALUE) (rwo p : ptr)
    (o : rxml_writer_object) (xw : xmlTextWriter) (w : world) :
  live self rwo p w ->
  rwos w !! rwo = Some o ->
  writers w !! p = Some xw ->
  (output_type o = RXMLW_OUTPUT_STRING ->
     exists b content, buffer o = Some b /\ xw_sink xw = SinkMemory b /\
                       buffers w !! b = Some content) /\
  (output_type o <> RXMLW_OUTPUT_STRING -> buffer o = None).
Proof.
  intros (cls & o' & xw' & -> & Hrwo & Hcl & Hwr & Hxw & Hshape) Ho Hp.
  replace o' with o in * by congruence.
  replace xw' with xw in * by congruence.
  unfold shape in Hshape. split.
  - intros Hty. rewrite Hty in Hshape.
    destruct Hshape as (_ & b & Hb & Hk & [content Hc]). by exists b, content.
  - intros Hty. destruct (output_type o); try done; tauto.
Qed.

Lemma live_buffer_update (self : VALUE) (rwo p b : ptr) (content : string)
    (e : event) (w : world) :
  live self rwo p w ->
  live self rwo p (log e (set_buffers (<[b := content]> (buffers w)) w)).
Proof.
  intros (cls & o & xw & -> & Hrwo & Hcl & Hwr & Hxw & Hshape).
  exists cls, o, xw. repeat split; try done.
  unfold shape in *. destruct (output_type o); try done. simpl.
  destruct Hshape as (Hout & b' & Hb & Hk & Hlive_b). split; [done|].
  exists b'. repeat split; try done.
  destruct (decide (b = b')) as [->|Hne].
  - rewrite lookup_insert_eq. by eexists.
  - by rewrite lookup_insert_ne.
Qed.

(** [flush] on a string-sink session whose writer is not in error: the
    text returned, and the session it leaves. *)
Lemma flush_string_sink (self : VALUE) (rwo p b : ptr)
    (o : rxml_writer_object) (xw : xmlTextWriter) (content : string)
    (argv : list VALUE) (w : world) :
  live self rwo p w ->
  rwos w !! rwo = Some o ->
  writers w !! p = Some xw ->
  buffer o = Some b ->
  buffers w !! b = Some content ->
  xml_flush_error env (xw_state xw) = None ->
  (List.length argv <= 1)%nat ->
  exists w',
    send "flush" argv self w
    = (Ok (Str (content +:+ xw_out xw) (encoding o)), w') /\
    live self rwo p w' /\
    rwos w' !! rwo = Some o /\
    writers w' !! p = Some {| xw_sink := xw_sink xw; xw_out := "";
                              xw_state := xw_state xw |} /\
    buffers w' !! b
    = Some (if is_Qfalse (arg 0 argv) then content +:+ xw_out xw else "").
Proof.
  intros Hlive Ho Hp Hb Hc He Hlen.
  rewrite (rxml_writer_flush_unfold self rwo p o argv w Hlive Ho Hlen).
  destruct (buffer_of_string_sink self rwo p o xw w Hlive Ho Hp) as [Hstr Hnot].
  assert (Hty : output_type o = RXMLW_OUTPUT_STRING).
  { destruct (decide (output_type o = RXMLW_OUTPUT_STRING)) as [Hty|Hty];
      [done|]. rewrite (Hnot Hty) in Hb. discriminate. }
  assert (Hk : xw_sink xw = SinkMemory b).
  { destruct (Hstr Hty) as (b' & _ & Hb' & Hk & _). congruence. }
  assert (Hio : output_type o <> RXMLW_OUTPUT_IO) by (rewrite Hty; discriminate).
  destruct (xmlTextWriterFlush_ok self rwo p o xw w Hlive Ho Hp He Hio)
    as (w1 & Hsink & Hflush).
  destruct (xmlTextWriterFlush_live self rwo p w Hlive)
    as (n & wf & Hflush' & Hlive_f & Hrwos_f).
  rewrite Hflush in Hflush'. injection Hflush' as <- <-.
  destruct (sink_write_live self rwo p o xw (xw_out xw) w Hlive Ho Hp)
    as (w1' & Hsink' & Hrwos & Hwriters & _ & Hbuf).
  assert (w1' = w1) as -> by congruence.
  rewrite Hk in Hbuf. destruct Hbuf as (content' & Hc' & Hbuf & _).
  replace content' with content in * by congruence.
  rewrite (bind_ok _ _ _ _ _ Hflush).
  replace (-1 =? strlen (xw_out xw))%Z with false
    by (symmetry; apply Z.eqb_neq; pose proof (strlen_nonneg (xw_out xw)); lia).
  rewrite Hb.
  assert (Hcf : buffers (flushed p xw w1) !! b = Some (content +:+ xw_out xw)).
  { simpl. rewrite Hbuf. apply lookup_insert_eq. }
  rewrite (bind_ok _ _ _ _ _ (deref_buffer_live _ _ _ Hcf)).
  destruct (is_Qfalse (arg 0 argv)); simpl.
  - eexists. split; [reflexivity|]. repeat split; try done.
    + congruence.
    + simpl. apply lookup_insert_eq.
  - unfold xmlBufferEmpty.
    rewrite (bind_ok _ _ _ _ _ (bind_ok _ _ _ _ _ (deref_buffer_live _ _ _ Hcf))).
    eexists. split; [reflexivity|]. split; [|split; [|split]].
    + by apply live_buffer_update.
    + simpl. congruence.
    + simpl. apply lookup_insert_eq.
    + simpl. apply lookup_insert_eq.
Qed.

(** C5: on a live session whose native writer is not in error, with at
    most one argument,
    - for the string sink, [flush] returns the text of the buffer as it is
      once the native flush has pushed the pending bytes into it; the
      buffer is left empty unless the flag is [false] ([nil] and no flag
      empty it), and after an emptying flush a second [flush] returns the
      empty string;
    - for every other sink, [flush] returns the count the native flush
      returned, the number of bytes its sink took: every pending byte for
      the file and the document sink, and for the stream sink what the
      byte sink answered, unless that is -1, the failure of C10. *)
Theorem flush_returns_text_or_count
    (self : VALUE) (rwo p : ptr) (o : rxml_writer_object)
    (xw : xmlTextWriter) (w : world) :
  live self rwo p w ->
  rwos w !! rwo = Some o ->
  writers w !! p = Some xw ->
  xml_flush_error env (xw_state xw) = None ->
  (output_type o = RXMLW_OUTPUT_STRING ->
   exists b content,
     buffer o = Some b /\ buffers w !! b = Some content /\
     forall argv, (List.length argv <= 1)%nat ->
     exists w1,
       send "flush" argv self w
       = (Ok (Str (content +:+ xw_out xw) (encoding o)), w1) /\
       buffers w1 !! b
       = Some (if is_Qfalse (arg 0 argv) then content +:+ xw_out xw else "") /\
       (is_Qfalse (arg 0 argv) = false ->
        forall argv2, (List.length argv2 <= 1)%nat ->
        exists w2, send "flush" argv2 self w1 = (Ok (Str "" (encoding o)), w2)))
  /\
  (output_type o <> RXMLW_OUTPUT_STRING ->
   forall argv, (List.length argv <= 1)%nat ->
   exists w1,
     xmlTextWriterFlush (Some p) w = (Ok (flush_count o xw w), w1) /\
     ((output_type o = RXMLW_OUTPUT_IO -> flush_count o xw w <> (-1)%Z) ->
      send "flush" argv self w = (Ok (Fixnum (flush_count o xw w)), w1)) /\
     (output_type o <> RXMLW_OUTPUT_IO ->
      flush_count o xw w = strlen (xw_out xw))).
Proof.
  intros Hlive Ho Hp He.
  destruct (buffer_of_string_sink self rwo p o xw w Hlive Ho Hp) as [Hstr Hnot].
  split.
  - intros Hty. destruct (Hstr Hty) as (b & content & Hb & Hk & Hc).
    exists b, content. repeat split; try done.
    intros argv Hlen.
    destruct (flush_string_sink self rwo p b o xw content argv w
                Hlive Ho Hp Hb Hc He Hlen)
      as (w1 & Hrun & Hlive1 & Ho1 & Hp1 & Hc1).
    exists w1. repeat split; try done.
    intros Hempty argv2 Hlen2. rewrite Hempty in Hc1.
    destruct (flush_string_sink self rwo p b o _ "" argv2 w1
                Hlive1 Ho1 Hp1 Hb Hc1 He Hlen2) as (w2 & Hrun2 & _).
    exists w2. exact Hrun2.
  - intros Hty argv Hlen.
    destruct (xmlTextWriterFlush_count self rwo p o xw w Hlive Ho Hp He)
      as (w1 & _ & Hflush).
    assert (Hsame : output_type o <> RXMLW_OUTPUT_IO ->
                    flush_count o xw w = strlen (xw_out xw)).
    { intros Hio. unfold flush_count, sink_count. by destruct (output_type o). }
    eexists. split; [exact Hflush|]. split; [|done].
    intros Hcount.
    assert (Hn : flush_count o xw w <> (-1)%Z).
    { destruct (decide (output_type o = RXMLW_OUTPUT_IO)) as [Hio|Hio];
        [by apply Hcount|].
      rewrite (Hsame Hio). pose proof (strlen_nonneg (xw_out xw)). lia. }
    rewrite (rxml_writer_flush_unfold self rwo p o argv w Hlive Ho Hlen).
    rewrite (bind_ok _ _ _ _ _ Hflush).
    replace (-1 =? flush_count o xw w)%Z with false
      by (symmetry; apply Z.eqb_neq; lia).
    by rewrite (Hnot Hty).
Qed.

(** C6: on a live session whose native writer is not in error, [result]
    runs the native flush and then, unless the byte sink of a stream
    session answered -1 (the failure of C10), returns, in the world the
    flush left, the Document that wraps the tree being built for the
    document sink, the whole text of the buffer (the pending bytes
    included) for the string sink, and [nil] for the stream and file
    sinks. *)
Theorem result_flushes_then_returns_artifact
    (self : VALUE) (rwo p : ptr) (o : rxml_writer_object)
    (xw : xmlTextWriter) (w : world) :
  live self rwo p w ->
  rwos w !! rwo = Some o ->
  writers w !! p = Some xw ->
  xml_flush_error env (xw_state xw) = None ->
  exists v w1,
    xmlTextWriterFlush (Some p) w = (Ok (flush_count o xw w), w1) /\
    ((output_type o = RXMLW_OUTPUT_IO -> flush_count o xw w <> (-1)%Z) ->
     send "result" [] self w = (Ok v, w1)) /\
    match output_type o with
    | RXMLW_OUTPUT_DOC =>
        exists d, xw_sink xw = SinkDoc d /\ v = rxml_document_wrap d
    | RXMLW_OUTPUT_STRING =>
        exists b content,
          buffer o = Some b /\ buffers w !! b = Some content /\
          v = Str (content +:+ xw_out xw) (encoding o)
    | RXMLW_OUTPUT_IO | RXMLW_OUTPUT_NONE => v = Qnil
    end.
Proof.
  intros Hlive Ho Hp He.
  destruct (xmlTextWriterFlush_count self rwo p o xw w Hlive Ho Hp He)
    as (w1 & Hsink & Hflush).
  assert (Hsame : output_type o <> RXMLW_OUTPUT_IO ->
                  flush_count o xw w = strlen (xw_out xw)).
  { intros Hio. unfold flush_count, sink_count. by destruct (output_type o). }
  assert (Hrun : (output_type o = RXMLW_OUTPUT_IO ->
                  flush_count o xw w <> (-1)%Z) ->
    send "result" [] self w
    = (match output_type o with
       | RXMLW_OUTPUT_DOC => mret (output o)
       | RXMLW_OUTPUT_STRING =>
           bytes ← deref_buffer (buffer o);
           mret (Str bytes (encoding o))
       | RXMLW_OUTPUT_IO | RXMLW_OUTPUT_NONE => mret Qnil
       end) (flushed_by (flush_count o xw w) p xw w1)).
  { intros Hcount.
    assert (Hn : flush_count o xw w <> (-1)%Z).
    { destruct (decide (output_type o = RXMLW_OUTPUT_IO)) as [Hio|Hio];
        [by apply Hcount|].
      rewrite (Hsame Hio). pose proof (strlen_nonneg (xw_out xw)). lia. }
    rewrite (rxml_writer_result_unfold self rwo p o w Hlive Ho).
    rewrite (bind_ok _ _ _ _ _ Hflush).
    by replace (flush_count o xw w =? -1)%Z with false
      by (symmetry; apply Z.eqb_neq; lia). }
  destruct (buffer_of_string_sink self rwo p o xw w Hlive Ho Hp) as [Hstr _].
  pose proof Hlive as (cls & o' & xw' & -> & Hrwo & Hcl & Hwr & Hxw & Hshape).
  replace o' with o in * by congruence.
  replace xw' with xw in * by congruence.
  unfold shape in Hshape.
  destruct (output_type o) eqn:Hty.
  - eexists _, _. split; [exact Hflush|]. split; [exact Hrun | done].
  - eexists _, _. split; [exact Hflush|]. split; [exact Hrun | done].
  - destruct Hshape as (_ & d & Hk & Hout).
    eexists _, _. split; [exact Hflush|]. split; [exact Hrun|].
    exists d. by rewrite Hout.
  - destruct (Hstr eq_refl) as (b & content & Hb & Hk & Hc).
    destruct (sink_write_live _ rwo p o xw (xw_out xw) w Hlive Ho Hp)
      as (w1' & Hsink' & _ & _ & _ & Hbuf).
    assert (w1' = w1) as -> by congruence.
    rewrite Hk in Hbuf. destruct Hbuf as (content' & Hc' & Hbuf & _).
    replace content' with content in * by congruence.
    assert (Hcf : buffers (flushed_by (flush_count o xw w) p xw w1) !! b
                  = Some (content +:+ xw_out xw)).
    { simpl. rewrite Hbuf. apply lookup_insert_eq. }
    rewrite Hb in Hrun.
    rewrite (bind_ok _ _ _ _ _ (deref_buffer_live _ _ _ Hcf)) in Hrun.
    eexists _, _. split; [exact Hflush|]. split; [exact Hrun|].
    by exists b, content.
Qed.

(** C10: on a live session, when the native flush returns -1, [flush] and
    [result] raise the error built from what [xmlGetLastError] returns in
    the world the flush left; and neither ever returns [false]. *)
Theorem flush_and_result_raise_on_native_failure
    (self : VALUE) (rwo p : ptr) (w : world) :
  live self rwo p w ->
  (forall w1, xmlTextWriterFlush (Some p) w = (Ok (-1)%Z, w1) ->
     (forall argv, (List.length argv <= 1)%nat ->
        send "flush" argv self w = (Raised (LibXMLError (last_error w1)), w1)) /\
     send "result" [] self w = (Raised (LibXMLError (last_error w1)), w1)) /\
  (forall argv w', send "flush" argv self w <> (Ok Qfalse, w')) /\
  (forall argv w', send "result" argv self w <> (Ok Qfalse, w')).
Proof.
  intros Hlive.
  pose proof Hlive as (cls & o & xw & Hself & Hrwo & Hcl & Hwr & Hxw & Hshape).
  destruct (xmlTextWriterFlush_live self rwo p w Hlive)
    as (n & wf & Hflush & Hlive_f & Hrwos_f).
  split; [|split].
  - intros w1 Hfail. split.
    + intros argv Hlen.
      rewrite (rxml_writer_flush_unfold self rwo p o argv w Hlive Hrwo Hlen).
      by rewrite (bind_ok _ _ _ _ _ Hfail).
    + rewrite (rxml_writer_result_unfold self rwo p o w Hlive Hrwo).
      by rewrite (bind_ok _ _ _ _ _ Hfail).
  - intros argv w'.
    destruct (decide (List.length argv <= 1)%nat) as [Hlen|Hlen].
    + rewrite (rxml_writer_flush_unfold self rwo p o argv w Hlive Hrwo Hlen).
      rewrite (bind_ok _ _ _ _ _ Hflush).
      destruct (-1 =? n)%Z; [done|].
      destruct (buffer o) as [b|]; [|done].
      unfold mbind, ST_bind.
      destruct (deref_buffer (Some b) wf) as [[bytes| |] w2]; try done.
      destruct (negb _); [|done].
      destruct (xmlBufferEmpty b w2) as [[[]| |] w3]; done.
    + subst self. change (send "flush" argv (Data cls (Some rwo)))
        with (rxml_writer_flush argv (Data cls (Some rwo))).
      unfold rxml_writer_flush, rb_scan_args.
      rewrite bool_decide_eq_false_2 by (simpl; lia). done.
  - intros argv w'. destruct argv as [|a rest]; [|done].
    rewrite (rxml_writer_result_unfold self rwo p o w Hlive Hrwo).
    rewrite (bind_ok _ _ _ _ _ Hflush).
    destruct (n =? -1)%Z; [done|].
    unfold shape in Hshape. destruct (output_type o); try done.
    + destruct Hshape as (_ & d & _ & ->). done.
    + unfold mbind, ST_bind.
      destruct (deref_buffer (buffer o) wf) as [[bytes| |] w2]; done.
Qed.

(** *** Release of a stream session *)

(** On an open stream session the release of the native writer hands the
    bytes still in the output buffer to the byte sink: this is what the
    closed flag prevents. *)
Lemma xmlFreeTextWriter_open_stream (self : VALUE) (rwo p : ptr)
    (o : rxml_writer_object) (xw : xmlTextWriter) (w : world) :
  live self rwo p w ->
  rwos w !! rwo = Some o ->
  output_type o = RXMLW_OUTPUT_IO ->
  writers w !! p = Some xw ->
  exists w',
    xmlFreeTextWriter (Some p) w = (Ok tt, w') /\
    trace w' = trace w ++ [EvIOWrite (output o) (xw_out xw); EvFreeTextWriter p].
Proof.
  intros (cls & o' & xw' & -> & Hrwo & Hcl & Hwr & Hxw & Hshape) Ho Hty Hp.
  replace o' with o in * by congruence.
  replace xw' with xw in * by congruence.
  unfold shape in Hshape. rewrite Hty in Hshape. destruct Hshape as [_ Hk].
  unfold xmlFreeTextWriter.
  rewrite (bind_ok _ _ _ _ _ (deref_writer_live _ _ _ Hp)).
  rewrite Hk. simpl. unfold rxml_writer_write_callback.
  eexists. split.
  - unfold mbind, ST_bind. rewrite (deref_rwo_live _ _ _ Hrwo), Hcl.
    reflexivity.
  - simpl. by rewrite <- app_assoc.
Qed.

(** C7: once the closed flag of the session struct is set, the write
    callback returns 0 and leaves the world as it is, whatever it is
    handed; and the collection of a stream session, which sets the flag
    and then releases the native writer, hands nothing to the byte sink
    although the release pushes the pending bytes through the callback:
    the release runs in the world where the flag is already set, the only
    event the collection adds is the release itself, and the struct and
    the writer are gone afterwards. *)
Theorem closed_session_callback_is_noop
    (self : VALUE) (rwo p : ptr) (o : rxml_writer_object)
    (xw : xmlTextWriter) (w : world) :
  live self rwo p w ->
  rwos w !! rwo = Some o ->
  output_type o = RXMLW_OUTPUT_IO ->
  writers w !! p = Some xw ->
  (forall (w0 : world) (o0 : rxml_writer_object) (bytes : string) (len : Z),
     rwos w0 !! rwo = Some o0 -> closed o0 <> 0%Z ->
     rxml_writer_write_callback rwo bytes len w0 = (Ok 0%Z, w0)) /\
  rb_data_free self w
  = (_ ← xmlFreeTextWriter (Some p); xfree rwo)
      (set_rwos (<[rwo := set_closed 1 o]> (rwos w)) w) /\
  exists w',
    rb_data_free self w = (Ok tt, w') /\
    trace w' = trace w ++ [EvFreeTextWriter p] /\
    rwos w' !! rwo = None /\ writers w' !! p = None.
Proof.
  intros (cls & o' & xw' & -> & Hrwo & Hcl & Hwr & Hxw & Hshape) Ho Hty Hp.
  replace o' with o in * by congruence.
  replace xw' with xw in * by congruence.
  unfold shape in Hshape. rewrite Hty in Hshape. destruct Hshape as [_ Hk].
  split.
  - intros w0 o0 bytes len Ho0 Hclosed. unfold rxml_writer_write_callback.
    rewrite (bind_ok _ _ _ _ _ (deref_rwo_live _ _ _ Ho0)).
    by rewrite (proj2 (Z.eqb_neq _ _) Hclosed).
  - split.
    { change (rb_data_free (Data cls (Some rwo))) with (rxml_writer_free rwo).
      unfold rxml_writer_free.
      rewrite (bind_ok _ _ _ _ _ (deref_rwo_live _ _ _ Hrwo)).
      rewrite (bind_ok _ _ w (set_rwos (<[rwo := set_closed 1 o]> (rwos w)) w) tt)
        by done.
      by rewrite Hwr. }
    change (rb_data_free (Data cls (Some rwo))) with (rxml_writer_free rwo).
    set (w1 := set_rwos (<[rwo := set_closed 1 o]> (rwos w)) w).
    assert (Hp1 : writers w1 !! p = Some xw) by done.
    assert (Ho1 : rwos w1 !! rwo = Some (set_closed 1 o))
      by (simpl; apply lookup_insert_eq).
    assert (Hrelease : xmlFreeTextWriter (Some p) w1
                       = (Ok tt, log (EvFreeTextWriter p)
                                   (set_writers (delete p (writers w1)) w1))).
    { unfold xmlFreeTextWriter.
      rewrite (bind_ok _ _ _ _ _ (deref_writer_live _ _ _ Hp1)).
      rewrite Hk. simpl. unfold rxml_writer_write_callback.
      unfold mbind, ST_bind. by rewrite (deref_rwo_live _ _ _ Ho1). }
    unfold rxml_writer_free.
    rewrite (bind_ok _ _ _ _ _ (deref_rwo_live _ _ _ Hrwo)).
    rewrite (bind_ok _ _ w w1 tt) by done.
    rewrite Hwr, (bind_ok _ _ _ _ _ Hrelease).
    eexists. split; [reflexivity|]. simpl.
    repeat split; apply lookup_delete_eq.
Qed.

(** *** The constructors make live sessions *)

Lemma xml_alloc_ok (a : alloc_call) (w : world) :
  xml_alloc_error env a = None -> xml_alloc a w = (Ok true, log (EvAlloc a true) w).
Proof. intros H. unfold xml_alloc. by rewrite H. Qed.

Ltac run_constructor :=
  repeat first
    [ rewrite xml_alloc_ok by auto
    | progress (unfold ALLOC, store_rwo, store_writer, new_writer, xmlBufferCreate,
                 xmlNewTextWriter, xmlNewTextWriterFilename,
                 xmlNewTextWriterMemory, xmlNewTextWriterDoc,
                 xmlOutputBufferCreateIO, mbind, mret, ST_bind, ST_ret, gets,
                 modify)
    | progress simpl ].

Ltac constructed_session :=
  eexists _, _, _, _; split; [reflexivity|];
  split; [|split; [simpl; apply lookup_insert_eq | reflexivity]];
  eexists _, _, _;
  split_and!;
    [ reflexivity | simpl; apply lookup_insert_eq | reflexivity | reflexivity
    | simpl; apply lookup_insert_eq | unfold shape; simpl ].

Lemma rxml_writer_string_live (cls : rclass) (w : world) :
  (forall a, xml_alloc_error env a = None) ->
  exists rwo p o w',
    rxml_writer_string cls w = (Ok (Data cXMLWriter (Some rwo)), w') /\
    live (Data cXMLWriter (Some rwo)) rwo p w' /\
    rwos w' !! rwo = Some o /\ output_type o = RXMLW_OUTPUT_STRING.
Proof.
  intros Halloc. unfold rxml_writer_string. run_constructor.
  constructed_session.
  split; [done|]. eexists. split_and!; [reflexivity | reflexivity |].
  rewrite lookup_insert_eq. by eexists.
Qed.

Lemma rxml_writer_doc_live (cls : rclass) (w : world) :
  (forall a, xml_alloc_error env a = None) ->
  exists rwo p o w',
    rxml_writer_doc cls w = (Ok (Data cXMLWriter (Some rwo)), w') /\
    live (Data cXMLWriter (Some rwo)) rwo p w' /\
    rwos w' !! rwo = Some o /\ output_type o = RXMLW_OUTPUT_DOC.
Proof.
  intros Halloc. unfold rxml_writer_doc. run_constructor.
  constructed_session.
  split; [done|]. by eexists.
Qed.

Lemma rxml_writer_io_live (cls : rclass) (io : VALUE) (w : world) :
  (forall a, xml_alloc_error env a = None) ->
  exists rwo p o w',
    rxml_writer_io cls io w = (Ok (Data cXMLWriter (Some rwo)), w') /\
    live (Data cXMLWriter (Some rwo)) rwo p w' /\
    rwos w' !! rwo = Some o /\ output_type o = RXMLW_OUTPUT_IO.
Proof.
  intros Halloc. unfold rxml_writer_io. run_constructor.
  constructed_session. done.
Qed.

Lemma rxml_writer_file_live (cls : rclass) (filename : string)
    (enc : rb_encoding) (w : world) :
  (forall a, xml_alloc_error env a = None) ->
  has_nul filename = false ->
  exists rwo p o w',
    rxml_writer_file cls (Str filename enc) w
    = (Ok (Data cXMLWriter (Some rwo)), w') /\
    live (Data cXMLWriter (Some rwo)) rwo p w' /\
    rwos w' !! rwo = Some o /\ output_type o = RXMLW_OUTPUT_NONE.
Proof.
  intros Halloc Hnul. unfold rxml_writer_file. run_constructor.
  rewrite Hnul. run_constructor.
  constructed_session.
  split_and!; [done | done | by eexists].
Qed.

(** *** What the operations leave alone *)

(** A step that leaves the world as it is. *)
Definition pure {A} (m : M A) : Prop := forall w, (m w).2 = w.

(** A step whose final world is related to its initial world by [R]. *)
Definition keeps (R : world -> world -> Prop) {A} (m : M A) : Prop :=
  forall w, R w (m w).2.

Lemma pure_ret {A} (a : A) : pure (mret a).
Proof. by intros w. Qed.

Lemma pure_raise {A} (e : exn) : pure (rb_raise (A := A) e).
Proof. by intros w. Qed.

Lemma pure_bind {A B} (m : M A) (f : A -> M B) :
  pure m -> (forall a, pure (f a)) -> pure (m ≫= f).
Proof.
  intros Hm Hf w. specialize (Hm w). unfold mbind, ST_bind.
  destruct (m w) as [[a|e|] w1]; simpl in *; subst; try done. apply Hf.
Qed.

Lemma pure_scan_args (req opt : nat) (argv : list VALUE) :
  pure (rb_scan_args (W := world) req opt argv).
Proof. intros w. unfold rb_scan_args. by case_bool_decide. Qed.

Lemma pure_Check_Type (v : VALUE) (t : ruby_type) :
  pure (Check_Type (W := world) v t).
Proof. intros w. unfold Check_Type. by case_bool_decide. Qed.

Lemma pure_StringValueCStr (v : VALUE) : pure (StringValueCStr (W := world) v).
Proof. intros w. destruct v; try done. simpl. by destruct (has_nul s). Qed.

Lemma pure_NUM2INT (v : VALUE) : pure (NUM2INT v).
Proof. intros w. destruct v; try done. simpl. by destruct (_ && _). Qed.

Lemma pure_textwriter_get (obj : VALUE) : pure (rxml_textwriter_get obj).
Proof. intros w. by destruct obj. Qed.

Lemma pure_deref_rwo (rwo : option ptr) : pure (deref_rwo rwo).
Proof. intros w. unfold deref_rwo. by destruct (_ ≫= _). Qed.

Lemma pure_rb_str_conv_enc (v : VALUE) (from : option rb_encoding)
    (to : rb_encoding) :
  pure (rb_str_conv_enc v from to).
Proof. intros w. destruct v; try done. simpl. by destruct (transcode _ _ _ _). Qed.

Lemma pure_encodeStrings (enc : rb_encoding) (strings : list VALUE) :
  pure (encodeStrings enc strings).
Proof.
  induction strings as [|string rest IH]; simpl; [apply pure_ret|].
  apply pure_bind.
  - destruct (NIL_P string); [apply pure_ret|].
    apply pure_bind; [apply pure_rb_str_conv_enc | intros encoded].
    apply pure_bind; [apply pure_StringValueCStr | intros; apply pure_ret].
  - intros x. apply pure_bind; [apply IH | intros; apply pure_ret].
Qed.

Section Frame.

Variable R : world -> world -> Prop.
Hypothesis R_refl : forall w, R w w.
Hypothesis R_trans : forall w1 w2 w3, R w1 w2 -> R w2 w3 -> R w1 w3.
Hypothesis R_call : forall c wp, keeps R (xmlTextWriterCall c wp).

Lemma keeps_pure {A} (m : M A) : pure m -> keeps R m.
Proof. intros Hm w. rewrite Hm. apply R_refl. Qed.

Lemma keeps_bind {A B} (m : M A) (f : A -> M B) :
  keeps R m -> (forall a, keeps R (f a)) -> keeps R (m ≫= f).
Proof.
  intros Hm Hf w. specialize (Hm w). unfold mbind, ST_bind.
  destruct (m w) as [[a|e|] w1]; simpl in *; try done.
  eapply R_trans; [exact Hm | apply Hf].
Qed.

Create HintDb writer_frame.

#[local] Hint Unfold invoke_void_arg_function invoke_single_arg_function
  rxml_writer_set_indent rxml_writer_set_indent_string
  rxml_writer_write_comment rxml_writer_write_cdata
  rxml_writer_start_element rxml_writer_start_element_ns
  rxml_writer_end_element rxml_writer_write_element
  rxml_writer_write_element_ns rxml_writer_write_attribute
  rxml_writer_write_attribute_ns rxml_writer_write_pi
  rxml_writer_write_string rxml_writer_write_raw rxml_writer_start_attribute
  rxml_writer_start_attribute_ns rxml_writer_end_attribute
  rxml_writer_start_comment rxml_writer_end_comment
  rxml_writer_full_end_element rxml_writer_start_cdata rxml_writer_end_cdata
  rxml_writer_start_document rxml_writer_end_document rxml_writer_start_pi
  rxml_writer_end_pi rxml_writer_start_dtd rxml_writer_start_dtd_element
  rxml_writer_start_dtd_entity rxml_writer_start_dtd_attlist
  rxml_writer_end_dtd rxml_writer_end_dtd_entity rxml_writer_end_dtd_attlist
  rxml_writer_end_dtd_element rxml_writer_write_dtd
  rxml_writer_write_dtd_attlist rxml_writer_write_dtd_element
  rxml_writer_write_dtd_entity rxml_writer_write_dtd_external_entity
  rxml_writer_write_dtd_external_entity_contents
  rxml_writer_write_dtd_internal_entity rxml_writer_write_dtd_notation
  rxml_writer_set_quote_char : writer_frame.

Ltac pure_tac :=
  repeat first
    [ apply pure_ret | apply pure_raise | apply pure_scan_args
    | apply pure_Check_Type | apply pure_StringValueCStr | apply pure_NUM2INT
    | apply pure_textwriter_get | apply pure_deref_rwo
    | apply pure_encodeStrings
    | apply pure_bind; [ | intros ? ]
    | match goal with
      | |- pure (if ?b then _ else _) => destruct b
      | |- pure (let '(_, _) := ?a in _) => destruct a
      end ].

Ltac frame_tac assign :=
  autounfold with writer_frame; cbv zeta;
  repeat first
    [ apply R_call
    | apply keeps_pure; solve [pure_tac]
    | assign
    | apply keeps_bind; [ | intros ? ]
    | match goal with
      | |- keeps _ (if ?b then _ else _) => destruct b
      | |- keeps _ (let '(_, _) := ?a in _) => destruct a
      end ].

(** Every boolean operation but [start_document] keeps [R]; and so does
    [start_document] when the assignment of the session encoding does. *)
Lemma boolean_operation_keeps (name : string) (m : method)
    (argv : list VALUE) (self : VALUE) :
  In (name, m) boolean_operations ->
  (name = "start_document" -> forall rwo e, keeps R (assign_encoding rwo e)) ->
  keeps R (rb_call m argv self).
Proof.
  intros Hin Hassign. unfold boolean_operations in Hin. simpl in Hin.
  repeat (destruct Hin as [Hin|Hin];
          [injection Hin as <- <-;
           destruct argv as [|a1 [|a2 [|a3 [|a4 [|a5 [|a6 [|a7 rest]]]]]]];
           simpl;
           frame_tac ltac:(apply Hassign; reflexivity)|]).
  destruct Hin.
Qed.

End Frame.

(** Two session structs that differ at most in their encoding. *)
Definition same_sink (o o' : rxml_writer_object) : Prop :=
  output o' = output o /\ buffer o' = buffer o /\ writer o' = writer o /\
  output_type o' = output_type o /\ closed o' = closed o.

(** The same structs are allocated, each with the sink it had. *)
Definition same_sinks (w w' : world) : Prop :=
  forall q, option_Forall2 same_sink (rwos w !! q) (rwos w' !! q).

Lemma same_sinks_refl (w : world) : same_sinks w w.
Proof.
  intros q. destruct (rwos w !! q); constructor. by repeat split.
Qed.

Lemma same_sinks_trans (w1 w2 w3 : world) :
  same_sinks w1 w2 -> same_sinks w2 w3 -> same_sinks w1 w3.
Proof.
  intros H12 H23 q. specialize (H12 q). specialize (H23 q).
  destruct H12 as [o1 o2 (?&?&?&?&?)|]; inversion H23 as [? o3 (?&?&?&?&?)|];
    subst; constructor.
  repeat split; congruence.
Qed.

Lemma xmlTextWriterCall_rwos (c : wcall) (wp : option ptr) (w : world) :
  rwos (xmlTextWriterCall c wp w).2 = rwos w.
Proof.
  destruct wp as [p|]; [|done]. unfold xmlTextWriterCall, deref_writer.
  unfold mbind, ST_bind. destruct (writers w !! p); [|done].
  simpl. by rewrite rwos_record_error.
Qed.

Lemma assign_encoding_same_sinks (rwo : option ptr) (e : rb_encoding) :
  keeps same_sinks (assign_encoding rwo e).
Proof.
  intros w. unfold assign_encoding, deref_rwo, mbind, ST_bind.
  destruct rwo as [p|]; simpl; [|apply same_sinks_refl].
  destruct (rwos w !! p) as [o|] eqn:Ho; [|apply same_sinks_refl].
  unfold store_rwo, modify. simpl. intros q. simpl.
  destruct (decide (p = q)) as [<-|Hne].
  - rewrite lookup_insert_eq, Ho. constructor. by repeat split.
  - rewrite lookup_insert_ne by done. apply same_sinks_refl.
Qed.

(** X7: no start/write/end/set operation, whatever its arguments and
    whether it succeeds, fails or raises, allocates or frees a session
    struct or changes the output, the buffer, the native writer, the
    output type or the closed flag of any session: the sink of a session is
    the one it was constructed with. *)
Theorem operations_keep_the_sink
    (name : string) (m : method) (argv : list VALUE) (self : VALUE)
    (w : world) :
  In (name, m) boolean_operations ->
  same_sinks w (rb_call m argv self w).2.
Proof.
  intros Hin.
  apply (boolean_operation_keeps same_sinks same_sinks_refl same_sinks_trans)
    with (name := name); [|done|].
  - intros c wp w0 q. rewrite xmlTextWriterCall_rwos. apply same_sinks_refl.
  - intros _. apply assign_encoding_same_sinks.
Qed.

(** X8: [start_document] is the only start/write/end/set operation that
    changes the encoding of a session: every other one leaves all the
    session structs exactly as they were. *)
Theorem only_start_document_sets_the_encoding
    (name : string) (m : method) (argv : list VALUE) (self : VALUE)
    (w : world) :
  In (name, m) boolean_operations ->
  name <> "start_document" ->
  rwos (rb_call m argv self w).2 = rwos w.
Proof.
  intros Hin Hname.
  apply (boolean_operation_keeps (fun w w' => rwos w' = rwos w))
    with (name := name); try done.
  - intros w1 w2 w3 H12 H23. congruence.
  - intros c wp w0. apply xmlTextWriterCall_rwos.
Qed.

(** *** Argument counts *)

(** The least and the greatest number of arguments each method takes: the
    arity it is registered with or, for the methods registered with arity
    -1, the format its [rb_scan_args] is given. *)
Definition accepted_arguments : list (string * (nat * nat)) :=
  [ ("set_indent", (1, 1)); ("set_indent_string", (1, 1));
    ("set_quote_char", (1, 1)); ("flush", (0, 1)); ("start_dtd", (1, 3));
    ("start_dtd_entity", (1, 2)); ("start_dtd_attlist", (1, 1));
    ("start_dtd_element", (1, 1)); ("write_dtd", (1, 4));
    ("write_dtd_attlist", (2, 2)); ("write_dtd_element", (2, 2));
    ("write_dtd_entity", (6, 6)); ("write_dtd_external_entity", (5, 5));
    ("write_dtd_external_entity_contents", (3, 3));
    ("write_dtd_internal_entity", (3, 3)); ("write_dtd_notation", (3, 3));
    ("end_dtd", (0, 0)); ("end_dtd_entity", (0, 0));
    ("end_dtd_attlist", (0, 0)); ("end_dtd_element", (0, 0));
    ("write_raw", (1, 1)); ("write_string", (1, 1)); ("start_cdata", (0, 0));
    ("end_cdata", (0, 0)); ("start_attribute", (1, 1));
    ("start_attribute_ns", (2, 3)); ("end_attribute", (0, 0));
    ("start_element", (1, 1)); ("start_element_ns", (2, 3));
    ("end_element", (0, 0)); ("full_end_element", (0, 0));
    ("start_document", (0, 1)); ("end_document", (0, 0));
    ("start_comment", (0, 0)); ("end_comment", (0, 0)); ("start_pi", (1, 1));
    ("end_pi", (0, 0)); ("write_attribute", (2, 2));
    ("write_attribute_ns", (2, 4)); ("write_comment", (1, 1));
    ("write_cdata", (1, 1)); ("write_element", (1, 2));
    ("write_element_ns", (2, 4)); ("write_pi", (2, 2)); ("result", (0, 0)) ]%nat.

Definition accepted (name : string) : option (nat * nat) :=
  snd <$> List.find (fun entry => String.eqb entry.1 name) accepted_arguments.

Lemma scan_args_rejects {A} (req opt : nat) (argv : list VALUE)
    (f : list VALUE -> M A) (w : world) :
  ~ (req <= List.length argv <= req + opt)%nat ->
  (rb_scan_args req opt argv ≫= f) w
  = (Raised (ArgError "wrong number of arguments"), w).
Proof.
  intros Hlen. unfold mbind, ST_bind, rb_scan_args.
  by rewrite bool_decide_eq_false_2.
Qed.

(** X9: every method of the class, called with fewer arguments than it
    requires or more than it takes, raises an [ArgumentError] and leaves
    the world as it was: no native call is made. *)
Theorem wrong_argument_count_is_refused
    (name : string) (m : method) (lo hi : nat) (argv : list VALUE)
    (self : VALUE) (w : world) :
  In (name, m) rxml_init_writer ->
  accepted name = Some (lo, hi) ->
  ~ (lo <= List.length argv <= hi)%nat ->
  rb_call m argv self w = (Raised (ArgError "wrong number of arguments"), w).
Proof.
  intros Hin Hacc Hlen. unfold rxml_init_writer, rb_define_method in Hin.
  simpl in Hin.
  repeat (destruct Hin as [Hin|Hin];
          [injection Hin as <- <-; injection Hacc as <- <-;
           first
             [ apply scan_args_rejects; exact Hlen
             | destruct argv as [|a1 [|a2 [|a3 [|a4 [|a5 [|a6 [|a7 rest]]]]]]];
               simpl in Hlen; first [reflexivity | exfalso; lia] ]|]).
  destruct Hin.
Qed.

(** *** Marshalling of the text arguments *)


(** X11: [write_element_ns] with no content is [start_element_ns] followed
    by [end_element] unless the start step returns [false], in which case
    it returns [false] in the world the start step left; and a namespace
    URI or a content that is omitted is the same as one that is [nil]. *)
Theorem write_element_ns_is_start_then_end
    (prefix name namespaceURI self : VALUE) (w : world)
    (o : outcome VALUE) (w1 : world) :
  rxml_writer_start_element_ns [prefix; name; namespaceURI] self w = (o, w1) ->
  (o <> Ok Qfalse ->
   send "write_element_ns" [prefix; name; namespaceURI] self w
   = (_ ← rxml_writer_start_element_ns [prefix; name; namespaceURI] self;
      rxml_writer_end_element self) w) /\
  (o = Ok Qfalse ->
   send "write_element_ns" [prefix; name; namespaceURI] self w
   = (Ok Qfalse, w1)) /\
  send "write_element_ns" [prefix; name; namespaceURI; Qnil] self w
  = send "write_element_ns" [prefix; name; namespaceURI] self w /\
  send "write_element_ns" [prefix; name] self w
  = send "write_element_ns" [prefix; name; Qnil] self w.
Proof.
  intros Hstart.
  assert (Hrun : send "write_element_ns" [prefix; name; namespaceURI] self
                 = (started ← rxml_writer_start_element_ns
                                [prefix; name; namespaceURI] self;
                    if is_Qfalse started then mret Qfalse
                    else rxml_writer_end_element self)) by reflexivity.
  split_and!; try reflexivity.
  - intros Ho. rewrite Hrun.
    destruct o as [v|e|].
    + rewrite !(bind_ok _ _ _ _ _ Hstart). by destruct v.
    + by rewrite !(bind_raised _ _ _ _ _ Hstart).
    + by rewrite !(bind_crash _ _ _ _ Hstart).
  - intros ->. rewrite Hrun. by rewrite (bind_ok _ _ _ _ _ Hstart).
Qed.

(** *** start_document *)

(** The standalone declaration written for the value of the option. *)
Definition standalone_text (standalone : VALUE) : option string :=
  if NIL_P standalone then None
  else Some (if RTEST standalone then "yes" else "no").

Lemma rxml_writer_start_document_run (self : VALUE) (rwo p : ptr)
    (o : rxml_writer_object) (xencoding xstandalone : option string)
    (w : world) :
  live self rwo p w ->
  rwos w !! rwo = Some o ->
  (rwo ← rxml_textwriter_get self;
   _ ← assign_encoding rwo (rxml_figure_encoding env xencoding);
   o ← deref_rwo rwo;
   ret ← xmlTextWriterCall (StartDocument None xencoding xstandalone) (writer o);
   mret (if (-1 =? ret)%Z then Qfalse else Qtrue)) w
  = (ret ← xmlTextWriterCall (StartDocument None xencoding xstandalone)
             (Some p);
     mret (if (-1 =? ret)%Z then Qfalse else Qtrue))
      (set_rwos
         (<[rwo := set_encoding (rxml_figure_encoding env xencoding) o]>
            (rwos w)) w).
Proof.
  intros (cls & o' & xw & -> & Hrwo & Hcl & Hwr & Hxw & Hshape) Ho.
  replace o' with o in * by congruence.
  unfold rxml_textwriter_get. simpl.
  rewrite (bind_ok _ _ w w (Some rwo)) by done.
  unfold assign_encoding.
  rewrite (bind_ok _ _ w
             (set_rwos (<[rwo := set_encoding
                                   (rxml_figure_encoding env xencoding) o]>
                          (rwos w)) w) tt).
  2:{ by rewrite (bind_ok _ _ _ _ _ (deref_rwo_live _ _ _ Hrwo)). }
  erewrite bind_ok.
  2:{ apply deref_rwo_live. simpl. apply lookup_insert_eq. }
  simpl. by rewrite Hwr.
Qed.

(** X12: on a live session [start_document] first sets the encoding of the
    session to the one the [:encoding] option names (the default one when
    the option is absent or [nil]) and then makes one native call, with no
    version, the name of that encoding and, for the [:standalone] option,
    nothing when it is absent or [nil], "yes" when it is truthy and "no"
    when it is [false].  The encoding is set whether or not the native
    call succeeds. *)
Theorem start_document_sets_encoding_then_calls
    (self : VALUE) (rwo p : ptr) (o : rxml_writer_object)
    (h : list (string * VALUE)) (w : world) :
  live self rwo p w ->
  rwos w !! rwo = Some o ->
  let encoding := rb_hash_aref (Hash h) sEncoding in
  let standalone := rb_hash_aref (Hash h) sStandalone in
  forall xencoding,
    (NIL_P encoding = true /\ xencoding = None \/
     exists n, encoding = Fixnum n /\ (-2147483648 <= n <= 2147483647)%Z /\
               xencoding = xmlGetCharEncodingName env n) ->
    let w0 := set_rwos
                (<[rwo := set_encoding (rxml_figure_encoding env xencoding) o]>
                   (rwos w)) w in
    exists ret w',
      xmlTextWriterCall
        (StartDocument None xencoding (standalone_text standalone)) (Some p) w0
      = (Ok ret, w') /\
      send "start_document" [Hash h] self w
      = (Ok (if (ret =? -1)%Z then Qfalse else Qtrue), w') /\
      rwos w' !! rwo
      = Some (set_encoding (rxml_figure_encoding env xencoding) o) /\
      (h = [] ->
       send "start_document" [] self w = send "start_document" [Hash h] self w /\
       send "start_document" [Qnil] self w
       = send "start_document" [Hash h] self w).
Proof.
  intros Hlive Ho encoding standalone xencoding Henc w0.
  pose proof Hlive as (cls & o' & xw & Hself & Hrwo & Hcl & Hwr & Hxw & Hshape).
  assert (Hxw0 : writers w0 !! p = Some xw) by done.
  pose proof (xmlTextWriterCall_live
                (StartDocument None xencoding (standalone_text standalone))
                p xw w0 Hxw0) as Hcall.
  eexists _, _. split; [exact Hcall|].
  assert (Hrun : forall argv,
    (argv = [Hash h] \/ h = [] /\ (argv = [] \/ argv = [Qnil])) ->
    send "start_document" argv self w
    = (Ok (if (rc (xml_step env
                     (StartDocument None xencoding (standalone_text standalone))
                     (xw_state xw)) =? -1)%Z then Qfalse else Qtrue),
       after_call (StartDocument None xencoding (standalone_text standalone))
         p xw w0)).
  { intros argv Hargv.
    change (send "start_document" argv self)
      with (rxml_writer_start_document argv self).
    unfold rxml_writer_start_document.
    assert (Hopts :
      exists options, rb_scan_args (W := world) 0 1 argv w = (Ok [options], w) /\
        (options = Hash h \/ h = [] /\ options = Qnil)).
    { destruct Hargv as [-> | [Hh [-> | ->]]]; eexists; (split; [reflexivity|]);
        auto. }
    destruct Hopts as (options & Hscan & Hoptions).
    rewrite (bind_ok _ _ _ _ _ Hscan). unfold arg. simpl.
    assert (Hparse :
      (if negb (NIL_P options)
       then _ ← Check_Type options T_HASH;
            xencoding ← (if NIL_P (rb_hash_aref options sEncoding)
                         then mret None
                         else n ← NUM2INT (rb_hash_aref options sEncoding);
                              mret (xmlGetCharEncodingName env n));
            mret (xencoding,
                  if NIL_P (rb_hash_aref options sStandalone) then None
                  else Some (if RTEST (rb_hash_aref options sStandalone)
                             then "yes" else "no"))
       else mret (None, None)) w
      = (Ok (xencoding, standalone_text standalone), w)).
    { destruct Hoptions as [-> | [-> ->]].
      - simpl. unfold mbind at 1, ST_bind at 1. simpl.
        unfold standalone_text.
        subst encoding standalone. unfold rb_hash_aref in *. simpl in Henc.
        destruct Henc as [[Hnil ->] | (n & Hn & Hrange & ->)].
        + rewrite Hnil. reflexivity.
        + rewrite Hn. simpl.
          replace ((-2147483648 <=? n)%Z && (n <=? 2147483647)%Z) with true
            by (symmetry; apply andb_true_intro; split; apply Z.leb_le; lia).
          reflexivity.
      - simpl. subst encoding standalone. simpl in *.
        destruct Henc as [[_ ->] | (n & Hn & _)]; [reflexivity | discriminate]. }
    rewrite (bind_ok _ _ _ _ _ Hparse).
    rewrite (rxml_writer_start_document_run self rwo p o _ _ w Hlive Ho).
    fold w0. rewrite (bind_ok _ _ _ _ _ Hcall). by rewrite Z.eqb_sym. }
  split; [apply Hrun; by left|]. split.
  - rewrite after_call_rwos. simpl. apply lookup_insert_eq.
  - intros Hh. rewrite !Hrun by auto. done.
Qed.

(** X13: [start_document] refuses options that are not a Hash with a
    [TypeError], an [:encoding] that is not an Integer with a [TypeError]
    and one that does not fit a C int with a [RangeError]; in each case the
    world is as it was: the encoding of the session is not touched and no
    native call is made. *)
Theorem start_document_refuses_bad_options
    (options self : VALUE) (w : world) :
  NIL_P options = false ->
  (rb_type options <> T_HASH ->
   exists msg,
     send "start_document" [options] self w = (Raised (TypeError msg), w)) /\
  (forall h n,
     options = Hash h ->
     rb_hash_aref options sEncoding = Fixnum n ->
     ~ (-2147483648 <= n <= 2147483647)%Z ->
     exists msg,
       send "start_document" [options] self w = (Raised (RangeError msg), w)) /\
  (forall h,
     options = Hash h ->
     NIL_P (rb_hash_aref options sEncoding) = false ->
     rb_type (rb_hash_aref options sEncoding) <> T_FIXNUM ->
     exists msg,
       send "start_document" [options] self w = (Raised (TypeError msg), w)).
Proof.
  intros Hnil.
  change (send "start_document" [options] self)
    with (rxml_writer_start_document [options] self).
  unfold rxml_writer_start_document.
  rewrite (bind_ok _ _ w w [options]) by reflexivity.
  unfold arg. simpl. rewrite Hnil. simpl.
  split_and!.
  - intros Hty. unfold Check_Type.
    rewrite bool_decide_eq_false_2 by done.
    eexists. reflexivity.
  - intros h n -> Henc Hrange. simpl in *. rewrite Henc. simpl.
    replace ((-2147483648 <=? n)%Z && (n <=? 2147483647)%Z) with false.
    + eexists. reflexivity.
    + symmetry. apply andb_false_iff.
      destruct (Z.leb_spec (-2147483648) n); [right|by left].
      apply Z.leb_gt. lia.
  - intros h -> Hnn Hty. simpl in *. rewrite Hnn.
    destruct (from_option snd Qnil _); simpl in *; try done;
      eexists; reflexivity.
Qed.


(** *** More on flush and result *)

(** [result] on a string-sink session whose writer is not in error: the
    text returned, and the session it leaves. *)
Lemma result_string_sink (self : VALUE) (rwo p b : ptr)
    (o : rxml_writer_object) (xw : xmlTextWriter) (content : string)
    (w : world) :
  live self rwo p w ->
  rwos w !! rwo = Some o ->
  writers w !! p = Some xw ->
  buffer o = Some b ->
  buffers w !! b = Some content ->
  xml_flush_error env (xw_state xw) = None ->
  exists w',
    send "result" [] self w
    = (Ok (Str (content +:+ xw_out xw) (encoding o)), w') /\
    live self rwo p w' /\
    rwos w' !! rwo = Some o /\
    writers w' !! p = Some {| xw_sink := xw_sink xw; xw_out := "";
                              xw_state := xw_state xw |} /\
    buffers w' !! b = Some (content +:+ xw_out xw).
Proof.
  intros Hlive Ho Hp Hb Hc He.
  rewrite (rxml_writer_result_unfold self rwo p o w Hlive Ho).
  destruct (buffer_of_string_sink self rwo p o xw w Hlive Ho Hp) as [Hstr Hnot].
  assert (Hty : output_type o = RXMLW_OUTPUT_STRING).
  { destruct (decide (output_type o = RXMLW_OUTPUT_STRING)) as [Hty|Hty];
      [done|]. rewrite (Hnot Hty) in Hb. discriminate. }
  destruct (Hstr Hty) as (b' & _ & Hb' & Hk & _).
  replace b' with b in * by congruence.
  assert (Hio : output_type o <> RXMLW_OUTPUT_IO) by (rewrite Hty; discriminate).
  destruct (xmlTextWriterFlush_ok self rwo p o xw w Hlive Ho Hp He Hio)
    as (w1 & Hsink & Hflush).
  destruct (xmlTextWriterFlush_live self rwo p w Hlive)
    as (n & wf & Hflush' & Hlive_f & Hrwos_f).
  rewrite Hflush in Hflush'. injection Hflush' as <- <-.
  destruct (sink_write_live self rwo p o xw (xw_out xw) w Hlive Ho Hp)
    as (w1' & Hsink' & Hrwos & Hwriters & _ & Hbuf).
  assert (w1' = w1) as -> by congruence.
  rewrite Hk in Hbuf. destruct Hbuf as (content' & Hc' & Hbuf & _).
  replace content' with content in * by congruence.
  rewrite (bind_ok _ _ _ _ _ Hflush).
  replace (strlen (xw_out xw) =? -1)%Z with false
    by (symmetry; apply Z.eqb_neq; pose proof (strlen_nonneg (xw_out xw)); lia).
  rewrite Hty, Hb.
  assert (Hcf : buffers (flushed p xw w1) !! b = Some (content +:+ xw_out xw)).
  { simpl. rewrite Hbuf. apply lookup_insert_eq. }
  rewrite (bind_ok _ _ _ _ _ (deref_buffer_live _ _ _ Hcf)).
  eexists. split; [reflexivity|]. split_and!; try done.
  - congruence.
  - simpl. apply lookup_insert_eq.
Qed.

(** X15: on a string-sink session, [flush(false)] is a read that can be
    repeated: a second [flush(false)] returns the same text, and so does
    the [flush] with no argument that follows, which is the one that
    empties the buffer. *)
Theorem flush_false_keeps_the_text
    (self : VALUE) (rwo p b : ptr) (o : rxml_writer_object)
    (xw : xmlTextWriter) (content : string) (w : world) :
  live self rwo p w ->
  rwos w !! rwo = Some o ->
  writers w !! p = Some xw ->
  buffer o = Some b ->
  buffers w !! b = Some content ->
  xml_flush_error env (xw_state xw) = None ->
  let text := Str (content +:+ xw_out xw) (encoding o) in
  exists w1 w2 w3,
    send "flush" [Qfalse] self w = (Ok text, w1) /\
    send "flush" [Qfalse] self w1 = (Ok text, w2) /\
    send "flush" [] self w2 = (Ok text, w3) /\
    buffers w3 !! b = Some "".
Proof.
  intros Hlive Ho Hp Hb Hc He text.
  destruct (flush_string_sink self rwo p b o xw content [Qfalse] w
              Hlive Ho Hp Hb Hc He) as (w1 & Hrun1 & Hlive1 & Ho1 & Hp1 & Hc1);
    [simpl; lia|].
  destruct (flush_string_sink self rwo p b o _ _ [Qfalse] w1
              Hlive1 Ho1 Hp1 Hb Hc1 He) as (w2 & Hrun2 & Hlive2 & Ho2 & Hp2 & Hc2);
    [simpl; lia|].
  destruct (flush_string_sink self rwo p b o _ _ [] w2
              Hlive2 Ho2 Hp2 Hb Hc2 He) as (w3 & Hrun3 & _ & _ & _ & Hc3);
    [simpl; lia|].
  simpl in *. rewrite !append_empty_r in *.
  by exists w1, w2, w3.
Qed.

(** X16: on a string-sink session [result] never empties the buffer: a
    second [result] returns the same text, the [flush] that follows returns
    it once more and empties the buffer, and [result] then returns the
    empty string. *)
Theorem result_keeps_the_text
    (self : VALUE) (rwo p b : ptr) (o : rxml_writer_object)
    (xw : xmlTextWriter) (content : string) (w : world) :
  live self rwo p w ->
  rwos w !! rwo = Some o ->
  writers w !! p = Some xw ->
  buffer o = Some b ->
  buffers w !! b = Some content ->
  xml_flush_error env (xw_state xw) = None ->
  let text := Str (content +:+ xw_out xw) (encoding o) in
  exists w1 w2 w3 w4,
    send "result" [] self w = (Ok text, w1) /\
    send "result" [] self w1 = (Ok text, w2) /\
    send "flush" [] self w2 = (Ok text, w3) /\
    send "result" [] self w3 = (Ok (Str "" (encoding o)), w4).
Proof.
  intros Hlive Ho Hp Hb Hc He text.
  destruct (result_string_sink self rwo p b o xw content w
              Hlive Ho Hp Hb Hc He) as (w1 & Hrun1 & Hlive1 & Ho1 & Hp1 & Hc1).
  destruct (result_string_sink self rwo p b o _ _ w1
              Hlive1 Ho1 Hp1 Hb Hc1 He) as (w2 & Hrun2 & Hlive2 & Ho2 & Hp2 & Hc2).
  destruct (flush_string_sink self rwo p b o _ _ [] w2
              Hlive2 Ho2 Hp2 Hb Hc2 He) as (w3 & Hrun3 & Hlive3 & Ho3 & Hp3 & Hc3);
    [simpl; lia|].
  destruct (result_string_sink self rwo p b o _ _ w3
              Hlive3 Ho3 Hp3 Hb Hc3 He) as (w4 & Hrun4 & _).
  simpl in *. rewrite !append_empty_r in *.
  by exists w1, w2, w3, w4.
Qed.


(** *** More on the constructors *)

Ltac constructed :=
  eexists _, _, _, _; split; [reflexivity|];
  split;
    [ eexists _, _, _;
      split_and!;
        [ reflexivity | simpl; apply lookup_insert_eq | reflexivity
        | reflexivity | simpl; apply lookup_insert_eq | unfold shape; simpl ]
    | split; [simpl; apply lookup_insert_eq|] ].

(** X18: when libxml2 can allocate, each constructor returns a live session
    of its kind: a string session with a buffer and no output, a document
    session whose output is the wrapped document, a file session with
    neither, all three in UTF-8, and a stream session whose output is the
    byte sink and whose encoding is the one of the byte sink, UTF-8 when it
    has none. *)
Theorem constructors_make_sessions (cls : rclass) (w : world) :
  (forall a, xml_alloc_error env a = None) ->
  (exists rwo p o w',
     rxml_writer_string cls w = (Ok (Data cXMLWriter (Some rwo)), w') /\
     live (Data cXMLWriter (Some rwo)) rwo p w' /\
     rwos w' !! rwo = Some o /\
     output_type o = RXMLW_OUTPUT_STRING /\ encoding o = rb_utf8_encoding /\
     output o = Qnil /\ exists b, buffer o = Some b /\ buffers w' !! b = Some "")
  /\
  (exists rwo p o w',
     rxml_writer_doc cls w = (Ok (Data cXMLWriter (Some rwo)), w') /\
     live (Data cXMLWriter (Some rwo)) rwo p w' /\
     rwos w' !! rwo = Some o /\
     output_type o = RXMLW_OUTPUT_DOC /\ encoding o = rb_utf8_encoding /\
     rb_obj_is_kind_of (output o) cXMLDocument = true)
  /\
  (forall filename enc, has_nul filename = false ->
   exists rwo p o w',
     rxml_writer_file cls (Str filename enc) w
     = (Ok (Data cXMLWriter (Some rwo)), w') /\
     live (Data cXMLWriter (Some rwo)) rwo p w' /\
     rwos w' !! rwo = Some o /\
     output_type o = RXMLW_OUTPUT_NONE /\ encoding o = rb_utf8_encoding /\
     output o = Qnil /\
     exists xw, writers w' !! p = Some xw /\ xw_sink xw = SinkFile filename)
  /\
  (forall io,
   exists rwo p o w',
     rxml_writer_io cls io w = (Ok (Data cXMLWriter (Some rwo)), w') /\
     live (Data cXMLWriter (Some rwo)) rwo p w' /\
     rwos w' !! rwo = Some o /\
     output_type o = RXMLW_OUTPUT_IO /\ output o = io /\
     encoding o = default rb_utf8_encoding (rb_enc_get io)).
Proof.
  intros Halloc. split_and!.
  - unfold rxml_writer_string. run_constructor. constructed.
    + split; [done|]. eexists. split_and!; [reflexivity | reflexivity |].
      rewrite lookup_insert_eq. by eexists.
    + split_and!; try reflexivity. eexists. split; [reflexivity|].
      simpl. apply lookup_insert_eq.
  - unfold rxml_writer_doc. run_constructor. constructed.
    + split; [done|]. by eexists.
    + split_and!; reflexivity.
  - intros filename enc Hnul. unfold rxml_writer_file. run_constructor.
    rewrite Hnul. run_constructor. constructed.
    + split_and!; [done | done | by eexists].
    + split_and!; try reflexivity. eexists.
      split; [simpl; apply lookup_insert_eq | reflexivity].
  - intros io. unfold rxml_writer_io. run_constructor. constructed.
    + done.
    + split_and!; reflexivity.
Qed.

Lemma fresh_ptr_no_buffer (w : world) : buffers w !! fresh_ptr w = None.
Proof.
  apply not_elem_of_dom. unfold fresh_ptr.
  pose proof (is_fresh (dom (rwos w) ∪ dom (writers w) ∪ dom (buffers w))).
  set_solver.
Qed.

(** X19: when libxml2 cannot allocate the buffer, or allocates it and
    cannot allocate the writer, the string constructor raises the recorded
    error; in the second case it frees the buffer first, so that in both
    cases the buffers and the writers are those it started with. *)
Theorem string_constructor_cleans_up_on_failure
    (cls : rclass) (e : option xmlError) (w : world) :
  xml_alloc_error env BufferCreate = Some e \/
  (xml_alloc_error env BufferCreate = None /\
   forall k, xml_alloc_error env (NewTextWriter k) = Some e) ->
  exists w',
    rxml_writer_string cls w = (Raised (LibXMLError e), w') /\
    buffers w' = buffers w /\ writers w' = writers w /\
    (xml_alloc_error env BufferCreate = None ->
     exists b, last (trace w') = Some (EvBufferFree b)).
Proof.
  intros [Hbuf | [Hbuf Hwr]]; unfold rxml_writer_string.
  - unfold ALLOC, store_rwo, xmlBufferCreate, xml_alloc, mbind, ST_bind, gets,
      modify. simpl. rewrite Hbuf. simpl.
    eexists. split; [reflexivity|]. split_and!; try reflexivity.
    intros ?. congruence.
  - unfold ALLOC, store_rwo, xmlBufferCreate, xmlNewTextWriterMemory,
      new_writer, xmlBufferFree, xml_alloc, mbind, ST_bind, gets, modify.
    simpl. rewrite Hbuf. simpl. rewrite Hwr. simpl.
    unfold deref_buffer. simpl. rewrite lookup_insert_eq. simpl.
    eexists. split; [reflexivity|]. simpl. split_and!; try reflexivity.
    + rewrite delete_insert_eq. apply delete_id.
      match goal with |- buffers w !! fresh_ptr ?w1 = None =>
        apply (fresh_ptr_no_buffer w1) end.
    + intros _. eexists. by rewrite last_snoc.
Qed.


(** X21: marking a live session marks its output when it has one and
    changes nothing: the Document of a document session and the byte sink
    of a stream session are kept reachable, and a string or a file session
    marks nothing. *)
Theorem rxml_writer_mark_marks_the_output
    (self : VALUE) (rwo p : ptr) (o : rxml_writer_object)
    (xw : xmlTextWriter) (w : world) :
  live self rwo p w ->
  rwos w !! rwo = Some o ->
  writers w !! p = Some xw ->
  exists marked,
    rxml_writer_mark rwo w = (Ok marked, w) /\
    match output_type o with
    | RXMLW_OUTPUT_DOC =>
        exists d, xw_sink xw = SinkDoc d /\ marked = [rxml_document_wrap d]
    | RXMLW_OUTPUT_IO =>
        marked = if NIL_P (output o) then [] else [output o]
    | RXMLW_OUTPUT_STRING | RXMLW_OUTPUT_NONE => marked = []
    end.
Proof.
  intros (cls & o' & xw' & -> & Hrwo & Hcl & Hwr & Hxw & Hshape) Ho Hp.
  replace o' with o in * by congruence.
  replace xw' with xw in * by congruence.
  unfold rxml_writer_mark.
  rewrite (bind_ok _ _ _ _ _ (deref_rwo_live _ _ _ Hrwo)).
  unfold shape in Hshape. destruct (output_type o).
  - destruct Hshape as (_ & -> & _). by eexists.
  - destruct (NIL_P (output o)); by eexists.
  - destruct Hshape as (_ & d & Hk & ->). eexists. split; [reflexivity|].
    by exists d.
  - destruct Hshape as (-> & _). by eexists.
Qed.

End WithEnvironment.

(** *** A small environment, to run the definitions *)

(** A native writer that keeps the stack of the open elements and writes
    start tags, text and end tags; every other primitive succeeds and
    writes nothing.  [flush_error] is what its flush answers; the byte
    sinks take every byte. *)
Definition toy_step (c : wcall) (st : list string) : step_result (list string) :=
  let failure :=
    {| rc := -1; next_state := st; emitted := "";
       recorded := Some {| err_code := 1; err_message := "writer error" |} |} in
  match c with
  | StartElement (Some name) =>
      if String.eqb name "" then failure
      else {| rc := strlen name + 2; next_state := name :: st;
              emitted := "<" +:+ name +:+ ">"; recorded := None |}
  | StartElement None => failure
  | EndElement =>
      match st with
      | name :: rest =>
          {| rc := strlen name + 3; next_state := rest;
             emitted := "</" +:+ name +:+ ">"; recorded := None |}
      | [] => failure
      end
  | WriteString (Some content) =>
      {| rc := strlen content; next_state := st; emitted := content;
         recorded := None |}
  | _ => {| rc := 0; next_state := st; emitted := ""; recorded := None |}
  end.

Definition toy_env (flush_error : option (option xmlError)) : environment :=
  {| wstate := list string;
     xml_init := fun _ => [];
     xml_alloc_error := fun _ => None;
     xml_step := toy_step;
     xml_flush_error := fun _ => flush_error;
     xmlGetCharEncodingName := fun _ => Some "UTF-8";
     transcode := fun s _ _ => Some s;
     object_encoding := fun _ => None;
     io_write := fun _ _ bytes => strlen bytes;
     rxml_figure_encoding := fun _ => "UTF-8" |}.

Definition sound_env : environment := toy_env None.

Definition io_error : xmlError :=
  {| err_code := 1546; err_message := "flush error" |}.

Definition broken_env : environment := toy_env (Some (Some io_error)).

(** A string-sink session with the struct at 1, the buffer at 2 and the
    writer at 3, whose writer holds the bytes of one element that have not
    been flushed yet. *)
Definition string_rwo : rxml_writer_object :=
  {| output := Qnil; encoding := "UTF-8"; buffer := Some 2%positive;
     writer := Some 3%positive; output_type := RXMLW_OUTPUT_STRING;
     closed := 0 |}.

Definition string_xw (flush_error : option (option xmlError))
  : xmlTextWriter (toy_env flush_error) :=
  Build_xmlTextWriter (toy_env flush_error) (SinkMemory 2%positive) "<a>x</a>"
    ([] : list string).

Definition string_world (flush_error : option (option xmlError))
  : world (toy_env flush_error) :=
  {| rwos := {[ 1%positive := string_rwo ]};
     writers := {[ 3%positive := string_xw flush_error ]};
     buffers := {[ 2%positive := "" ]};
     last_error := None;
     trace := [] |}.

(** A stream session on the byte sink [io], with pending bytes. *)
Definition io : VALUE := Data cIO (Some 9%positive).

Definition stream_rwo : rxml_writer_object :=
  {| output := io; encoding := "UTF-8"; buffer := None;
     writer := Some 3%positive; output_type := RXMLW_OUTPUT_IO;
     closed := 0 |}.

Definition stream_xw : xmlTextWriter sound_env :=
  Build_xmlTextWriter sound_env (SinkIO 1%positive) "<a>x</a>"
    ([] : list string).

Definition stream_world : world sound_env :=
  {| rwos := {[ 1%positive := stream_rwo ]};
     writers := {[ 3%positive := stream_xw ]};
     buffers := ∅;
     last_error := None;
     trace := [] |}.

Definition session : VALUE := Data cXMLWriter (Some 1%positive).

Lemma string_world_live (flush_error : option (option xmlError)) :
  live (toy_env flush_error) session 1%positive 3%positive
    (string_world flush_error).
Proof.
  exists cXMLWriter, string_rwo, (string_xw flush_error).
  split_and!; try reflexivity.
  split; [reflexivity|]. exists 2%positive.
  split_and!; try reflexivity. by eexists.
Qed.

Lemma stream_world_live :
  live sound_env session 1%positive 3%positive stream_world.
Proof.
  exists cXMLWriter, stream_rwo, stream_xw.
  split_and!; try reflexivity. by split.
Qed.

(** [start_element("a")], [write_string("x")], [end_element] and then
    [result] on a new string-sink session give the text of the element. *)
Definition empty_world : world sound_env :=
  {| rwos := ∅; writers := ∅; buffers := ∅; last_error := None; trace := [] |}.

Definition element_with_text_program : ST (world sound_env) VALUE :=
  s ← rxml_writer_string sound_env cXMLWriter;
  _ ← send sound_env "start_element" [Str "a" "UTF-8"] s;
  _ ← send sound_env "write_string" [Str "x" "UTF-8"] s;
  _ ← send sound_env "end_element" [] s;
  send sound_env "result" [] s.

Example element_with_text :
  (element_with_text_program empty_world).1 = Ok (Str "<a>x</a>" "UTF-8").
Proof. vm_compute. reflexivity. Qed.

(** [end_element] with no open element: the native call fails and the
    operation returns [false]. *)
Example end_element_without_element :
  (send sound_env "end_element" [] session (string_world None)).1 = Ok Qfalse.
Proof. vm_compute. reflexivity. Qed.

(** A text with a NUL byte is refused before any native call. *)
Example write_string_with_nul :
  send sound_env "write_string"
    [Str (String "a" (String NUL "b")) "UTF-8"] session (string_world None)
  = (Raised (ArgError "string contains null byte"), string_world None).
Proof. reflexivity. Qed.

Ltac pick_operation := repeat (first [left; reflexivity | right]).

Lemma boolean_operations_map_native_result_witness :
  (exists w',
     rb_call sound_env (Arity1 sound_env (rxml_writer_start_element sound_env))
       [Str "a" "UTF-8"] session (string_world None) = (Ok Qtrue, w') /\
     trace sound_env w'
     = [EvWriter (Some 3%positive) (StartElement (Some "a")) 3]) /\
  (exists w',
     rb_call sound_env (Arity0 sound_env (rxml_writer_end_element sound_env))
       [] session (string_world None) = (Ok Qfalse, w') /\
     trace sound_env w' = [EvWriter (Some 3%positive) EndElement (-1)]).
Proof.
  split.
  - destruct (boolean_operations_map_native_result sound_env "start_element"
                (Arity1 sound_env (rxml_writer_start_element sound_env))
                [Str "a" "UTF-8"] session 1%positive 3%positive string_rwo
                (string_world None))
      as (out & w' & calls & Hrun & Htr & Hv & Hok);
      [unfold boolean_operations; simpl; pick_operation
      | apply string_world_live | reflexivity |].
    destruct (Hok eq_refl) as [v ->].
    pose proof Hrun as Heval. vm_compute in Heval.
    injection Heval as Hvalue Hworld.
    exists w'. rewrite Hrun, <- Hvalue, <- Hworld. split; reflexivity.
  - destruct (boolean_operations_map_native_result sound_env "end_element"
                (Arity0 sound_env (rxml_writer_end_element sound_env))
                [] session 1%positive 3%positive string_rwo
                (string_world None))
      as (out & w' & calls & Hrun & Htr & Hv & Hok);
      [unfold boolean_operations; simpl; pick_operation
      | apply string_world_live | reflexivity |].
    destruct (Hok eq_refl) as [v ->].
    pose proof Hrun as Heval. vm_compute in Heval.
    injection Heval as Hvalue Hworld.
    exists w'. rewrite Hrun, <- Hvalue, <- Hworld. split; reflexivity.
Defined.


Lemma flush_returns_text_or_count_witness :
  exists b content,
    buffer string_rwo = Some b /\
    buffers sound_env (string_world None) !! b = Some content /\
    forall argv, (List.length argv <= 1)%nat ->
    exists w1,
      send sound_env "flush" argv session (string_world None)
      = (Ok (Str (content +:+ "<a>x</a>") "UTF-8"), w1) /\
      buffers sound_env w1 !! b
      = Some (if is_Qfalse (arg 0 argv) then content +:+ "<a>x</a>" else "") /\
      (is_Qfalse (arg 0 argv) = false ->
       forall argv2, (List.length argv2 <= 1)%nat ->
       exists w2, send sound_env "flush" argv2 session w1
                  = (Ok (Str "" "UTF-8"), w2)).
Proof.
  apply (proj1 (flush_returns_text_or_count sound_env session
                  1%positive 3%positive string_rwo (string_xw None)
                  (string_world None) (string_world_live None)
                  eq_refl eq_refl eq_refl)).
  reflexivity.
Defined.

Lemma result_flushes_then_returns_artifact_witness :
  exists v w1,
    xmlTextWriterFlush sound_env (Some 3%positive) (string_world None)
    = (Ok 8%Z, w1) /\
    send sound_env "result" [] session (string_world None) = (Ok v, w1) /\
    exists b content,
      buffer string_rwo = Some b /\
      buffers sound_env (string_world None) !! b = Some content /\
      v = Str (content +:+ "<a>x</a>") "UTF-8".
Proof.
  destruct (result_flushes_then_returns_artifact sound_env session
              1%positive 3%positive string_rwo (string_xw None)
              (string_world None) (string_world_live None)
              eq_refl eq_refl eq_refl) as (v & w1 & Hflush & Hrun & Hv).
  exists v, w1. split; [exact Hflush|]. split; [|exact Hv].
  apply Hrun. intros Hio. discriminate Hio.
Defined.

Lemma closed_session_callback_is_noop_witness :
  exists w',
    rb_data_free sound_env session stream_world = (Ok tt, w') /\
    trace sound_env w' = [EvFreeTextWriter 3%positive] /\
    rwos sound_env w' !! 1%positive = None /\
    writers sound_env w' !! 3%positive = None.
Proof.
  apply (proj2 (proj2 (closed_session_callback_is_noop sound_env session
                         1%positive 3%positive stream_rwo stream_xw
                         stream_world stream_world_live
                         eq_refl eq_refl eq_refl))).
Defined.

Lemma flush_and_result_raise_on_native_failure_witness :
  (forall argv, (List.length argv <= 1)%nat ->
     (send broken_env "flush" argv session (string_world (Some (Some io_error)))).1
     = Raised (LibXMLError (Some io_error))) /\
  (send broken_env "result" [] session (string_world (Some (Some io_error)))).1
  = Raised (LibXMLError (Some io_error)).
Proof.
  destruct (proj1 (flush_and_result_raise_on_native_failure broken_env session
                     1%positive 3%positive
                     (string_world (Some (Some io_error)))
                     (string_world_live (Some (Some io_error))))
              _ eq_refl) as [Hflush Hresult].
  split.
  - intros argv Hlen. by rewrite (Hflush argv Hlen).
  - by rewrite Hresult.
Defined.


(** *** The further properties, on the small environment *)

Lemma operations_keep_the_sink_witness :
  same_sinks sound_env (string_world None)
    (rb_call sound_env (Arity1 sound_env (rxml_writer_write_string sound_env))
       [Str "x" "UTF-8"] session (string_world None)).2.
Proof.
  apply (operations_keep_the_sink sound_env "write_string").
  unfold boolean_operations. simpl. pick_operation.
Defined.

Lemma only_start_document_sets_the_encoding_witness :
  rwos sound_env
    (rb_call sound_env (Arity1 sound_env (rxml_writer_write_string sound_env))
       [Str "x" "UTF-8"] session (string_world None)).2
  = rwos sound_env (string_world None).
Proof.
  apply (only_start_document_sets_the_encoding sound_env "write_string").
  - unfold boolean_operations. simpl. pick_operation.
  - discriminate.
Defined.

Lemma wrong_argument_count_is_refused_witness :
  rb_call sound_env (Variadic sound_env (rxml_writer_write_element sound_env))
    [] session (string_world None)
  = (Raised (ArgError "wrong number of arguments"), string_world None).
Proof.
  apply (wrong_argument_count_is_refused sound_env "write_element"
           (Variadic sound_env (rxml_writer_write_element sound_env))
           1%nat 2%nat).
  - unfold rxml_init_writer, rb_define_method. simpl. pick_operation.
  - reflexivity.
  - simpl. lia.
Defined.


Lemma write_element_ns_is_start_then_end_witness :
  send sound_env "write_element_ns"
    [Str "p" "UTF-8"; Str "a" "UTF-8"; Str "urn:x" "UTF-8"] session
    (string_world None)
  = (_ ← rxml_writer_start_element_ns sound_env
           [Str "p" "UTF-8"; Str "a" "UTF-8"; Str "urn:x" "UTF-8"] session;
     rxml_writer_end_element sound_env session) (string_world None).
Proof.
  pose proof (write_element_ns_is_start_then_end sound_env
                (Str "p" "UTF-8") (Str "a" "UTF-8") (Str "urn:x" "UTF-8")
                session (string_world None) _ _
                (surjective_pairing _)) as [Hstart _].
  apply Hstart. vm_compute. discriminate.
Defined.

Lemma start_document_sets_encoding_then_calls_witness :
  exists ret w',
    send sound_env "start_document"
      [Hash [("encoding", Fixnum 1); ("standalone", Qtrue)]] session
      (string_world None)
    = (Ok (if (ret =? -1)%Z then Qfalse else Qtrue), w') /\
    rwos sound_env w' !! 1%positive = Some (set_encoding "UTF-8" string_rwo).
Proof.
  assert (Hrange : (-2147483648 <= 1 <= 2147483647)%Z) by lia.
  destruct (start_document_sets_encoding_then_calls sound_env session
              1%positive 3%positive string_rwo
              [("encoding", Fixnum 1); ("standalone", Qtrue)]
              (string_world None) (string_world_live None) eq_refl
              (Some "UTF-8")
              (or_intror (ex_intro _ 1%Z
                            (conj eq_refl (conj Hrange eq_refl)))))
    as (ret & w' & _ & Hsend & Hrwos & _).
  exists ret, w'. split; [exact Hsend | exact Hrwos].
Defined.

Lemma start_document_refuses_bad_options_witness :
  (exists msg,
     send sound_env "start_document" [Fixnum 3] session (string_world None)
     = (Raised (TypeError msg), string_world None)) /\
  (exists msg,
     send sound_env "start_document"
       [Hash [("encoding", Fixnum 4294967296)]] session (string_world None)
     = (Raised (RangeError msg), string_world None)) /\
  (exists msg,
     send sound_env "start_document"
       [Hash [("encoding", Str "UTF-8" "UTF-8")]] session (string_world None)
     = (Raised (TypeError msg), string_world None)).
Proof.
  split_and!.
  - apply (proj1 (start_document_refuses_bad_options sound_env (Fixnum 3)
                    session (string_world None) eq_refl)).
    discriminate.
  - apply (proj1 (proj2 (start_document_refuses_bad_options sound_env
                           (Hash [("encoding", Fixnum 4294967296)])
                           session (string_world None) eq_refl))
             [("encoding", Fixnum 4294967296)] 4294967296%Z eq_refl eq_refl).
    lia.
  - apply (proj2 (proj2 (start_document_refuses_bad_options sound_env
                           (Hash [("encoding", Str "UTF-8" "UTF-8")])
                           session (string_world None) eq_refl))
             [("encoding", Str "UTF-8" "UTF-8")] eq_refl eq_refl).
    discriminate.
Defined.


Lemma flush_false_keeps_the_text_witness :
  exists w1 w2 w3,
    send sound_env "flush" [Qfalse] session (string_world None)
    = (Ok (Str "<a>x</a>" "UTF-8"), w1) /\
    send sound_env "flush" [Qfalse] session w1
    = (Ok (Str "<a>x</a>" "UTF-8"), w2) /\
    send sound_env "flush" [] session w2 = (Ok (Str "<a>x</a>" "UTF-8"), w3) /\
    buffers sound_env w3 !! 2%positive = Some "".
Proof.
  exact (flush_false_keeps_the_text sound_env session
           1%positive 3%positive 2%positive string_rwo (string_xw None) ""
           (string_world None) (string_world_live None)
           eq_refl eq_refl eq_refl eq_refl eq_refl).
Defined.

Lemma result_keeps_the_text_witness :
  exists w1 w2 w3 w4,
    send sound_env "result" [] session (string_world None)
    = (Ok (Str "<a>x</a>" "UTF-8"), w1) /\
    send sound_env "result" [] session w1
    = (Ok (Str "<a>x</a>" "UTF-8"), w2) /\
    send sound_env "flush" [] session w2 = (Ok (Str "<a>x</a>" "UTF-8"), w3) /\
    send sound_env "result" [] session w3 = (Ok (Str "" "UTF-8"), w4).
Proof.
  exact (result_keeps_the_text sound_env session
           1%positive 3%positive 2%positive string_rwo (string_xw None) ""
           (string_world None) (string_world_live None)
           eq_refl eq_refl eq_refl eq_refl eq_refl).
Defined.






Lemma constructors_make_sessions_witness :
  exists rwo p o w',
    rxml_writer_io sound_env cXMLWriter io empty_world
    = (Ok (Data cXMLWriter (Some rwo)), w') /\
    live sound_env (Data cXMLWriter (Some rwo)) rwo p w' /\
    rwos sound_env w' !! rwo = Some o /\
    output_type o = RXMLW_OUTPUT_IO /\ output o = io /\
    encoding o = "UTF-8".
Proof.
  apply (proj2 (proj2 (proj2 (constructors_make_sessions sound_env cXMLWriter
                                empty_world (fun _ => eq_refl))))).
Defined.

(** An environment in which libxml2 allocates buffers and no writer. *)
Definition no_writer_env : environment :=
  {| wstate := list string;
     xml_init := fun _ => [];
     xml_alloc_error := fun a =>
       match a with BufferCreate => None | _ => Some (Some io_error) end;
     xml_step := toy_step;
     xml_flush_error := fun _ => None;
     xmlGetCharEncodingName := fun _ => Some "UTF-8";
     transcode := fun s _ _ => Some s;
     object_encoding := fun _ => None;
     io_write := fun _ _ bytes => strlen bytes;
     rxml_figure_encoding := fun _ => "UTF-8" |}.

Definition no_writer_world : world no_writer_env :=
  {| rwos := ∅; writers := ∅; buffers := ∅; last_error := None; trace := [] |}.

Lemma string_constructor_cleans_up_on_failure_witness :
  exists w',
    rxml_writer_string no_writer_env cXMLWriter no_writer_world
    = (Raised (LibXMLError (Some io_error)), w') /\
    buffers no_writer_env w' = ∅ /\ writers no_writer_env w' = ∅.
Proof.
  destruct (string_constructor_cleans_up_on_failure no_writer_env cXMLWriter
              (Some io_error) no_writer_world
              (or_intror (conj eq_refl (fun _ => eq_refl))))
    as (w' & Hrun & Hbuffers & Hwriters & _).
  by exists w'.
Defined.


Lemma rxml_writer_mark_marks_the_output_witness :
  exists marked,
    rxml_writer_mark sound_env 1%positive stream_world
    = (Ok marked, stream_world) /\
    marked = [io].
Proof.
  exact (rxml_writer_mark_marks_the_output sound_env session
           1%positive 3%positive stream_rwo stream_xw stream_world
           stream_world_live eq_refl eq_refl).
Defined.

End Writer.
